(** * XsigtoPdf: the XSIG to PDF conversion core of [xsig_pdf.py]

    A shallow embedding of the four components of [xsig_pdf.py]
    (container extractor, certificate interpreter, invoice mapper,
    document renderer) and of the pipeline entry point, followed by the
    properties the specification states about them. *)

From Stdlib Require Import ZArith List Bool Ascii String Strings.Byte QArith.
From stdpp Require Import gmap strings list.

Local Open Scope Z_scope.

(** [bytes] objects are lists of bytes. *)
Abbreviation bytes := (list byte).

(** ** Container extractor: [_extract_xml_from_xsig_bytes] *)

Module Extractor.

(** [s.startswith(sub)], the test [bytes.find] performs at each offset. *)
Fixpoint startswith (sub s : bytes) : bool :=
  match sub, s with
  | [], _ => true
  | _ :: _, [] => false
  | a :: sub', b :: s' => Byte.eqb a b && startswith sub' s'
  end.

(** [s.find(sub)]: lowest index where [sub] occurs, [-1] when it does not.
    [find_from sub s i] scans [s], whose first byte has index [i]. *)
Fixpoint find_from (sub s : bytes) (i : Z) : Z :=
  if startswith sub s then i
  else match s with
       | [] => -1
       | _ :: s' => find_from sub s' (i + 1)
       end.

Definition find (s sub : bytes) : Z := find_from sub s 0.

(** [s.rfind(sub)]: highest index where [sub] occurs, [-1] when it does
    not. *)
Fixpoint rfind_from (sub s : bytes) (i : Z) : Z :=
  match s with
  | [] => if startswith sub [] then i else -1
  | _ :: s' =>
      let r := rfind_from sub s' (i + 1) in
      if r =? -1 then (if startswith sub s then i else -1) else r
  end.

Definition rfind (s sub : bytes) : Z := rfind_from sub s 0.

(** Python slice bounds: a negative bound counts from the end, and both
    bounds are clamped to [0, len]. *)
Definition clamp_index (len i : Z) : Z :=
  if i <? 0 then Z.max 0 (len + i) else Z.min i len.

(** [s[a:b]]. *)
Definition slice (s : bytes) (a b : Z) : bytes :=
  let len := Z.of_nat (length s) in
  let a' := clamp_index len a in
  let b' := clamp_index len b in
  take (Z.to_nat (b' - a')) (drop (Z.to_nat a') s).

(** [b"<?xml"] and [b">"]. *)
Definition xml_marker : bytes := [x3c; x3f; x78; x6d; x6c].
Definition gt_byte : byte := x3e.

Definition _extract_xml_from_xsig_bytes (xsig_bytes : bytes) : bytes :=
  let xml_start := find xsig_bytes xml_marker in
  let xml_end := rfind xsig_bytes [gt_byte] + 1 in
  if negb (xml_start =? -1) && (xml_end >? xml_start)
  then slice xsig_bytes xml_start xml_end
  else xsig_bytes.

(** *** What the specification speaks of: occurrences *)

(** [sub] occurs in [s] at offset [i]. *)
Definition occurs_at (sub s : bytes) (i : nat) : Prop :=
  (i <= length s)%nat /\ exists rest, drop i s = sub ++ rest.

Definition first_occurrence (sub s : bytes) (i : nat) : Prop :=
  occurs_at sub s i /\ forall j, (j < i)%nat -> ~ occurs_at sub s j.

Definition last_byte_occurrence (b : byte) (s : bytes) (j : nat) : Prop :=
  s !! j = Some b /\ forall k, (j < k)%nat -> s !! k <> Some b.

(** The bytes of [s] from offset [i] to offset [j], both included. *)
Definition inclusive_slice (s : bytes) (i j : nat) : bytes :=
  take (j - i + 1) (drop i s).

End Extractor.

(** ** Python values used throughout *)

(** [try: ... except Exception as e:] distinguishes a raised exception,
    known by its message [str(e)], from a returned value. *)
Inductive Exc (A : Type) : Type :=
  | Raise (msg : string)
  | Return (a : A).
Arguments Raise {A} msg.
Arguments Return {A} a.

(** Sequencing inside a [try] body: the first exception raised ends it. *)
#[global] Instance Exc_bind : MBind Exc := fun A B k m =>
  match m with
  | Raise e => Raise e
  | Return a => k a
  end.

(** [d.get(key, default)] on a [dict] with string keys and values. *)
Definition dict_get (d : gmap string string) (key default : string) : string :=
  match d !! key with
  | Some v => v
  | None => default
  end.

Module PyStr.

(** Text is held as a Rocq [string]: the bytes of its UTF-8 encoding. A
    character is a lead byte together with the continuation bytes, those
    of the form [10xxxxxx], that follow it. *)
Definition is_continuation (b : ascii) : bool :=
  let n := nat_of_ascii b in ((128 <=? n) && (n <? 192))%nat.

(** The text starts in the middle of a character. *)
Definition continues (t : string) : bool :=
  match t with
  | String b _ => is_continuation b
  | EmptyString => false
  end.

(** The characters of a text, in order. *)
Fixpoint chars (s : string) : list string :=
  match s with
  | EmptyString => []
  | String b s' =>
      match chars s' with
      | t :: l => if continues t then String b t :: l else String b "" :: t :: l
      | [] => [String b ""]
      end
  end.

(** A character as [chars] gives it: a byte followed by continuation
    bytes only. *)
Fixpoint all_continuation (s : string) : bool :=
  match s with
  | EmptyString => true
  | String b s' => is_continuation b && all_continuation s'
  end.

Definition is_char (t : string) : bool :=
  match t with
  | EmptyString => false
  | String _ r => all_continuation r
  end.

(** A list of characters as [chars] gives it: none but the first starts
    with a continuation byte. *)
Definition are_chars (l : list string) : bool :=
  forallb is_char l && forallb (fun t => negb (continues t)) (tail l).

(** [len(s)]: the number of characters. *)
Definition len (s : string) : nat := length (chars s).

(** [str.join] with the empty separator. *)
Definition join (l : list string) : string := fold_right String.append "" l.

Definition code (b : ascii) : Z := Z.of_nat (nat_of_ascii b).

(** [str.isspace] on one character: U+0009..U+000D, U+001C..U+001F,
    U+0020, U+0085, U+00A0, U+1680, U+2000..U+200A, U+2028, U+2029,
    U+202F, U+205F and U+3000, each by the bytes of its encoding. *)
Definition isspace (ch : string) : bool :=
  match map code (list_ascii_of_string ch) with
  | [a] => (9 <=? a) && (a <=? 13) || (28 <=? a) && (a <=? 32)
  | [a; b] => (a =? 194) && ((b =? 133) || (b =? 160))
  | [a; b; c] =>
      (a =? 225) && (b =? 154) && (c =? 128)
      || (a =? 226) && (b =? 128)
         && ((128 <=? c) && (c <=? 138) || (c =? 168) || (c =? 169)
             || (c =? 175))
      || (a =? 226) && (b =? 129) && (c =? 159)
      || (a =? 227) && (b =? 128) && (c =? 128)
  | _ => false
  end.

(** [s.lstrip()], on the characters of [s]. *)
Fixpoint lstrip_chars (l : list string) : list string :=
  match l with
  | [] => []
  | ch :: l' => if isspace ch then lstrip_chars l' else l
  end.

(** [s.rstrip()]: the characters before the trailing run of whitespace. *)
Fixpoint rstrip_chars (l : list string) : list string :=
  match l with
  | [] => []
  | ch :: l' =>
      match rstrip_chars l' with
      | [] => if isspace ch then [] else [ch]
      | r => ch :: r
      end
  end.

(** [s.strip()]. *)
Definition strip (s : string) : string :=
  join (rstrip_chars (lstrip_chars (chars s))).

(** [s.startswith(prefix)]. *)
Definition startswith (s pre : string) : bool := String.prefix pre s.

(** [s.upper()] on the letters of the ASCII range, where the names of the
    hash algorithms lie. *)
Definition upper_char (c : ascii) : ascii :=
  let n := nat_of_ascii c in
  if ((97 <=? n) && (n <=? 122))%nat then ascii_of_nat (n - 32) else c.

Fixpoint upper (s : string) : string :=
  match s with
  | EmptyString => EmptyString
  | String c s' => String (upper_char c) (upper s')
  end.

(** Truth value of a string: [if s:] holds for the non-empty ones. *)
Definition truthy (s : string) : bool :=
  match s with EmptyString => false | _ => true end.

End PyStr.

(** ** [xml.etree.ElementTree] elements and the paths the code uses *)

Module ET.

(** An element: its tag (a namespaced tag reads [{uri}local]), its text
    ([None] when the element has no text) and its children in document
    order. *)
#[local] Unset Elimination Schemes.
Inductive Element : Type :=
  Elem (tag : string) (text : option string) (children : list Element).
#[local] Set Elimination Schemes.

Definition tag (e : Element) : string := let 'Elem t _ _ := e in t.
Definition text (e : Element) : option string := let 'Elem _ x _ := e in x.
Definition children (e : Element) : list Element := let 'Elem _ _ c := e in c.

(** [elem.iter()]: the element, then its descendants, in document order. *)
Fixpoint iter (e : Element) : list Element :=
  match e with
  | Elem _ _ cs =>
      e :: (fix iter_each (l : list Element) : list Element :=
              match l with
              | [] => []
              | c :: l' => iter c ++ iter_each l'
              end) cs
  end.

Definition has_tag (t : string) (e : Element) : bool := String.eqb (tag e) t.

(** The steps of the paths in use: [.], [tag] or [/tag] (children with
    that tag) and [//tag] (descendants with that tag, the context element
    left out). *)
Inductive Step : Type :=
  | Self
  | Child (t : string)
  | Descendant (t : string).

(** One selector of [ElementPath], applied to the current result list. *)
Definition select (st : Step) (result : list Element) : list Element :=
  match st with
  | Self => result
  | Child t => flat_map (fun e => List.filter (has_tag t) (children e)) result
  | Descendant t =>
      flat_map (fun e => List.filter (has_tag t) (tail (iter e))) result
  end.

(** [elem.findall(path)]: the selectors applied in turn, from [[elem]]. *)
Definition findall (e : Element) (path : list Step) : list Element :=
  fold_left (fun result st => select st result) path [e].

(** [elem.find(path)]: the first match, [None] without one. *)
Definition find (e : Element) (path : list Step) : option Element :=
  head (findall e path).

(** [elem.findtext(path, default)]: the text of the first match, [""] when
    that element has no text, [default] without a match. *)
Definition findtext (e : Element) (path : list Step) (default : string)
  : string :=
  match find e path with
  | Some m => match text m with Some x => x | None => "" end
  | None => default
  end.

End ET.

(** ** [datetime]: naive instants, [strptime] and [strftime] *)

Module Datetime.

(** A naive [datetime]: the calendar fields, no time zone. *)
Record naive : Type := Naive {
  year : Z; month : Z; day : Z;
  hour : Z; minute : Z; second : Z; microsecond : Z
}.

(** Naive instants compare field by field, year first. *)
Definition fields (d : naive) : list Z :=
  [year d; month d; day d; hour d; minute d; second d; microsecond d].

Fixpoint lex_compare (a b : list Z) : comparison :=
  match a, b with
  | [], [] => Eq
  | [], _ :: _ => Lt
  | _ :: _, [] => Gt
  | x :: a', y :: b' =>
      match x ?= y with
      | Eq => lex_compare a' b'
      | c => c
      end
  end.

Definition compare (a b : naive) : comparison :=
  lex_compare (fields a) (fields b).

(** [a < b], [a > b] and [a <= b]. *)
Definition lt (a b : naive) : bool :=
  match compare a b with Lt => true | _ => false end.
Definition gt (a b : naive) : bool :=
  match compare a b with Gt => true | _ => false end.
Definition le (a b : naive) : bool :=
  match compare a b with Gt => false | _ => true end.

(** A [datetime] as a parser returns it: the calendar fields and, when the
    text carried one, a UTC offset in seconds. *)
Record datetime : Type := Datetime {
  wall : naive;
  tzinfo : option Z
}.

(** [dt.replace(tzinfo=None)]: the same calendar fields, the offset
    dropped. *)
Definition replace_tzinfo_None (dt : datetime) : naive := wall dt.

Definition is_leap (y : Z) : bool :=
  (y mod 4 =? 0) && (negb (y mod 100 =? 0) || (y mod 400 =? 0)).

Definition days_in_month (y m : Z) : Z :=
  if m =? 2 then (if is_leap y then 29 else 28)
  else if (m =? 4) || (m =? 6) || (m =? 9) || (m =? 11) then 30
  else 31.

(** *** [strftime] *)

Definition digit (n : Z) : ascii := ascii_of_nat (48 + Z.to_nat n).

(** [%d], [%m], [%H], [%M] and [%S]: two digits, zero-padded. *)
Definition pad2 (n : Z) : string :=
  String (digit (n / 10)) (String (digit (n mod 10)) EmptyString).

(** A year written on four digits. *)
Definition pad4 (n : Z) : string :=
  String (digit (n / 1000)) (String (digit (n / 100 mod 10))
    (String (digit (n / 10 mod 10)) (String (digit (n mod 10)) EmptyString))).

Section Platform.

(** [%Y] writes a year from 1000 on with its four digits. A year below
    1000 is written as the C library of the platform writes it, padded with
    zeros or not: [year_below_1000] is that text. *)
Variable year_below_1000 : Z -> string.

Definition strftime_Y (y : Z) : string :=
  if 1000 <=? y then pad4 y else year_below_1000 y.

(** [d.strftime("%d/%m/%Y")]. *)
Definition strftime_dmY (y m d : Z) : string :=
  pad2 d +:+ "/" +:+ pad2 m +:+ "/" +:+ strftime_Y y.

(** [d.strftime("%Y-%m-%d")]. *)
Definition strftime_Ymd (d : naive) : string :=
  strftime_Y (year d) +:+ "-" +:+ pad2 (month d) +:+ "-" +:+ pad2 (day d).

End Platform.

(** *** [datetime.strptime(s, "%Y-%m-%d")]

    [_strptime] turns the format into the regular expression
    [(?P<Y>\d\d\d\d)-(?P<m>1[0-2]|0[1-9]|[1-9])-(?P<d>3[0-1]|[1-2]\d|0[1-9]|[1-9]| [1-9])],
    matches it at the start of the text, rejects text left over after the
    match, and builds the date, which rejects year 0 and days the month
    does not have. The expression is matched character by character. *)

Definition in_range (lo hi c : ascii) : bool :=
  ((nat_of_ascii lo <=? nat_of_ascii c)
   && (nat_of_ascii c <=? nat_of_ascii hi))%nat.

(** The digits of the ASCII range. *)
Definition is_digit (c : ascii) : bool := in_range "0" "9" c.

Definition digit_val (c : ascii) : Z := Z.of_nat (nat_of_ascii c) - 48.

(** The first success of [k] over the alternatives, in order: the
    matcher's backtracking. *)
Fixpoint first_success {A B : Type} (k : A -> option B) (l : list A)
  : option B :=
  match l with
  | [] => None
  | x :: l' => match k x with Some r => Some r | None => first_success k l' end
  end.

Section Decimal.

(** [\d] and [int] take the decimal digits of every script. A character
    of one byte is a digit when it is one of [0] to [9]; for a character of
    more bytes [unicode_decimal] gives its value when the Unicode tables
    have it as a decimal digit. *)
Variable unicode_decimal : string -> option (fin 10).

(** [\d]: the value of the character when it is a decimal digit. *)
Definition decimal (ch : string) : option Z :=
  match ch with
  | String c EmptyString => if is_digit c then Some (digit_val c) else None
  | _ => (fun i => Z.of_nat (fin_to_nat i)) <$> unicode_decimal ch
  end.

(** [[lo-hi]], a range of ASCII digits: the value of the character when
    it lies in the range. *)
Definition range (lo hi : ascii) (ch : string) : option Z :=
  match ch with
  | String c EmptyString =>
      if in_range lo hi c then Some (digit_val c) else None
  | _ => None
  end.

(** The space that may stand for the tens of a day; [int] skips it. *)
Definition space (ch : string) : option Z :=
  if String.eqb ch " " then Some 0 else None.

(** [(?P<Y>\d\d\d\d)]. *)
Definition match_Y (l : list string) : option (Z * list string) :=
  match l with
  | a :: b :: c :: d :: rest =>
      match decimal a, decimal b, decimal c, decimal d with
      | Some x3, Some x2, Some x1, Some x0 =>
          Some (1000 * x3 + 100 * x2 + 10 * x1 + x0, rest)
      | _, _, _, _ => None
      end
  | _ => None
  end.

(** A literal character of the format. *)
Definition match_lit (lit : string) (l : list string)
  : option (list string) :=
  match l with
  | ch :: rest => if String.eqb ch lit then Some rest else None
  | [] => None
  end.

(** One alternative made of a character of the class [c1] and a
    character of the class [c2]; its value is read as [int] reads it. *)
Definition alt2 (c1 c2 : string -> option Z) (l : list string)
  : list (Z * list string) :=
  match l with
  | a :: b :: rest =>
      match c1 a, c2 b with
      | Some x1, Some x0 => [(10 * x1 + x0, rest)]
      | _, _ => []
      end
  | _ => []
  end.

(** One alternative made of a single character of the class [c1]. *)
Definition alt1 (c1 : string -> option Z) (l : list string)
  : list (Z * list string) :=
  match l with
  | a :: rest =>
      match c1 a with
      | Some x0 => [(x0, rest)]
      | None => []
      end
  | [] => []
  end.

(** [(?P<m>1[0-2]|0[1-9]|[1-9])], the alternatives in the order the
    matcher tries them. *)
Definition alts_m (l : list string) : list (Z * list string) :=
  alt2 (range "1" "1") (range "0" "2") l
  ++ alt2 (range "0" "0") (range "1" "9") l
  ++ alt1 (range "1" "9") l.

(** [(?P<d>3[0-1]|[1-2]\d|0[1-9]|[1-9]| [1-9])]. *)
Definition alts_d (l : list string) : list (Z * list string) :=
  alt2 (range "3" "3") (range "0" "1") l
  ++ alt2 (range "1" "2") decimal l
  ++ alt2 (range "0" "0") (range "1" "9") l
  ++ alt1 (range "1" "9") l
  ++ alt2 space (range "1" "9") l.

(** The month, the dash and the day: the first month alternative after
    which the rest of the expression matches, the day being the first of
    its alternatives that matches. *)
Definition match_md (l : list string) : option (Z * Z * list string) :=
  first_success
    (fun '(m, l3) =>
       match match_lit "-" l3 with
       | None => None
       | Some l4 => option_map (fun '(d, l5) => (m, d, l5)) (head (alts_d l4))
       end)
    (alts_m l).

(** The match of the whole expression at the start of the text: year,
    month, day and the characters left over. *)
Definition regex_match (l : list string)
  : option (Z * Z * Z * list string) :=
  match match_Y l with
  | None => None
  | Some (y, l1) =>
      match match_lit "-" l1 with
      | None => None
      | Some l2 => option_map (fun '(m, d, l5) => (y, m, d, l5)) (match_md l2)
      end
  end.

(** [datetime.strptime(s, "%Y-%m-%d")]: the date, or [None] where Python
    raises [ValueError]. *)
Definition strptime_Ymd (s : string) : option (Z * Z * Z) :=
  match regex_match (PyStr.chars s) with
  | None => None
  | Some (y, m, d, rest) =>
      match rest with
      | _ :: _ => None
      | [] =>
          if (1 <=? y) && (d <=? days_in_month y m) then Some (y, m, d)
          else None
      end
  end.

End Decimal.

End Datetime.

(** ** What the libraries hand over *)

(** A parsed [x509.Certificate], as far as the code reads it. *)
Module X509.

Record Certificate : Type := {
  (** [cert.subject.get_attributes_for_oid(oid)]: the values found, by
      dotted OID. *)
  subject : string -> list string;
  (** [cert.issuer.get_attributes_for_oid(oid)]. *)
  issuer : string -> list string;
  (** [cert.signature_hash_algorithm.name], [None] when reading it
      raises. *)
  signature_hash_algorithm : option string;
  not_valid_before : Datetime.naive;
  not_valid_after : Datetime.naive
}.

(** [NameOID.COMMON_NAME] and the serial-number attribute the code names
    by its dotted form. *)
Definition COMMON_NAME : string := "2.5.4.3".
Definition SERIAL_NUMBER : string := "2.5.4.5".

End X509.

(** The flowables of [reportlab.platypus] the renderer builds. A
    [Paragraph] stands for the arguments of the constructor; whether
    reportlab takes its text is the library's [paragraph_error]. *)
Module Reportlab.

Inductive Style : Type :=
  | styleH | styleN | table_cell_style | header_cell_style
  | right_align_style | style_subtitle.

Inductive Color : Type := black | grey | whitesmoke | lightgrey.

(** The [TableStyle] commands in use, each over the cell range
    [(c0, r0), (c1, r1)]. *)
Inductive TableCmd : Type :=
  | BOX (c0 r0 c1 r1 : Z) (width : Q) (color : Color)
  | INNERGRID (c0 r0 c1 r1 : Z) (width : Q) (color : Color)
  | BACKGROUND (c0 r0 c1 r1 : Z) (color : Color)
  | VALIGN (c0 r0 c1 r1 : Z) (v : string)
  | ALIGN (c0 r0 c1 r1 : Z) (a : string).

(** A table holds rows of cells, and a cell a list of flowables (one
    flowable for most cells); column widths are fractions of
    [doc.width]. *)
#[local] Unset Elimination Schemes.
Inductive Flowable : Type :=
  | Paragraph (text : string) (style : Style)
  | Spacer (width height : Z)
  | Table (data : list (list (list Flowable))) (colWidths : list Q)
          (style : list TableCmd).
#[local] Set Elimination Schemes.

(** The paragraphs of a flowable, text and style, in reading order. *)
Fixpoint paragraphs (f : Flowable) : list (string * Style) :=
  match f with
  | Paragraph text style => [(text, style)]
  | Spacer _ _ => []
  | Table data _ _ => flat_map (flat_map (flat_map paragraphs)) data
  end.

Definition is_right_aligned (p : string * Style) : bool :=
  match snd p with right_align_style => true | _ => false end.

(** The texts set in [right_align_style], in reading order. *)
Definition right_aligned_texts (l : list Flowable) : list string :=
  map fst (List.filter is_right_aligned (flat_map paragraphs l)).

(** What [doc.build] receives: the flowables, and the font size the
    shared style [styleN] has by then. *)
Record Story : Type := {
  elements : list Flowable;
  styleN_fontSize : Z
}.

End Reportlab.

(** The library calls whose results the code depends on and whose bodies
    lie outside this program. *)
Record Library : Type := {
  (** [base64.b64decode]. *)
  b64decode : string -> Exc bytes;
  (** [x509.load_der_x509_certificate]. *)
  load_der_x509_certificate : bytes -> Exc X509.Certificate;
  (** [dateutil.parser.parse]. *)
  date_parser_parse : string -> Exc Datetime.datetime;
  (** [fmt.format(float(val))] for [fmt] = ["{:.nf}"], [None] when
      [float(val)] raises. *)
  format_float : nat -> string -> option string;
  (** [ET.fromstring]. *)
  fromstring : bytes -> Exc ET.Element;
  (** [Paragraph(text, style)] parses [text] as markup: [None] when it
      takes the text, the message of the [ValueError] it raises
      otherwise. *)
  paragraph_error : string -> Reportlab.Style -> option string;
  (** [SimpleDocTemplate.build] with the page footer: the bytes of the
      finished document, or the exception the layout raises. *)
  build : Reportlab.Story -> string * string -> Exc bytes;
  (** What [strftime] writes for [%Y] when the year is below 1000. *)
  year_below_1000 : Z -> string;
  (** The value of a decimal digit that lies outside ASCII. *)
  unicode_decimal : string -> option (fin 10)
}.

(** ** Certificate interpreter: [_extract_signature_info_from_xml] *)

Module Interpreter.
Import ET Datetime X509.

(** [l[0]] inside [try: ... except Exception: default]. *)
Definition first_or (l : list string) (default : string) : string :=
  match l with
  | v :: _ => v
  | [] => default
  end.

(** The [ns] prefixes, resolved. *)
Definition ds (name : string) : string :=
  "{http://www.w3.org/2000/09/xmldsig#}" +:+ name.
Definition xades (name : string) : string :=
  "{http://uri.etsi.org/01903/v1.3.2#}" +:+ name.

(** [.//ds:X509Certificate] and [.//xades:SigningTime]. *)
Definition certificate_path : list Step :=
  [Self; Descendant (ds "X509Certificate")].
Definition signing_time_path : list Step :=
  [Self; Descendant (xades "SigningTime")].

(** The texts of the three states of [estado_certificado] and of the two
    decided states of [validez_en_firma]. *)
Definition NotYetValid : string := "Certificado aún no válido (vigencia futura)".
Definition Expired : string := "Certificado caducado".
Definition Valid : string := "Certificado actualmente válido".
Definition ValidAtSigning : string :=
  "Certificado válido en la fecha de la firma".
Definition InvalidAtSigning : string :=
  "Certificado NO era válido en la fecha de la firma".

(** Lines 81-87: the state of the certificate at instant [now]. *)
Definition estado_actual (now valido_desde valido_hasta : naive) : string :=
  if lt now valido_desde then NotYetValid
  else if gt now valido_hasta then Expired
  else Valid.

(** Lines 90-98: validity at the signing time. *)
Definition validez_en_firma (L : Library) (signing_time_str : string)
    (valido_desde valido_hasta : naive) : string :=
  match date_parser_parse L signing_time_str with
  | Return signing_datetime =>
      let signing_naive := replace_tzinfo_None signing_datetime in
      if le valido_desde signing_naive && le signing_naive valido_hasta
      then ValidAtSigning
      else InvalidAtSigning
  | Raise e => "No se pudo validar la fecha de firma: " +:+ e
  end.

(** The body of the outer [try]. [now] stands for [datetime.utcnow()]. *)
Definition signature_info_body (L : Library) (now : naive)
    (xml_root : Element) : Exc (gmap string string) :=
  let cert_base64 := findtext xml_root certificate_path "" in
  if negb (PyStr.truthy cert_base64)
  then Return {[ "estado" := "No se encontró certificado" ]}
  else
    cert_der ← b64decode L cert_base64;
    cert ← load_der_x509_certificate L cert_der;
    let cn := first_or (subject cert COMMON_NAME) "N/A" in
    let nif := first_or (subject cert SERIAL_NUMBER) "N/A" in
    let cert_issuer := first_or (issuer cert COMMON_NAME) "No disponible" in
    let algorithm :=
      match signature_hash_algorithm cert with
      | Some name => PyStr.upper name
      | None => "N/A"
      end in
    let signing_time_str :=
      findtext xml_root signing_time_path "No especificada" in
    let valido_desde := not_valid_before cert in
    let valido_hasta := not_valid_after cert in
    Return (list_to_map
      [ ("estado", "Firma encontrada");
        ("firmante", cn);
        ("nif", nif);
        ("algoritmo", algorithm);
        ("fecha_firma", signing_time_str);
        ("valido_desde", strftime_Ymd (year_below_1000 L) valido_desde);
        ("valido_hasta", strftime_Ymd (year_below_1000 L) valido_hasta);
        ("estado_certificado", estado_actual now valido_desde valido_hasta);
        ("validez_en_firma",
         validez_en_firma L signing_time_str valido_desde valido_hasta);
        ("autoridad_certificadora", cert_issuer) ]).

(** The whole function: the body, and the [except Exception] clause. *)
Definition _extract_signature_info_from_xml (L : Library) (now : naive)
    (xml_root : Element) : gmap string string :=
  match signature_info_body L now xml_root with
  | Return info => info
  | Raise e => {[ "estado" := "Error al extraer firma: " +:+ e ]}
  end.

(** [firma.get("estado", "").startswith("Firma")], the test by which the
    renderer takes a signature as found. *)
Definition found (firma : gmap string string) : bool :=
  PyStr.startswith (dict_get firma "estado" "") "Firma".

End Interpreter.

(** ** Invoice mapper: [_extract_invoice_data_from_xml] *)

Module Mapper.
Import ET.

(** The [data] dict the mapper returns: one field per key, the nested
    dicts as maps. [Numero_de_Factura] is the key ["Número de Factura"]. *)
Record Invoice : Type := {
  Numero_de_Factura : string;
  Fecha : string;
  Tipo_Dcomento : string;
  Moneda : string;
  Clase_Factura : string;
  Total_Factura : string;
  Totales : gmap string string;
  Emisor : gmap string string;
  Receptor : gmap string string;
  Conceptos : list (gmap string string);
  Firma : gmap string string;
  InfoAdicional : string;
  ReferenciasLegales : list string
}.

(** [.//LegalEntity/AddressInSpain/<leaf>]. *)
Definition address_path (leaf : string) : list Step :=
  [Self; Descendant "LegalEntity"; Child "AddressInSpain"; Child leaf].

Definition tax_id_path : list Step :=
  [Self; Descendant "TaxIdentification"; Child "TaxIdentificationNumber"].

Definition corporate_name_path : list Step :=
  [Self; Descendant "LegalEntity"; Child "CorporateName"].

(** Lines 117-138: the [emitter] dict. *)
Definition emitter (xml_root : Element) : gmap string string :=
  let seller_party := find xml_root [Self; Descendant "SellerParty"] in
  let '(tax_id, corporate_name, emitter_address, town, postcode, province) :=
    match seller_party with
    | Some seller_party =>
        let tax_id := findtext seller_party tax_id_path "N/A" in
        let corporate_name := findtext seller_party corporate_name_path "N/A" in
        let address := findtext seller_party (address_path "Address") "N/A" in
        let postcode := findtext seller_party (address_path "PostCode") "N/A" in
        let town := findtext seller_party (address_path "Town") "N/A" in
        let province := findtext seller_party (address_path "Province") "N/A" in
        let country :=
          findtext seller_party (address_path "CountryCode") "N/A" in
        (tax_id, corporate_name,
         address +:+ ", " +:+ postcode +:+ " " +:+ town +:+ ", "
           +:+ province +:+ ", " +:+ country,
         town, postcode, province)
    | None => ("N/A", "N/A", "N/A", "N/A", "N/A", "N/A")
    end in
  list_to_map
    [ ("Nombre", corporate_name);
      ("NIF", tax_id);
      ("Dirección", emitter_address);
      ("Poblacion", town);
      ("Cod.Postal", postcode);
      ("Provincia", province) ].

(** Line 140. *)
Definition invoice_additional_info (xml_root : Element) : string :=
  let found :=
    findtext xml_root
      [Self; Descendant "AdditionalData"; Child "InvoiceAdditionalInformation"]
      "" in
  PyStr.strip (if PyStr.truthy found then found else "").

(** Line 141, the condition of the comprehension:
    [ref.text and ref.text.strip() != ""]. *)
Definition keeps_reference (ref : Element) : bool :=
  match text ref with
  | Some t => PyStr.truthy t && negb (String.eqb (PyStr.strip t) "")
  | None => false
  end.

(** Line 141: [[ref.text.strip() for ref in ... if ...]]. *)
Definition legal_references_of (refs : list Element) : list string :=
  omap (fun ref =>
          if keeps_reference ref
          then PyStr.strip <$> text ref
          else None) refs.

(** [.//LegalLiterals/LegalReference]. *)
Definition legal_reference_path : list Step :=
  [Self; Descendant "LegalLiterals"; Child "LegalReference"].

Definition legal_references (xml_root : Element) : list string :=
  legal_references_of (findall xml_root legal_reference_path).

(** Lines 162-167: one ["code - description"] per administrative centre. *)
Definition destinos (buyer_party : option Element) : list string :=
  match buyer_party with
  | Some buyer_party =>
      map (fun admin =>
             findtext admin [Child "CentreCode"] "N/A" +:+ " - "
               +:+ findtext admin [Child "Name"] "N/A")
          (findall buyer_party
             [Self; Descendant "AdministrativeCentres";
              Child "AdministrativeCentre"])
  | None => []
  end.

(** [destinos[i] if len(destinos) > i else "N/A"]. *)
Definition destino (l : list string) (i : nat) : string :=
  match l !! i with
  | Some d => d
  | None => "N/A"
  end.

(** Lines 143-170: the [receptor] dict. *)
Definition receptor (xml_root : Element) : gmap string string :=
  let buyer_party := find xml_root [Self; Descendant "BuyerParty"] in
  let '(buyer_tax_id, buyer_name, buyer_address) :=
    match buyer_party with
    | Some buyer_party =>
        let buyer_tax_id := findtext buyer_party tax_id_path "N/A" in
        let buyer_name := findtext buyer_party corporate_name_path "N/A" in
        let b_address := findtext buyer_party (address_path "Address") "N/A" in
        let b_postcode := findtext buyer_party (address_path "PostCode") "" in
        let b_town := findtext buyer_party (address_path "Town") "" in
        let b_province := findtext buyer_party (address_path "Province") "" in
        let b_country :=
          findtext buyer_party (address_path "CountryCode") "" in
        (buyer_tax_id, buyer_name,
         b_address +:+ ", " +:+ b_postcode +:+ " " +:+ b_town +:+ ", "
           +:+ b_province +:+ ", " +:+ b_country)
    | None => ("N/A", "N/A", "N/A")
    end in
  let destinos := destinos buyer_party in
  <["UndTram" := destino destinos 2]>
    (<["OrgGest" := destino destinos 1]>
       (<["OfiCont" := destino destinos 0]>
          (list_to_map
             [ ("Nombre", buyer_name);
               ("NIF", buyer_tax_id);
               ("Dirección", buyer_address) ]))).

(** Lines 181-188. *)
Definition invoice_class_map : gmap string string :=
  list_to_map
    [ ("OO", "Original");
      ("OR", "Original Rectificativa");
      ("OC", "Original Recapitulativa");
      ("CO", "Duplicado Original");
      ("CR", "Duplicado Rectificativa");
      ("CC", "Duplicado Recapitulativa") ].

(** Lines 191-194: the issue date, reformatted when [strptime] takes it. *)
Definition issue_date_of (L : Library) (raw_date : string) : string :=
  match Datetime.strptime_Ymd (unicode_decimal L) raw_date with
  | Some (y, m, d) => Datetime.strftime_dmY (year_below_1000 L) y m d
  | None => raw_date
  end.

Definition invoice_element (xml_root : Element) : option Element :=
  find xml_root [Self; Descendant "Invoices"; Child "Invoice"].

Definition header_path (leaf : string) : list Step :=
  [Self; Descendant "InvoiceHeader"; Child leaf].

Definition issue_data_path (leaf : string) : list Step :=
  [Self; Descendant "InvoiceIssueData"; Child leaf].

(** Lines 172-198: number, date, document type, currency and class. *)
Definition header (L : Library) (xml_root : Element)
  : string * string * string * string * string :=
  match invoice_element xml_root with
  | Some invoice_element =>
      let invoice_number :=
        findtext invoice_element (header_path "InvoiceNumber") "N/A" in
      let invoice_series :=
        findtext invoice_element (header_path "InvoiceSeriesCode") "" in
      let invoice_type :=
        findtext invoice_element (header_path "InvoiceDocumentType") "N/A" in
      let invoice_currency :=
        findtext invoice_element (issue_data_path "InvoiceCurrencyCode")
                 "N/A" in
      let raw_date :=
        findtext invoice_element (issue_data_path "IssueDate") "N/A" in
      let invoice_class :=
        findtext invoice_element (header_path "InvoiceClass") "N/A" in
      let invoice_class_desc :=
        dict_get invoice_class_map invoice_class "N/A" in
      let issue_date := issue_date_of L raw_date in
      (invoice_series +:+ invoice_number, issue_date, invoice_type,
       invoice_currency, invoice_class_desc)
  | None => ("N/A", "N/A", "N/A", "N/A", "N/A")
  end.

(** The eight keys of [totals] with the default each one is read with. *)
Definition totals_fields : list (string * string) :=
  [ ("TotalGrossAmount", "0.00");
    ("TotalGeneralDiscounts", "0.00");
    ("TotalGrossAmountBeforeTaxes", "N/A");
    ("TotalTaxOutputs", "N/A");
    ("TotalTaxesWithheld", "N/A");
    ("InvoiceTotal", "N/A");
    ("TotalOutstandingAmount", "N/A");
    ("TotalExecutableAmount", "N/A") ].

(** [.//InvoiceTotals]. *)
Definition invoice_totals_path : list Step :=
  [Self; Descendant "InvoiceTotals"].

(** Lines 200-211: [totals] starts empty and is filled only under an
    [Invoice] element that has an [InvoiceTotals] descendant. *)
Definition totals (xml_root : Element) : gmap string string :=
  match invoice_element xml_root with
  | Some invoice_element =>
      match find invoice_element invoice_totals_path with
      | Some invoice_totals =>
          let get key default := findtext invoice_totals [Child key] default in
          let totals : gmap string string := ∅ in
          let totals :=
            <["TotalGrossAmount" := get "TotalGrossAmount" "0.00"]> totals in
          let totals :=
            <["TotalGeneralDiscounts" := get "TotalGeneralDiscounts" "0.00"]>
              totals in
          let totals :=
            <["TotalGrossAmountBeforeTaxes" :=
                get "TotalGrossAmountBeforeTaxes" "N/A"]> totals in
          let totals :=
            <["TotalTaxOutputs" := get "TotalTaxOutputs" "N/A"]> totals in
          let totals :=
            <["TotalTaxesWithheld" := get "TotalTaxesWithheld" "N/A"]>
              totals in
          let totals := <["InvoiceTotal" := get "InvoiceTotal" "N/A"]> totals in
          let totals :=
            <["TotalOutstandingAmount" := get "TotalOutstandingAmount" "N/A"]>
              totals in
          <["TotalExecutableAmount" := get "TotalExecutableAmount" "N/A"]>
            totals
      | None => ∅
      end
  | None => ∅
  end.

(** Lines 213-225. *)
Definition items (xml_root : Element) : list (gmap string string) :=
  match invoice_element xml_root with
  | Some invoice_element =>
      map (fun line =>
             list_to_map
               [ ("Descripción", findtext line [Child "ItemDescription"] "N/A");
                 ("Cantidad", findtext line [Child "Quantity"] "N/A");
                 ("Precio Unitario",
                  findtext line [Child "UnitPriceWithoutTax"] "N/A");
                 ("Importe", findtext line [Child "TotalCost"] "N/A") ])
          (findall invoice_element
             [Self; Descendant "Items"; Child "InvoiceLine"])
  | None => []
  end.

Definition _extract_invoice_data_from_xml (L : Library)
    (now : Datetime.naive) (xml_root : Element) : Invoice :=
  let '(invoice_number, issue_date, invoice_type, invoice_currency,
        invoice_class_desc) := header L xml_root in
  let totals := totals xml_root in
  {| Numero_de_Factura := invoice_number;
     Fecha := issue_date;
     Tipo_Dcomento := invoice_type;
     Moneda := invoice_currency;
     Clase_Factura := invoice_class_desc;
     Total_Factura := dict_get totals "InvoiceTotal" "N/A";
     Totales := totals;
     Emisor := emitter xml_root;
     Receptor := receptor xml_root;
     Conceptos := items xml_root;
     Firma := Interpreter._extract_signature_info_from_xml L now xml_root;
     InfoAdicional := invoice_additional_info xml_root;
     ReferenciasLegales := legal_references xml_root |}.

End Mapper.

(** ** Document renderer: [_generate_pdf_from_invoice] *)

Module Renderer.
Import Reportlab Mapper.
Local Open Scope Q_scope.

(** The [parametros] dict. *)
Record Parametros : Type := {
  num_registro : string;
  tipo_registro : string;
  num_rcf : string;
  fecha_hora_registro : string
}.

(** A table cell holding one flowable. *)
Definition cell (f : Flowable) : list Flowable := [f].

(** Lines 275-302: title and invoice data beside the registry panel. *)
Definition header_band (invoice : Invoice) (parametros : Parametros)
  : list Flowable :=
  let titulo := Paragraph "Factura" styleH in
  let info_factura :=
    Paragraph
      ("<b>Fecha de Emisión:</b> " +:+ Fecha invoice +:+ " "
       +:+ "<b>Número:</b> " +:+ Numero_de_Factura invoice +:+ "<br/>"
       +:+ "<b>Clase de factura:</b> " +:+ Clase_Factura invoice +:+ " "
       +:+ "<b>Moneda:</b> " +:+ Moneda invoice) styleN in
  let info_extra :=
    Paragraph
      ("<b>Num.Registro:</b> " +:+ num_registro parametros +:+ "<br/>"
       +:+ "<b>Punto de Entrada:</b> " +:+ tipo_registro parametros +:+ "<br/>"
       +:+ "<b>Num.Factura RCF:</b> " +:+ num_rcf parametros +:+ "<br/>"
       +:+ "<b>Fecha y hora registro:</b> " +:+ fecha_hora_registro parametros)
      styleN in
  [ Table [[ [titulo; info_factura]; cell info_extra ]]
          [6 # 10; 4 # 10]
          [ BOX 1 0 1 0 1 black;
            INNERGRID 1 0 1 0 (1 # 2) grey;
            BACKGROUND 1 0 1 0 whitesmoke;
            VALIGN 0 0 (-1) (-1) "TOP" ];
    Spacer 1 12 ].

(** Lines 304-335: emitter and receiver, side by side. *)
Definition parties_block (invoice : Invoice) : list Flowable :=
  let emisor := Emisor invoice in
  let receptor := Receptor invoice in
  let receptor_info :=
    "<b>Nombre:</b> " +:+ dict_get receptor "Nombre" "N/A" +:+ "<br/>"
    +:+ "<b>NIF:</b> " +:+ dict_get receptor "NIF" "N/A" +:+ "<br/>"
    +:+ "<b>Dirección:</b> " +:+ dict_get receptor "Dirección" "N/A" +:+ "<br/>"
    +:+ "<b>Ofi.Cont.:</b> " +:+ dict_get receptor "OfiCont" "N/A" +:+ "<br/>"
    +:+ "<b>Org.Gest:</b> " +:+ dict_get receptor "OrgGest" "N/A" +:+ "<br/>"
    +:+ "<b>Und.Tram:</b> " +:+ dict_get receptor "UndTram" "N/A" in
  let emisor_info :=
    "<b>Nombre:</b> " +:+ dict_get emisor "Nombre" "N/A" +:+ "<br/>"
    +:+ "<b>NIF:</b> " +:+ dict_get emisor "NIF" "N/A" +:+ "<br/>"
    +:+ "<b>Dirección:</b> " +:+ dict_get emisor "Dirección" "N/A" +:+ "<br/>"
    +:+ "<b>Poblacion:</b> " +:+ dict_get emisor "Poblacion" "N/A" +:+ "<br/>"
    +:+ "<b>Cod.Postal:</b> " +:+ dict_get emisor "Cod.Postal" "N/A" +:+ "<br/>"
    +:+ "<b>Provincia:</b> " +:+ dict_get emisor "Provincia" "N/A" in
  [ Table [ [ cell (Paragraph "<b>EMISOR</b>" styleN);
              cell (Paragraph "<b>RECEPTOR</b>" styleN) ];
            [ cell (Paragraph emisor_info styleN);
              cell (Paragraph receptor_info styleN) ] ]
          [1 / 2; 1 / 2]
          [ BOX 0 0 (-1) (-1) 1 black;
            INNERGRID 0 0 (-1) (-1) (1 # 2) grey;
            BACKGROUND 0 0 (-1) 0 lightgrey ];
    Spacer 1 12 ].

(** Lines 346-350: [_fmt(item.get(key, 0), "{:.nf}")]. An item without the
    key formats the number 0. *)
Definition _fmt (L : Library) (val : option string) (digits : nat) : string :=
  match val with
  | Some val =>
      match format_float L digits val with
      | Some formatted => formatted
      | None => val
      end
  | None => "0." +:+ string_of_list_ascii (repeat "0"%char digits)
  end.

(** Lines 337-371: the line-items table, or the line saying there are
    none. *)
Definition items_block (L : Library) (invoice : Invoice) : list Flowable :=
  let items := Conceptos invoice in
  match items with
  | _ :: _ =>
      let header_row :=
        [ cell (Paragraph "Descripción" header_cell_style);
          cell (Paragraph "Cantidad" header_cell_style);
          cell (Paragraph "Precio Unitario" header_cell_style);
          cell (Paragraph "Importe" header_cell_style) ] in
      let row (item : gmap string string) :=
        [ cell (Paragraph (dict_get item "Descripción" "N/A") table_cell_style);
          cell (Paragraph (_fmt L (item !! "Cantidad") 2) right_align_style);
          cell (Paragraph (_fmt L (item !! "Precio Unitario") 4)
                          right_align_style);
          cell (Paragraph (_fmt L (item !! "Importe") 2) right_align_style) ] in
      [ Table (header_row :: map row items)
              [60 # 100; (35 # 100) / 3; (45 # 100) / 3; (40 # 100) / 3]
              [ BOX 0 0 (-1) (-1) 1 black;
                INNERGRID 0 0 (-1) (-1) (1 # 2) grey;
                BACKGROUND 0 0 (-1) 0 lightgrey;
                ALIGN 1 1 (-1) (-1) "CENTER" ];
        Spacer 1 12 ]
  | [] =>
      [ Paragraph "No hay conceptos en la factura." styleN; Spacer 1 12 ]
  end.

(** One row of the totals table: a label and the value under [key]. *)
Definition totals_row (totals : gmap string string) (label key : string)
  : list (list Flowable) :=
  [ cell (Paragraph label styleN);
    cell (Paragraph (dict_get totals key "N/A") right_align_style) ].

(** Lines 373-390: the totals table, built only [if totals:], that is when
    the dict is not empty. *)
Definition totals_block (invoice : Invoice) : list Flowable :=
  let totals := Totales invoice in
  if bool_decide (totals = ∅) then []
  else
    [ Table
        [ totals_row totals "<b>Importe bruto total:</b>" "TotalGrossAmount";
          totals_row totals "<b>Descuentos generales:</b>"
                     "TotalGeneralDiscounts";
          totals_row totals "<b>Base imponible antes de impuestos:</b>"
                     "TotalGrossAmountBeforeTaxes";
          totals_row totals "<b>Importe de impuestos:</b>" "TotalTaxOutputs";
          totals_row totals "<b>Retenciones:</b>" "TotalTaxesWithheld";
          totals_row totals "<b>Importe total factura:</b>" "InvoiceTotal" ]
        [7 # 10; 3 # 10]
        [ BOX 0 0 (-1) (-1) 1 black;
          INNERGRID 0 0 (-1) (-1) (1 # 2) grey;
          BACKGROUND 0 0 (-1) 0 lightgrey ];
      Spacer 1 12 ].

(** Lines 392-395. *)
Definition info_block (invoice : Invoice) : list Flowable :=
  if PyStr.truthy (InfoAdicional invoice)
  then [ Paragraph "<b>Información Adicional:</b>" styleN;
         Paragraph (InfoAdicional invoice) styleN;
         Spacer 1 12 ]
  else [].

(** Lines 397-401. *)
Definition legal_block (invoice : Invoice) : list Flowable :=
  match ReferenciasLegales invoice with
  | [] => []
  | refs =>
      Paragraph "<b>Literales Legales:</b>" styleN
      :: map (fun ref => Paragraph ref styleN) refs ++ [Spacer 1 12]
  end.

(** Lines 403-449: the signature grid, built only for a signature taken as
    found. *)
Definition firma_block (invoice : Invoice) : list Flowable :=
  let firma := Firma invoice in
  if negb (bool_decide (firma = ∅)) && Interpreter.found firma
  then
    let pair (label key : string) :=
      [ cell (Paragraph label styleN);
        cell (Paragraph (dict_get firma key "N/A") styleN) ] in
    [ Spacer 1 12;
      Paragraph "Firma electrónica" style_subtitle;
      Spacer 1 6;
      Table
        [ pair "<b>Firmante:</b>" "firmante" ++ pair "<b>NIF:</b>" "nif"
            ++ pair "<b>Algoritmo:</b>" "algoritmo";
          pair "<b>Fecha Firma:</b>" "fecha_firma"
            ++ pair "<b>Desde:</b>" "valido_desde"
            ++ pair "<b>Hasta:</b>" "valido_hasta";
          pair "<b>Estado actual:</b>" "estado_certificado"
            ++ pair "<b>Validez en firma:</b>" "validez_en_firma"
            ++ pair "<b>Autoridad Certificación:</b>"
                    "autoridad_certificadora" ]
        [12 # 100; 40 # 100; 10 # 100; 16 # 100; 10 # 100; 12 # 100]
        [ BOX 0 0 (-1) (-1) 1 black;
          INNERGRID 0 0 (-1) (-1) (1 # 2) grey;
          BACKGROUND 0 0 (-1) 0 lightgrey;
          VALIGN 0 0 (-1) (-1) "TOP" ];
      Spacer 1 12 ]
  else [].

(** The flowables in the order the function appends them, and the font
    size of [styleN]: 8, lowered to 7 in the signature branch (the style
    object is shared by every paragraph that uses it). *)
Definition story (L : Library) (invoice : Invoice) (parametros : Parametros)
  : Story :=
  {| elements :=
       header_band invoice parametros ++ parties_block invoice
       ++ items_block L invoice ++ totals_block invoice
       ++ info_block invoice ++ legal_block invoice ++ firma_block invoice;
     styleN_fontSize :=
       if negb (bool_decide (Firma invoice = ∅))
          && Interpreter.found (Firma invoice)
       then 7%Z else 8%Z |}.

(** [_add_footer]: the disclaimer and the timestamp
    [datetime.now().strftime("%d/%m/%Y %H:%M:%S")]. *)
Definition _add_footer (L : Library) (now : Datetime.naive)
  : string * string :=
  ("REPRESENTACIÓN DEL CONTENIDO DE LA FACTURA ELECTRÓNICA Y DEL REGISTRO CONTABLE DE FACTURAS.",
   Datetime.strftime_dmY (year_below_1000 L) (Datetime.year now)
     (Datetime.month now) (Datetime.day now)
   +:+ " " +:+ Datetime.pad2 (Datetime.hour now)
   +:+ ":" +:+ Datetime.pad2 (Datetime.minute now)
   +:+ ":" +:+ Datetime.pad2 (Datetime.second now)).

(** What [Paragraph] raises on a paragraph, [None] when it takes it. *)
Definition refused (L : Library) (p : string * Style) : option string :=
  paragraph_error L (fst p) (snd p).

(** The paragraphs are constructed in the order of the story, and
    [Paragraph] raises on a text it does not take as markup: the message of
    the first paragraph refused, [None] when every one is taken. *)
Definition first_refused (L : Library) (st : Story) : option string :=
  head (omap (refused L) (flat_map paragraphs (elements st))).

(** The whole function: the paragraphs are constructed, then [doc.build]
    lays out the story, the footer drawn on every page ([_add_header]
    draws the empty string). Nothing is caught: an exception of
    [Paragraph] or of [doc.build] leaves the function. [now] stands for
    [datetime.now()]. *)
Definition _generate_pdf_from_invoice (L : Library) (now : Datetime.naive)
    (invoice : Invoice) (parametros : Parametros) : Exc bytes :=
  let st := story L invoice parametros in
  match first_refused L st with
  | Some e => Raise e
  | None => build L st (_add_footer L now)
  end.

End Renderer.

(** ** Pipeline entry point: [render_pdf_from_xsig] *)

Module Pipeline.
Import Renderer.

(** [fecha_hora_registro.strftime("%d/%m/%Y %H:%M")]. *)
Definition strftime_dmY_HM (L : Library) (dt : Datetime.datetime)
  : string :=
  let d := Datetime.wall dt in
  Datetime.strftime_dmY (year_below_1000 L) (Datetime.year d)
    (Datetime.month d) (Datetime.day d)
  +:+ " " +:+ Datetime.pad2 (Datetime.hour d)
  +:+ ":" +:+ Datetime.pad2 (Datetime.minute d).

(** [xsig_bytes] stands for [xsig_file.read()], [utcnow] and [now] for the
    two clock readings; the [timezone] argument is not read. Both [raise]
    statements raise [ValueError]; the call of the renderer sits outside
    any [try], so what it raises leaves the entry point as it is. *)
Definition render_pdf_from_xsig (L : Library) (utcnow now : Datetime.naive)
    (xsig_bytes : bytes) (num_registro tipo_registro num_rcf : string)
    (fecha_hora_registro : Datetime.datetime) : Exc bytes :=
  match xsig_bytes with
  | [] => Raise "Archivo vacío o no legible."
  | _ :: _ =>
      let xml_bytes := Extractor._extract_xml_from_xsig_bytes xsig_bytes in
      match fromstring L xml_bytes with
      | Raise e => Raise ("El archivo no parece un XSIG/XML válido: " +:+ e)
      | Return root =>
          let invoice_data :=
            Mapper._extract_invoice_data_from_xml L utcnow root in
          let params :=
            {| Renderer.num_registro := num_registro;
               Renderer.tipo_registro := tipo_registro;
               Renderer.num_rcf := num_rcf;
               Renderer.fecha_hora_registro :=
                 strftime_dmY_HM L fecha_hora_registro |} in
          _generate_pdf_from_invoice L now invoice_data params
      end
  end.

End Pipeline.

(** ** The properties in the specification's own terms *)

Module Spec.

(** A text is blank when it is empty or made of whitespace only. *)
Definition blank (s : string) : bool :=
  forallb PyStr.isspace (PyStr.chars s).

(** The text of an entry, [""] for an entry without text. *)
Definition entry_text (ref : ET.Element) : string :=
  match ET.text ref with
  | Some t => t
  | None => ""
  end.

(** The fixed input pattern of the issue date: four digits, a dash, two
    digits, a dash, two digits, and nothing else. *)
Definition date_pattern (s : string) : bool :=
  match s with
  | String y1 (String y2 (String y3 (String y4 (String s1
      (String m1 (String m2 (String s2 (String d1 (String d2
        EmptyString))))))))) =>
      Datetime.is_digit y1 && Datetime.is_digit y2 && Datetime.is_digit y3
      && Datetime.is_digit y4 && Ascii.eqb s1 "-"
      && Datetime.is_digit m1 && Datetime.is_digit m2 && Ascii.eqb s2 "-"
      && Datetime.is_digit d1 && Datetime.is_digit d2
  | _ => false
  end.

(** Day/month/year from a text of that pattern: the same digits,
    rearranged. *)
Definition reformat (s : string) : string :=
  substring 8 2 s +:+ "/" +:+ substring 5 2 s +:+ "/" +:+ substring 0 4 s.

(** The rule of section 4.3 for the issue date, said of a function [f]
    from the raw text to the displayed one: a text of the pattern is
    reformatted, any other text passes through unchanged. *)
Definition issue_date_rule (f : string -> string) (raw : string) : Prop :=
  (date_pattern raw = true -> f raw = reformat raw)
  /\ (date_pattern raw = false -> f raw = raw).

(** The eight totals fields, in the order of the data model. *)
Definition totals_keys : list string :=
  [ "TotalGrossAmount"; "TotalGeneralDiscounts";
    "TotalGrossAmountBeforeTaxes"; "TotalTaxOutputs"; "TotalTaxesWithheld";
    "InvoiceTotal"; "TotalOutstandingAmount"; "TotalExecutableAmount" ].

(** The rows of a totals table: label and key. *)
Definition totals_rows : list (string * string) :=
  [ ("<b>Importe bruto total:</b>", "TotalGrossAmount");
    ("<b>Descuentos generales:</b>", "TotalGeneralDiscounts");
    ("<b>Base imponible antes de impuestos:</b>",
     "TotalGrossAmountBeforeTaxes");
    ("<b>Importe de impuestos:</b>", "TotalTaxOutputs");
    ("<b>Retenciones:</b>", "TotalTaxesWithheld");
    ("<b>Importe total factura:</b>", "InvoiceTotal") ].

(** The paragraphs of a totals table, row by row: the label, then the
    value, the sentinel standing for an absent one. *)
Definition totals_paragraphs (totals : gmap string string)
  : list (string * Reportlab.Style) :=
  flat_map (fun '(label, key) =>
              [ (label, Reportlab.styleN);
                (dict_get totals key "N/A", Reportlab.right_align_style) ])
           totals_rows.

(** The totals block as section 4.4 words it: the values of the eight
    fields, the sentinel for an absent one, set right-aligned one after the
    other in the rendered story. *)
Definition renders_eight_totals (story : Reportlab.Story)
    (totals : gmap string string) : Prop :=
  exists before after,
    Reportlab.right_aligned_texts (Reportlab.elements story)
    = before ++ map (fun key => dict_get totals key "N/A") totals_keys
      ++ after.

(** The fields of the two parties: name, tax id and address line, then
    town, postcode and province for the emitter and the three routing
    codes for the receiver. *)
Definition emitter_keys : list string :=
  [ "Nombre"; "NIF"; "Dirección"; "Poblacion"; "Cod.Postal"; "Provincia" ].
Definition receptor_keys : list string :=
  [ "Nombre"; "NIF"; "Dirección"; "OfiCont"; "OrgGest"; "UndTram" ].

(** Every totals field of the data model has a value. *)
Definition totals_defined (totals : gmap string string) : Prop :=
  forall key, key ∈ totals_keys -> is_Some (totals !! key).

End Spec.

(** ** Sample documents and a sample library *)

Module Examples.
Import ET.

Definition leaf (tag text : string) : Element := Elem tag (Some text) [].

(** A certificate valid from 2024-01-01 to 2026-01-01. *)
Definition sample_certificate : X509.Certificate :=
  {| X509.subject := fun oid =>
       if String.eqb oid X509.COMMON_NAME then ["EMPRESA SL"]
       else if String.eqb oid X509.SERIAL_NUMBER then ["B12345678"]
       else [];
     X509.issuer := fun oid =>
       if String.eqb oid X509.COMMON_NAME then ["AC Pruebas"] else [];
     X509.signature_hash_algorithm := Some "sha256";
     X509.not_valid_before := Datetime.Naive 2024 1 1 0 0 0 0;
     X509.not_valid_after := Datetime.Naive 2026 1 1 0 0 0 0 |}.

(** An invoice document with both parties left out: header, totals, one
    line, two legal references (one blank) and a signature block. *)
Definition sample_root : Element :=
  Elem "{http://www.facturae.es/Facturae/2009/v3.2/Facturae}Facturae" None
    [ Elem "Invoices" None
        [ Elem "Invoice" None
            [ Elem "InvoiceHeader" None
                [ leaf "InvoiceNumber" "123"; leaf "InvoiceSeriesCode" "A";
                  leaf "InvoiceDocumentType" "FC"; leaf "InvoiceClass" "OR" ];
              Elem "InvoiceIssueData" None
                [ leaf "IssueDate" "2025-03-15";
                  leaf "InvoiceCurrencyCode" "EUR" ];
              Elem "InvoiceTotals" None
                [ leaf "TotalGrossAmount" "1.00";
                  leaf "TotalGeneralDiscounts" "2.00";
                  leaf "TotalGrossAmountBeforeTaxes" "3.00";
                  leaf "TotalTaxOutputs" "4.00";
                  leaf "TotalTaxesWithheld" "5.00";
                  leaf "InvoiceTotal" "6.00";
                  leaf "TotalOutstandingAmount" "7.00";
                  leaf "TotalExecutableAmount" "8.00" ] ] ];
      Elem "LegalLiterals" None
        [ leaf "LegalReference" " Ley 37/1992 "; leaf "LegalReference" "  " ];
      Elem (Interpreter.ds "Signature") None
        [ leaf (Interpreter.ds "X509Certificate") "TUlJ";
          leaf (Interpreter.xades "SigningTime") "2025-03-01T10:00:00+01:00" ]
    ].

(** A document with nothing under its root. *)
Definition empty_root : Element := Elem "Facturae" None [].

(** A document whose one line item has text that reportlab does not take
    as markup, an opening tag never closed; and its bytes. *)
Definition markup_root : Element :=
  Elem "Facturae" None
    [ Elem "Invoices" None
        [ Elem "Invoice" None
            [ Elem "Items" None
                [ Elem "InvoiceLine" None
                    [ leaf "ItemDescription" "<b>sin cerrar" ] ] ] ] ].

Definition markup_text : string :=
  "<Facturae><Invoices><Invoice><Items><InvoiceLine><ItemDescription>&lt;b&gt;sin cerrar</ItemDescription></InvoiceLine></Items></Invoice></Invoices></Facturae>".

Definition markup_bytes : bytes := list_byte_of_string markup_text.

(** [%Y] as a C library that does not pad writes a year below 1000. *)
Definition unpadded_year (y : Z) : string :=
  if y <? 10 then String (Datetime.digit y) ""
  else if y <? 100 then Datetime.pad2 y
  else String (Datetime.digit (y / 100)) (Datetime.pad2 (y mod 100)).

(** The bytes [ab<?xml?>], standing for a signed container. *)
Definition sample_bytes : bytes :=
  [x61; x62; x3c; x3f; x78; x6d; x6c; x3f; x3e].

(** A library that answers on the sample inputs and fails elsewhere; it
    refuses the paragraph text of [markup_root]. *)
Definition sample_library : Library :=
  {| b64decode := fun s =>
       if String.eqb s "TUlJ" then Return [x30; x82]
       else Raise "Incorrect padding";
     load_der_x509_certificate := fun der =>
       match der with
       | [x30; x82] => Return sample_certificate
       | _ => Raise "error parsing asn1 value"
       end;
     date_parser_parse := fun s =>
       if String.eqb s "2025-03-01T10:00:00+01:00"
       then Return (Datetime.Datetime (Datetime.Naive 2025 3 1 10 0 0 0)
                                      (Some 3600%Z))
       else Raise ("Unknown string format: " +:+ s);
     format_float := fun _ _ => None;
     fromstring := fun b =>
       match b with
       | [x3c; x3f; x78; x6d; x6c; x3f; x3e] => Return sample_root
       | [x3c; x61; x2f; x3e] => Return empty_root
       | _ =>
           if String.eqb (string_of_list_byte b) markup_text
           then Return markup_root
           else Raise "syntax error: line 1, column 0"
       end;
     paragraph_error := fun text _ =>
       if String.eqb text "<b>sin cerrar"
       then Some "xml parser error (Parse error: saw </para> instead of expected </b>) in paragraph beginning '<b>sin cerrar'"
       else None;
     build := fun _ _ => Return [x25; x50; x44; x46];
     year_below_1000 := unpadded_year;
     unicode_decimal := fun _ => None |}.

Definition sample_now : Datetime.naive := Datetime.Naive 2025 6 1 0 0 0 0.

Definition sample_parametros : Renderer.Parametros :=
  {| Renderer.num_registro := "2025/000123";
     Renderer.tipo_registro := "FACe";
     Renderer.num_rcf := "RCF-2025-000987";
     Renderer.fecha_hora_registro := "01/06/2025 09:30" |}.

(** The invoice models of the two sample documents. *)
Definition sample_invoice : Mapper.Invoice :=
  Mapper._extract_invoice_data_from_xml sample_library sample_now sample_root.
Definition empty_invoice : Mapper.Invoice :=
  Mapper._extract_invoice_data_from_xml sample_library sample_now empty_root.

End Examples.

(** ** Shapes the further properties speak of *)

Module Shape.

(** The keys of the dict of a signature that was found. *)
Definition signature_keys : list string :=
  [ "estado"; "firmante"; "nif"; "algoritmo"; "fecha_firma";
    "valido_desde"; "valido_hasta"; "estado_certificado";
    "validez_en_firma"; "autoridad_certificadora" ].

(** The six descriptions of an invoice class, and the sentinel. *)
Definition class_descriptions : list string :=
  [ "Original"; "Original Rectificativa"; "Original Recapitulativa";
    "Duplicado Original"; "Duplicado Rectificativa";
    "Duplicado Recapitulativa" ].

Definition class_codes : list string := [ "OO"; "OR"; "OC"; "CO"; "CR"; "CC" ].

(** The keys of a line item. *)
Definition item_keys : list string :=
  [ "Descripción"; "Cantidad"; "Precio Unitario"; "Importe" ].

(** The cells of the signature grid in reading order: label and key. *)
Definition signature_grid : list (string * string) :=
  [ ("<b>Firmante:</b>", "firmante"); ("<b>NIF:</b>", "nif");
    ("<b>Algoritmo:</b>", "algoritmo");
    ("<b>Fecha Firma:</b>", "fecha_firma");
    ("<b>Desde:</b>", "valido_desde"); ("<b>Hasta:</b>", "valido_hasta");
    ("<b>Estado actual:</b>", "estado_certificado");
    ("<b>Validez en firma:</b>", "validez_en_firma");
    ("<b>Autoridad Certificación:</b>", "autoridad_certificadora") ].

(** The three numbers of a line item as the items table shows them:
    quantity on two decimals, unit price on four, line total on two. *)
Definition item_numbers (L : Library) (item : gmap string string)
  : list string :=
  [ Renderer._fmt L (item !! "Cantidad") 2;
    Renderer._fmt L (item !! "Precio Unitario") 4;
    Renderer._fmt L (item !! "Importe") 2 ].

End Shape.

(** ** The document of section 4.4, section by section *)

Module Document.
Import Reportlab Mapper Renderer.

(** A value under its label, and lines set one under the other. *)
Definition labelled (label value : string) : string :=
  "<b>" +:+ label +:+ ":</b> " +:+ value.

Fixpoint joined (sep : string) (l : list string) : string :=
  match l with
  | [] => ""
  | [x] => x
  | x :: l' => x +:+ sep +:+ joined sep l'
  end.

Definition lines (l : list string) : string := joined "<br/>" l.

(** The fields of a party under their labels: label and key. *)
Definition emitter_fields : list (string * string) :=
  [ ("Nombre", "Nombre"); ("NIF", "NIF"); ("Dirección", "Dirección");
    ("Poblacion", "Poblacion"); ("Cod.Postal", "Cod.Postal");
    ("Provincia", "Provincia") ].
Definition receptor_fields : list (string * string) :=
  [ ("Nombre", "Nombre"); ("NIF", "NIF"); ("Dirección", "Dirección");
    ("Ofi.Cont.", "OfiCont"); ("Org.Gest", "OrgGest");
    ("Und.Tram", "UndTram") ].

Definition party_lines (fields : list (string * string))
    (party : gmap string string) : string :=
  lines (map (fun '(label, key) => labelled label (dict_get party key "N/A"))
             fields).

(** 1. Header band: the title; issue date, number, class and currency of
    the invoice; the panel of the four registry fields. *)
Definition header_paragraphs (invoice : Invoice) (parametros : Parametros)
  : list (string * Style) :=
  [ ("Factura", styleH);
    (lines
       [ labelled "Fecha de Emisión" (Fecha invoice) +:+ " "
         +:+ labelled "Número" (Numero_de_Factura invoice);
         labelled "Clase de factura" (Clase_Factura invoice) +:+ " "
         +:+ labelled "Moneda" (Moneda invoice) ], styleN);
    (lines
       [ labelled "Num.Registro" (num_registro parametros);
         labelled "Punto de Entrada" (tipo_registro parametros);
         labelled "Num.Factura RCF" (num_rcf parametros);
         labelled "Fecha y hora registro" (fecha_hora_registro parametros) ],
     styleN) ].

(** 2. Parties: the two headings, then emitter and receiver. *)
Definition parties_paragraphs (invoice : Invoice) : list (string * Style) :=
  [ ("<b>EMISOR</b>", styleN); ("<b>RECEPTOR</b>", styleN);
    (party_lines emitter_fields (Emisor invoice), styleN);
    (party_lines receptor_fields (Receptor invoice), styleN) ].

(** 3. Line items: the line saying there are none, or the four column
    headings and, per item, description, quantity on two decimals, unit
    price on four and line total on two. *)
Definition items_paragraphs (L : Library) (invoice : Invoice)
  : list (string * Style) :=
  match Conceptos invoice with
  | [] => [ ("No hay conceptos en la factura.", styleN) ]
  | items =>
      [ ("Descripción", header_cell_style); ("Cantidad", header_cell_style);
        ("Precio Unitario", header_cell_style);
        ("Importe", header_cell_style) ]
      ++ flat_map
           (fun item =>
              (dict_get item "Descripción" "N/A", table_cell_style)
              :: map (fun number => (number, right_align_style))
                     (Shape.item_numbers L item))
           items
  end.

(** 4. Totals, for a totals dict that is not empty. *)
Definition totals_paragraphs (invoice : Invoice) : list (string * Style) :=
  if bool_decide (Totales invoice = ∅) then []
  else Spec.totals_paragraphs (Totales invoice).

(** 5. Additional information, when there is some. *)
Definition info_paragraphs (invoice : Invoice) : list (string * Style) :=
  match InfoAdicional invoice with
  | EmptyString => []
  | text => [ ("<b>Información Adicional:</b>", styleN); (text, styleN) ]
  end.

(** 6. Legal references, when there are some: one line per reference. *)
Definition legal_paragraphs (invoice : Invoice) : list (string * Style) :=
  match ReferenciasLegales invoice with
  | [] => []
  | refs =>
      ("<b>Literales Legales:</b>", styleN)
      :: map (fun ref => (ref, styleN)) refs
  end.

(** 7. Signature, for a signature taken as found: the heading and the
    grid. *)
Definition signature_paragraphs (invoice : Invoice)
  : list (string * Style) :=
  if negb (bool_decide (Firma invoice = ∅)) && Interpreter.found (Firma invoice)
  then
    ("Firma electrónica", style_subtitle)
    :: flat_map
         (fun '(label, key) =>
            [ (label, styleN); (dict_get (Firma invoice) key "N/A", styleN) ])
         Shape.signature_grid
  else [].

(** The paragraphs of a complete document, in reading order. *)
Definition paragraphs_of (L : Library) (invoice : Invoice)
    (parametros : Parametros) : list (string * Style) :=
  header_paragraphs invoice parametros ++ parties_paragraphs invoice
  ++ items_paragraphs L invoice ++ totals_paragraphs invoice
  ++ info_paragraphs invoice ++ legal_paragraphs invoice
  ++ signature_paragraphs invoice.

(** The footer of every page: the disclaimer, and the time of rendering as
    day/month/year hours:minutes:seconds. *)
Definition footer (L : Library) (now : Datetime.naive) : string * string :=
  ("REPRESENTACIÓN DEL CONTENIDO DE LA FACTURA ELECTRÓNICA Y DEL REGISTRO CONTABLE DE FACTURAS.",
   joined "/" [ Datetime.pad2 (Datetime.day now);
                Datetime.pad2 (Datetime.month now);
                Datetime.strftime_Y (year_below_1000 L) (Datetime.year now) ]
   +:+ " "
   +:+ joined ":" [ Datetime.pad2 (Datetime.hour now);
                    Datetime.pad2 (Datetime.minute now);
                    Datetime.pad2 (Datetime.second now) ]).

(** The two outcomes the specification gives the entry point: an error
    exactly on empty input or markup that does not parse, a document in
    every other case. *)
Definition outcome_rule (L : Library) (xsig_bytes : bytes)
    (result : Exc bytes) : Prop :=
  let xml_bytes := Extractor._extract_xml_from_xsig_bytes xsig_bytes in
  ((exists cause, result = Raise cause) <->
   xsig_bytes = [] \/ exists e, fromstring L xml_bytes = Raise e)
  /\ ((exists pdf, result = Return pdf) <->
      xsig_bytes <> [] /\ exists root, fromstring L xml_bytes = Return root).

End Document.

(** ** A second sample document *)

Module MoreExamples.
Import ET.

(** A buyer with two administrative centres, the second one without code
    or name; two invoice lines, the second one empty; additional
    information with spaces around it. *)
Definition buyer_root : Element :=
  Elem "Facturae" None
    [ Elem "Parties" None
        [ Elem "BuyerParty" None
            [ Elem "AdministrativeCentres" None
                [ Elem "AdministrativeCentre" None
                    [ Examples.leaf "CentreCode" "L01";
                      Examples.leaf "Name" "Oficina" ];
                  Elem "AdministrativeCentre" None [] ] ] ];
      Elem "Invoices" None
        [ Elem "Invoice" None
            [ Elem "Items" None
                [ Elem "InvoiceLine" None
                    [ Examples.leaf "ItemDescription" "Servicio";
                      Examples.leaf "Quantity" "2";
                      Examples.leaf "UnitPriceWithoutTax" "10.5";
                      Examples.leaf "TotalCost" "21" ];
                  Elem "InvoiceLine" None [] ] ] ];
      Elem "AdditionalData" None
        [ Examples.leaf "InvoiceAdditionalInformation" "  pago a 30 dias " ]
    ].

(** The no-break space U+00A0 and the next-line character U+0085. *)
Definition nbsp : string := String "194" (String "160" "").
Definition nel : string := String "194" (String "133" "").

(** Two legal references: one a no-break space alone, one with such
    characters around its text. *)
Definition spaces_root : Element :=
  Elem "Facturae" None
    [ Elem "LegalLiterals" None
        [ Examples.leaf "LegalReference" nbsp;
          Examples.leaf "LegalReference" (nbsp +:+ "Ley" +:+ nel) ];
      Elem "AdditionalData" None
        [ Examples.leaf "InvoiceAdditionalInformation" nbsp ] ].

Definition buyer_invoice : Mapper.Invoice :=
  Mapper._extract_invoice_data_from_xml Examples.sample_library
    Examples.sample_now buyer_root.
Definition spaces_invoice : Mapper.Invoice :=
  Mapper._extract_invoice_data_from_xml Examples.sample_library
    Examples.sample_now spaces_root.

End MoreExamples.

(** ** [utils.py]: the checks of the form that calls the pipeline *)

Module Utils.

Section WordClass.

(** The class [\w] of [re]: which characters it holds is decided by the
    Unicode tables of the interpreter, and is left open here. *)
Variable is_word : string -> bool.

(** The class [[\w/\-\.]] of [_ALLOWED_RE], on one character. *)
Definition allowed (ch : string) : bool :=
  is_word ch || String.eqb ch "/" || String.eqb ch "-" || String.eqb ch ".".

(** The characters left after one to [n] characters of the class at the
    start of [l], the shortest run first: the ways [[...]{1,n}] can
    match. *)
Fixpoint remainders (n : nat) (l : list string) : list (list string) :=
  match n, l with
  | S n', ch :: l' => if allowed ch then l' :: remainders n' l' else []
  | _, _ => []
  end.

(** The line feed. *)
Definition newline : string := String "010" EmptyString.

(** [$]: at the end of the text, or before a newline that ends it. *)
Definition at_end (rest : list string) : bool :=
  match rest with
  | [] => true
  | [ch] => String.eqb ch newline
  | _ => false
  end.

(** [_ALLOWED_RE.match(v)] for the pattern [^[\w/\-\.]{1,50}$]. *)
Definition allowed_re_match (v : string) : bool :=
  existsb at_end (remainders 50 (PyStr.chars v)).

(** [sanitize_text]: the stripped value, or [ValueError]. *)
Definition sanitize_text (value : string) : Exc string :=
  let v := PyStr.strip (if PyStr.truthy value then value else "") in
  if negb (PyStr.truthy v) || (50 <? PyStr.len v)%nat
     || negb (allowed_re_match v)
  then Raise "Valor inválido. Usa letras, números, guiones, guiones bajos, barras o puntos (1–50)."
  else Return v.

(** The characters [[^\w\.-]+] leaves alone. *)
Definition kept (ch : string) : bool :=
  is_word ch || String.eqb ch "." || String.eqb ch "-".

(** The characters a name can hold after the substitution. *)
Definition kept_or_underscore (ch : string) : bool :=
  kept ch || String.eqb ch "_".

(** [re.sub(r"[^\w\.-]+", "_", s)] on the characters of [s]: every
    maximal run of characters outside the class becomes one underscore.
    [in_run] tells that the run in progress has been replaced already. *)
Fixpoint sub_runs (in_run : bool) (l : list string) : list string :=
  match l with
  | [] => []
  | ch :: l' =>
      if kept ch then ch :: sub_runs false l'
      else if in_run then sub_runs true l'
      else "_" :: sub_runs true l'
  end.

(** [make_safe_filename]: [base[:128]] keeps the first 128 characters. *)
Definition make_safe_filename (base : string) : string :=
  let base := sub_runs false (PyStr.chars (PyStr.strip base)) in
  if (128 <? length base)%nat then PyStr.join (take 128 base)
  else PyStr.join base.

End WordClass.

(** The word characters of the ASCII range: letters, digits and the
    underscore. *)
Definition ascii_word (ch : string) : bool :=
  match ch with
  | String c EmptyString =>
      let n := nat_of_ascii c in
      ((48 <=? n) && (n <=? 57) || (65 <=? n) && (n <=? 90)
       || (97 <=? n) && (n <=? 122) || (n =? 95))%nat
  | _ => false
  end.

End Utils.

(** * Properties *)

(** ** Container extractor *)

Section ExtractorFacts.
Import Extractor.

Lemma startswith_occurs (sub s : bytes) :
  startswith sub s = true <-> exists rest, s = sub ++ rest.
Proof.
  revert s. induction sub as [|a sub IH]; intros s; simpl.
  - split; [intros _; by exists s | done].
  - destruct s as [|b s].
    + split; [done | intros [rest H]; discriminate].
    + rewrite andb_true_iff, IH. split.
      * intros [Hab [rest ->]]. apply Byte.byte_dec_bl in Hab. subst.
        by exists rest.
      * intros [rest H]. injection H as -> ->. split; [|by exists rest].
        apply Byte.byte_dec_lb. reflexivity.
Qed.

Lemma startswith_occurs_at (sub s : bytes) (i : nat) :
  (i <= length s)%nat ->
  startswith sub (drop i s) = true <-> occurs_at sub s i.
Proof.
  intros Hi. unfold occurs_at. rewrite startswith_occurs. tauto.
Qed.

Lemma find_from_spec (sub s : bytes) (k : Z) :
  0 <= k ->
  (find_from sub s k = -1 /\
   forall i, (i <= length s)%nat -> startswith sub (drop i s) = false)
  \/
  (exists i, find_from sub s k = k + Z.of_nat i /\ (i <= length s)%nat /\
     startswith sub (drop i s) = true /\
     forall j, (j < i)%nat -> startswith sub (drop j s) = false).
Proof.
  revert k. induction s as [|b s IH]; intros k Hk; simpl.
  - destruct (startswith sub []) eqn:E.
    + right. exists 0%nat. repeat split; simpl; try lia; try done.
    + left. split; [done|]. intros i Hi. simpl in Hi.
      assert (i = 0%nat) as -> by lia. done.
  - destruct (startswith sub (b :: s)) eqn:E.
    + right. exists 0%nat. repeat split; simpl; try lia; try done.
    + destruct (IH (k + 1)) as [[H1 H2] | (i & H1 & H2 & H3 & H4)]; [lia| |].
      * left. split; [done|]. intros [|i] Hi; simpl in *; [done|].
        apply H2. lia.
      * right. exists (S i). repeat split; simpl; try lia; try done.
        intros [|j] Hj; simpl; [done|]. apply H4. lia.
Qed.

Lemma startswith_byte (b : byte) (s : bytes) :
  startswith [b] s = true <-> s !! 0%nat = Some b.
Proof.
  rewrite startswith_occurs. split.
  - intros [rest ->]. done.
  - destruct s as [|c s]; simpl; [done|]. intros [= ->]. by exists s.
Qed.

Lemma rfind_from_byte_spec (b : byte) (s : bytes) (k : Z) :
  0 <= k ->
  (rfind_from [b] s k = -1 /\ forall j, s !! j <> Some b)
  \/
  (exists j, rfind_from [b] s k = k + Z.of_nat j /\ s !! j = Some b /\
     forall m, (j < m)%nat -> s !! m <> Some b).
Proof.
  revert k. induction s as [|c s IH]; intros k Hk.
  - left. split; [done|]. intros j. by rewrite lookup_nil.
  - cbn [rfind_from].
    destruct (IH (k + 1)) as [[H1 H2] | (j & H1 & H2 & H3)]; [lia| |].
    + rewrite H1. simpl (-1 =? -1).  cbv iota.
      destruct (startswith [b] (c :: s)) eqn:E.
      * right. exists 0%nat. apply startswith_byte in E.
        repeat split; [lia|done|]. intros [|m] Hm; [lia|]. simpl. apply H2.
      * left. split; [done|]. intros [|j]; [|apply H2].
        intros H. apply startswith_byte in H. congruence.
    + rewrite H1. destruct (k + 1 + Z.of_nat j =? -1) eqn:E; [lia|].
      right. exists (S j). repeat split; [lia|done|].
      intros [|m] Hm; [lia|]. simpl. apply H3. lia.
Qed.

Lemma slice_in_range (s : bytes) (a b : nat) :
  (a <= b)%nat -> (b <= length s)%nat ->
  slice s (Z.of_nat a) (Z.of_nat b) = take (b - a) (drop a s).
Proof.
  intros Hab Hb. unfold slice, clamp_index.
  destruct (Z.of_nat a <? 0) eqn:Ea; [lia|].
  destruct (Z.of_nat b <? 0) eqn:Eb; [lia|].
  rewrite !Z.min_l by lia. f_equal; [lia|]. f_equal. lia.
Qed.

Lemma first_occurrence_unique (sub s : bytes) (i j : nat) :
  first_occurrence sub s i -> first_occurrence sub s j -> i = j.
Proof.
  intros [Hi Hi'] [Hj Hj'].
  destruct (Nat.lt_trichotomy i j) as [H | [H | H]]; [|done|].
  - destruct (Hj' _ H Hi).
  - destruct (Hi' _ H Hj).
Qed.

Lemma last_byte_occurrence_unique (b : byte) (s : bytes) (i j : nat) :
  last_byte_occurrence b s i -> last_byte_occurrence b s j -> i = j.
Proof.
  intros [Hi Hi'] [Hj Hj'].
  destruct (Nat.lt_trichotomy i j) as [H | [H | H]]; [|done|].
  - destruct (Hi' _ H Hj).
  - destruct (Hj' _ H Hi).
Qed.

(** [find] returns [-1] exactly when the pattern occurs nowhere, and the
    first offset otherwise. *)
Lemma find_spec (sub s : bytes) :
  (find s sub = -1 /\ forall i, ~ occurs_at sub s i)
  \/ (exists i, find s sub = Z.of_nat i /\ first_occurrence sub s i).
Proof.
  unfold find.
  destruct (find_from_spec sub s 0) as [[H1 H2] | (i & H1 & H2 & H3 & H4)];
    [lia| |].
  - left. split; [done|]. intros i [Hi Hocc].
    apply startswith_occurs in Hocc. rewrite H2 in Hocc; done.
  - right. exists i. split; [lia|]. split.
    + by apply startswith_occurs_at.
    + intros j Hj [Hj' Hocc]. apply startswith_occurs in Hocc.
      rewrite H4 in Hocc; done.
Qed.

Lemma rfind_byte_spec (b : byte) (s : bytes) :
  (rfind s [b] = -1 /\ forall j, s !! j <> Some b)
  \/ (exists j, rfind s [b] = Z.of_nat j /\ last_byte_occurrence b s j).
Proof.
  unfold rfind.
  destruct (rfind_from_byte_spec b s 0) as [H | (j & H1 & H2 & H3)]; [lia| |].
  - by left.
  - right. exists j. split; [lia|]. by split.
Qed.

(** Where the marker occurs, the five bytes are those of the marker, none
    of which is ['>']. *)
Lemma marker_not_gt (s : bytes) (i t : nat) :
  occurs_at xml_marker s i -> (t < 5)%nat -> s !! (i + t)%nat <> Some gt_byte.
Proof.
  intros [_ [rest Hrest]] Ht.
  rewrite <- lookup_drop, Hrest.
  do 5 (destruct t as [|t]; [simpl; discriminate|]). lia.
Qed.

Lemma rfind_from_snoc (b : byte) (l : bytes) (k : Z) :
  0 <= k -> rfind_from [b] (l ++ [b]) k = k + Z.of_nat (length l).
Proof.
  revert k. induction l as [|c l IH]; intros k Hk.
  - cbn [app rfind_from startswith].
    rewrite (Byte.byte_dec_lb (eq_refl b)). simpl. lia.
  - cbn [app rfind_from]. rewrite IH by lia.
    destruct (Z.eqb_spec (k + 1 + Z.of_nat (length l)) (-1)) as [E|E];
      [lia|].
    simpl length. lia.
Qed.

Lemma find_at_start (sub rest : bytes) : find (sub ++ rest) sub = 0.
Proof.
  unfold find.
  assert (startswith sub (sub ++ rest) = true) as H
    by (apply startswith_occurs; by exists rest).
  destruct (sub ++ rest); simpl; by rewrite H.
Qed.

(** The outcome of the extractor, branch by branch: the input comes back
    as it is when the marker is absent or no ['>'] follows it; otherwise the
    result is the inclusive slice between the first marker and the last
    ['>'], which lies at least five bytes further. *)
Lemma extract_cases (s : bytes) :
  ((forall i, ~ occurs_at xml_marker s i) /\
     _extract_xml_from_xsig_bytes s = s)
  \/ (exists i, first_occurrence xml_marker s i /\
        (forall j, (i < j)%nat -> s !! j <> Some gt_byte) /\
        _extract_xml_from_xsig_bytes s = s)
  \/ (exists i j, first_occurrence xml_marker s i /\
        last_byte_occurrence gt_byte s j /\ (i + 5 <= j)%nat /\
        _extract_xml_from_xsig_bytes s = inclusive_slice s i j).
Proof.
  unfold _extract_xml_from_xsig_bytes.
  destruct (find_spec xml_marker s) as [[Hf Hno] | (i & Hf & Hi)].
  { rewrite Hf. simpl. by left. }
  right.
  destruct (rfind_byte_spec gt_byte s) as [[Hr Hno] | (j & Hr & Hj)].
  { rewrite Hf, Hr. left. exists i.
    split; [exact Hi|]. split; [by auto|].
    destruct (Z.gtb_spec (-1 + 1) (Z.of_nat i)); [lia|].
    by rewrite andb_false_r. }
  rewrite Hf, Hr.
  destruct (Z.gtb_spec (Z.of_nat j + 1) (Z.of_nat i)) as [E|E].
  - right. exists i, j.
    destruct (Z.eqb_spec (Z.of_nat i) (-1)); [lia|]. simpl.
    assert (i + 5 <= j)%nat as Hij.
    { destruct (le_lt_dec (i + 5) j) as [|Hlt]; [done|]. exfalso.
      apply (marker_not_gt s i (j - i)); [apply Hi | lia |].
      replace (i + (j - i))%nat with j by lia. apply Hj. }
    split; [exact Hi|]. split; [exact Hj|]. split; [exact Hij|].
    destruct Hj as [Hj _]. apply lookup_lt_Some in Hj.
    replace (Z.of_nat j + 1) with (Z.of_nat (S j)) by lia.
    rewrite slice_in_range by lia. unfold inclusive_slice. f_equal. lia.
  - left. exists i. rewrite andb_false_r.
    split; [exact Hi|]. split; [|done].
    intros k Hk. apply Hj. lia.
Qed.

Lemma inclusive_slice_shape (s : bytes) (i j : nat) :
  occurs_at xml_marker s i -> s !! j = Some gt_byte -> (i + 5 <= j)%nat ->
  exists body, inclusive_slice s i j = xml_marker ++ body ++ [gt_byte].
Proof.
  intros [_ [rest Hrest]] Hj Hij. unfold inclusive_slice. rewrite Hrest.
  assert (rest !! (j - i - 5)%nat = Some gt_byte) as Hr.
  { replace j with (i + (5 + (j - i - 5)))%nat in Hj by lia.
    rewrite <- lookup_drop, Hrest in Hj.
    rewrite lookup_app_r in Hj by (simpl; lia).
    replace (5 + (j - i - 5) - length xml_marker)%nat with (j - i - 5)%nat
      in Hj by (simpl; lia).
    exact Hj. }
  exists (take (j - i - 5) rest).
  rewrite take_app_ge by (simpl; lia). f_equal.
  replace (j - i + 1 - length xml_marker)%nat with (S (j - i - 5))
    by (simpl; lia).
  by apply take_S_r.
Qed.

Lemma extract_wrapped (body : bytes) :
  _extract_xml_from_xsig_bytes (xml_marker ++ body ++ [gt_byte])
  = xml_marker ++ body ++ [gt_byte].
Proof.
  set (o := xml_marker ++ body ++ [gt_byte]).
  assert (find o xml_marker = 0) as Hf by apply find_at_start.
  assert (rfind o [gt_byte] + 1 = Z.of_nat (length o)) as Hr.
  { unfold o, rfind. rewrite app_assoc, rfind_from_snoc by lia.
    rewrite !length_app. simpl. lia. }
  assert (0 < Z.of_nat (length o)) as Hlen by (unfold o; simpl; lia).
  clearbody o.
  unfold _extract_xml_from_xsig_bytes. rewrite Hf, Hr.
  destruct (Z.gtb_spec (Z.of_nat (length o)) 0) as [_|E]; [|lia]. simpl.
  change 0 with (Z.of_nat 0).
  rewrite slice_in_range by lia. simpl.
  rewrite Nat.sub_0_r. apply firstn_all.
Qed.

(** C7. The container extractor returns the inclusive byte slice from the
    first occurrence of the prolog marker [<?xml] to the last occurrence
    of ['>'] whenever the marker is found and its position precedes that
    last ['>']; when the marker is absent, or no ['>'] lies after the
    marker, it returns the input bytes unchanged. Being a total function on
    byte sequences, it never fails. *)
Theorem extract_xml_contract (s : bytes) :
  (forall i j,
      first_occurrence xml_marker s i ->
      last_byte_occurrence gt_byte s j ->
      (i < j)%nat ->
      _extract_xml_from_xsig_bytes s = inclusive_slice s i j)
  /\ ((forall i, ~ occurs_at xml_marker s i) ->
      _extract_xml_from_xsig_bytes s = s)
  /\ (forall i,
      first_occurrence xml_marker s i ->
      (forall j, (i < j)%nat -> s !! j <> Some gt_byte) ->
      _extract_xml_from_xsig_bytes s = s).
Proof.
  destruct (extract_cases s)
    as [[Hno H] | [(i0 & Hi0 & Hafter & H) | (i0 & j0 & Hi0 & Hj0 & Hij & H)]].
  - repeat split; [|done|done].
    intros i j [Hi _]. destruct (Hno i Hi).
  - repeat split; [|by auto|by auto].
    intros i j Hi Hj Hlt.
    rewrite (first_occurrence_unique _ _ _ _ Hi Hi0) in Hlt.
    destruct (Hafter j Hlt). apply Hj.
  - repeat split.
    + intros i j Hi Hj _.
      by rewrite (first_occurrence_unique _ _ _ _ Hi Hi0),
                 (last_byte_occurrence_unique _ _ _ _ Hj Hj0).
    + intros Hno. destruct (Hno i0). apply Hi0.
    + intros i Hi Hafter.
      rewrite (first_occurrence_unique _ _ _ _ Hi Hi0) in Hafter.
      destruct (Hafter j0); [lia|]. apply Hj0.
Qed.

(** The contract at three inputs: [ab<?xml?>z] (marker at 2, last ['>'] at
    8), [a] (no marker) and [><?xml] (no ['>'] after the marker). *)
Lemma extract_xml_contract_witness :
  _extract_xml_from_xsig_bytes
    [x61; x62; x3c; x3f; x78; x6d; x6c; x3f; x3e; x7a]
  = [x3c; x3f; x78; x6d; x6c; x3f; x3e]
  /\ _extract_xml_from_xsig_bytes [x61] = [x61]
  /\ _extract_xml_from_xsig_bytes [x3e; x3c; x3f; x78; x6d; x6c]
     = [x3e; x3c; x3f; x78; x6d; x6c].
Proof.
  split; [|split].
  - apply (proj1 (extract_xml_contract
       [x61; x62; x3c; x3f; x78; x6d; x6c; x3f; x3e; x7a]) 2%nat 8%nat).
    + split.
      * split; [simpl; lia|]. eexists. reflexivity.
      * intros j Hj [_ [rest Hrest]].
        destruct j as [|[|j]]; [discriminate Hrest|discriminate Hrest|lia].
    + split; [reflexivity|].
      intros k Hk. do 9 (destruct k as [|k]; [lia|]).
      destruct k; discriminate.
    + lia.
  - apply (proj1 (proj2 (extract_xml_contract [x61]))).
    intros i [Hi [rest Hrest]].
    destruct i as [|[|i]]; [discriminate Hrest|discriminate Hrest|].
    simpl in Hi. lia.
  - apply (proj2 (proj2 (extract_xml_contract
       [x3e; x3c; x3f; x78; x6d; x6c])) 1%nat).
    + split.
      * split; [simpl; lia|]. eexists. reflexivity.
      * intros j Hj [_ [rest Hrest]].
        destruct j as [|j]; [discriminate Hrest|lia].
    + intros j Hj. destruct j as [|j]; [lia|].
      do 5 (destruct j as [|j]; [discriminate|]). discriminate.
Defined.

(** C10. The container extractor is idempotent: extracting from its own
    output gives that output again. *)
Theorem extract_xml_idempotent (s : bytes) :
  _extract_xml_from_xsig_bytes (_extract_xml_from_xsig_bytes s)
  = _extract_xml_from_xsig_bytes s.
Proof.
  destruct (extract_cases s)
    as [[_ H] | [(i & _ & _ & H) | (i & j & Hi & Hj & Hij & H)]].
  - by rewrite !H.
  - by rewrite !H.
  - destruct (inclusive_slice_shape s i j) as [body Hbody];
      [apply Hi | apply Hj | done |].
    rewrite H, Hbody. apply extract_wrapped.
Qed.

End ExtractorFacts.

(** ** Certificate interpreter *)

Section DatetimeOrder.
Import Datetime.

Lemma lex_compare_refl (a : list Z) : lex_compare a a = Eq.
Proof.
  induction a as [|x a IH]; simpl; [done|]. by rewrite Z.compare_refl.
Qed.

Lemma lex_compare_antisym (a b : list Z) :
  lex_compare b a = CompOpp (lex_compare a b).
Proof.
  revert b. induction a as [|x a IH]; intros [|y b]; simpl; try done.
  rewrite (Z.compare_antisym x y).
  destruct (x ?= y); simpl; [apply IH|done|done].
Qed.

Lemma compare_refl (a : naive) : compare a a = Eq.
Proof. apply lex_compare_refl. Qed.

Lemma compare_antisym (a b : naive) : compare b a = CompOpp (compare a b).
Proof. apply lex_compare_antisym. Qed.

(** [a <= b] is the failure of [b < a], and [a > b] is [b < a]. *)
Lemma le_not_lt (a b : naive) : le a b = negb (lt b a).
Proof.
  unfold le, lt. rewrite (compare_antisym a b). by destruct (compare a b).
Qed.

Lemma gt_lt (a b : naive) : gt a b = lt b a.
Proof.
  unfold gt, lt. rewrite (compare_antisym a b). by destruct (compare a b).
Qed.

Lemma lt_irrefl (a : naive) : lt a a = false.
Proof. unfold lt. by rewrite compare_refl. Qed.

Lemma lex_compare_lt_trans (a b c : list Z) :
  lex_compare a b = Lt -> lex_compare b c = Lt -> lex_compare a c = Lt.
Proof.
  revert b c. induction a as [|x a IH]; intros [|y b] [|z c]; simpl;
    try done.
  destruct (Z.compare_spec x y) as [->|Hxy|Hxy]; [|intros _|done].
  - destruct (y ?= z); [apply IH|done|done].
  - destruct (Z.compare_spec y z) as [->|Hyz|Hyz]; [|intros _|done].
    + intros _. by apply Z.compare_lt_iff in Hxy as ->.
    + assert (x < z)%Z as H by lia. by apply Z.compare_lt_iff in H as ->.
Qed.

Lemma lt_trans (a b c : naive) :
  lt a b = true -> lt b c = true -> lt a c = true.
Proof.
  unfold lt, compare. intros Hab Hbc.
  rewrite (lex_compare_lt_trans (fields a) (fields b) (fields c)); [done| |].
  - by destruct (lex_compare (fields a) (fields b)).
  - by destruct (lex_compare (fields b) (fields c)).
Qed.

Lemma lex_compare_eq (a b : list Z) : lex_compare a b = Eq -> a = b.
Proof.
  revert b. induction a as [|x a IH]; intros [|y b]; simpl; try done.
  destruct (Z.compare_spec x y) as [->|?|?]; [|done|done].
  intros H. f_equal. by apply IH.
Qed.

(** [a < b <= c] gives [a < c]. *)
Lemma lt_le_trans (a b c : naive) :
  lt a b = true -> le b c = true -> lt a c = true.
Proof.
  rewrite le_not_lt, negb_true_iff. intros Hab Hcb.
  destruct (lt a c) eqn:Hac; [done|]. exfalso.
  unfold lt in Hac. destruct (compare a c) eqn:E; [|done|].
  - apply lex_compare_eq in E.
    unfold lt, compare in Hab, Hcb. rewrite E in Hab.
    destruct (lex_compare (fields c) (fields b)); done.
  - assert (lt c a = true) as Hca
      by (unfold lt; rewrite (compare_antisym a c), E; done).
    by rewrite (lt_trans c a b Hca Hab) in Hcb.
Qed.

End DatetimeOrder.

Section InterpreterFacts.
Import Datetime Interpreter.

Lemma states_distinct :
  NotYetValid <> Valid /\ NotYetValid <> Expired /\ Valid <> Expired.
Proof. repeat split; discriminate. Qed.

(** C3. The state of the certificate at an instant is exactly one of the
    three states: not yet valid when the instant is strictly before the
    start of the window, expired when it is not and is strictly after the
    end, valid otherwise, that is between the two bounds, both included.
    On a window whose start does not come after its end, expired is
    strictly after the end and nothing more, and both bounds are
    classified as valid. *)
Theorem current_validity_state_classification
    (now valido_desde valido_hasta : naive) :
  let state := estado_actual now valido_desde valido_hasta in
  (state = NotYetValid /\ state <> Valid /\ state <> Expired
   \/ state = Valid /\ state <> NotYetValid /\ state <> Expired
   \/ state = Expired /\ state <> NotYetValid /\ state <> Valid)
  /\ (state = NotYetValid <-> lt now valido_desde = true)
  /\ (state = Expired <->
        lt now valido_desde = false /\ gt now valido_hasta = true)
  /\ (state = Valid <->
        le valido_desde now = true /\ le now valido_hasta = true)
  /\ (le valido_desde valido_hasta = true ->
        (state = Expired <-> gt now valido_hasta = true)
        /\ estado_actual valido_desde valido_desde valido_hasta = Valid
        /\ estado_actual valido_hasta valido_desde valido_hasta = Valid).
Proof.
  destruct states_distinct as (D1 & D2 & D3).
  cbv zeta. split; [|split; [|split; [|split]]].
  - unfold estado_actual.
    destruct (lt now valido_desde); [|destruct (gt now valido_hasta)].
    + left. by repeat split.
    + right; right. repeat split; congruence.
    + right; left. repeat split; congruence.
  - unfold estado_actual.
    destruct (lt now valido_desde); [done|].
    destruct (gt now valido_hasta); split; congruence.
  - unfold estado_actual.
    destruct (lt now valido_desde); [|destruct (gt now valido_hasta)].
    + split; [intros H; congruence | intros [? _]; discriminate].
    + done.
    + split; [intros H; congruence | intros [_ ?]; discriminate].
  - unfold estado_actual. rewrite !le_not_lt, (gt_lt now valido_hasta).
    destruct (lt now valido_desde); [|destruct (lt valido_hasta now)];
      simpl.
    + split; [intros H; congruence | intros [? _]; discriminate].
    + split; [intros H; congruence | intros [_ ?]; discriminate].
    + done.
  - intros Hw. split; [|split].
    + unfold estado_actual.
      destruct (lt now valido_desde) eqn:E1.
      * split; [congruence|]. rewrite gt_lt. intros E2.
        pose proof (lt_le_trans _ _ _ E1 Hw) as H1.
        pose proof (lt_trans _ _ _ E2 H1) as H2.
        by rewrite lt_irrefl in H2.
      * destruct (gt now valido_hasta); split; congruence.
    + unfold estado_actual. rewrite lt_irrefl, gt_lt.
      rewrite le_not_lt, negb_true_iff in Hw. by rewrite Hw.
    + unfold estado_actual. rewrite gt_lt, lt_irrefl.
      rewrite le_not_lt, negb_true_iff in Hw. by rewrite Hw.
Qed.

(** The scenario of the specification: window 2024-01-01 to 2026-01-01,
    evaluated at 2025-06-01. *)
Lemma current_validity_state_witness :
  estado_actual (Naive 2025 6 1 0 0 0 0) (Naive 2024 1 1 0 0 0 0)
                (Naive 2026 1 1 0 0 0 0) = Valid
  /\ estado_actual (Naive 2024 1 1 0 0 0 0) (Naive 2024 1 1 0 0 0 0)
                   (Naive 2026 1 1 0 0 0 0) = Valid
  /\ estado_actual (Naive 2026 1 1 0 0 0 0) (Naive 2024 1 1 0 0 0 0)
                   (Naive 2026 1 1 0 0 0 0) = Valid.
Proof.
  pose proof (current_validity_state_classification
                (Naive 2025 6 1 0 0 0 0) (Naive 2024 1 1 0 0 0 0)
                (Naive 2026 1 1 0 0 0 0)) as H.
  cbv zeta in H. destruct H as (_ & _ & _ & Hvalid & Hwindow).
  split.
  - apply Hvalid. split; reflexivity.
  - apply Hwindow. reflexivity.
Defined.

Lemma truthy_nonempty (s : string) : PyStr.truthy s = true <-> s <> "".
Proof. destruct s; simpl; split; congruence. Qed.

Lemma not_found_singleton (v : string) :
  PyStr.startswith v "Firma" = false ->
  found {[ "estado" := v ]} = false.
Proof. intros H. unfold found, dict_get. by rewrite lookup_singleton_eq. Qed.

Lemma error_not_found (e : string) :
  found {[ "estado" := "Error al extraer firma: " +:+ e ]} = false.
Proof. by apply not_found_singleton. Qed.

(** The entries of the dict of a signature that was found. *)
Lemma signature_dict_entries (v1 v2 v3 v4 v5 v6 v7 v8 v9 v10 : string) :
  let info : gmap string string :=
    list_to_map
      [ ("estado", v1); ("firmante", v2); ("nif", v3); ("algoritmo", v4);
        ("fecha_firma", v5); ("valido_desde", v6); ("valido_hasta", v7);
        ("estado_certificado", v8); ("validez_en_firma", v9);
        ("autoridad_certificadora", v10) ] in
  info !! "estado" = Some v1
  /\ info !! "fecha_firma" = Some v5
  /\ info !! "estado_certificado" = Some v8
  /\ info !! "validez_en_firma" = Some v9.
Proof. repeat split. Qed.

(** With a certificate value that decodes and parses, the interpreter
    reports the signature as found, with the two validity states computed
    from the window of the certificate. *)
Lemma signature_info_of_certificate (L : Library) (now : naive)
    (xml_root : ET.Element) (cert_der : bytes) (cert : X509.Certificate) :
  let cert_base64 := ET.findtext xml_root certificate_path "" in
  let signing_time_str :=
    ET.findtext xml_root signing_time_path "No especificada" in
  let info := _extract_signature_info_from_xml L now xml_root in
  cert_base64 <> "" ->
  b64decode L cert_base64 = Return cert_der ->
  load_der_x509_certificate L cert_der = Return cert ->
  info !! "estado" = Some "Firma encontrada"
  /\ info !! "fecha_firma" = Some signing_time_str
  /\ info !! "estado_certificado"
     = Some (estado_actual now (X509.not_valid_before cert)
                           (X509.not_valid_after cert))
  /\ info !! "validez_en_firma"
     = Some (validez_en_firma L signing_time_str
               (X509.not_valid_before cert) (X509.not_valid_after cert)).
Proof.
  cbv zeta. intros Hne Hdec Hload.
  unfold _extract_signature_info_from_xml, signature_info_body.
  apply truthy_nonempty in Hne. rewrite Hne. cbn [negb].
  rewrite Hdec. cbn [mbind Exc_bind]. rewrite Hload. cbn [mbind Exc_bind].
  apply signature_dict_entries.
Qed.

(** C4. When the signing-time text parses, its offset is dropped and the
    validity at signing is [ValidAtSigning] exactly when the instant left
    lies within the window, bounds included, and [InvalidAtSigning]
    otherwise; when it does not parse, the state is neither of the two and
    carries the reason of the failure. *)
Theorem validity_at_signing_state (L : Library) (now : naive)
    (xml_root : ET.Element) (cert_der : bytes) (cert : X509.Certificate) :
  let cert_base64 := ET.findtext xml_root certificate_path "" in
  let signing_time_str :=
    ET.findtext xml_root signing_time_path "No especificada" in
  let info := _extract_signature_info_from_xml L now xml_root in
  let valido_desde := X509.not_valid_before cert in
  let valido_hasta := X509.not_valid_after cert in
  cert_base64 <> "" ->
  b64decode L cert_base64 = Return cert_der ->
  load_der_x509_certificate L cert_der = Return cert ->
  (forall fields offset,
      date_parser_parse L signing_time_str
      = Return (Datetime fields offset) ->
      (info !! "validez_en_firma" = Some ValidAtSigning <->
         le valido_desde fields = true /\ le fields valido_hasta = true)
      /\ (info !! "validez_en_firma" = Some InvalidAtSigning <->
            ~ (le valido_desde fields = true /\ le fields valido_hasta = true))
      /\ (info !! "validez_en_firma" = Some ValidAtSigning
          \/ info !! "validez_en_firma" = Some InvalidAtSigning))
  /\ (forall reason,
      date_parser_parse L signing_time_str = Raise reason ->
      info !! "validez_en_firma"
        = Some ("No se pudo validar la fecha de firma: " +:+ reason)
      /\ info !! "validez_en_firma" <> Some ValidAtSigning
      /\ info !! "validez_en_firma" <> Some InvalidAtSigning).
Proof.
  cbv zeta. intros Hne Hdec Hload.
  destruct (signature_info_of_certificate L now xml_root cert_der cert
              Hne Hdec Hload) as (_ & _ & _ & ->).
  unfold validez_en_firma. split.
  - intros fields offset ->. cbn [replace_tzinfo_None wall].
    destruct (le (X509.not_valid_before cert) fields);
      destruct (le fields (X509.not_valid_after cert)); cbn [andb];
      (split; [|split]);
      first [ by left | by right
            | split; [ intros [=] | intros [? ?]; discriminate ]
            | split; [ intros [=] | intros H; exfalso; apply H; by split ]
            | split; [ done | done ]
            | split; [ intros _ [? ?]; discriminate | done ] ].
  - intros reason ->. repeat split; intros [=].
Qed.

(** The scenario of the specification: signing time
    2025-03-01T10:00:00+01:00 under the window 2024-01-01 to 2026-01-01. *)
Lemma validity_at_signing_state_witness :
  _extract_signature_info_from_xml Examples.sample_library
    Examples.sample_now Examples.sample_root !! "validez_en_firma"
  = Some ValidAtSigning.
Proof.
  pose proof (validity_at_signing_state Examples.sample_library
                Examples.sample_now Examples.sample_root [x30; x82]
                Examples.sample_certificate) as H.
  cbv zeta in H.
  destruct H as [H _]; [discriminate | reflexivity | reflexivity |].
  destruct (H (Naive 2025 3 1 10 0 0 0) (Some 3600%Z)) as (Hvalid & _);
    [reflexivity|].
  apply Hvalid. split; reflexivity.
Defined.

(** Whatever the body of the [try] raises ends in the error dict. *)
Lemma signature_info_on_raise (L : Library) (now : naive)
    (xml_root : ET.Element) (e : string) :
  signature_info_body L now xml_root = Raise e ->
  _extract_signature_info_from_xml L now xml_root
  = {[ "estado" := "Error al extraer firma: " +:+ e ]}.
Proof.
  intros H. unfold _extract_signature_info_from_xml. by rewrite H.
Qed.

Lemma signature_info_raise (L : Library) (now : naive)
    (xml_root : ET.Element) (e : string) :
  signature_info_body L now xml_root = Raise e ->
  _extract_signature_info_from_xml L now xml_root
    = {[ "estado" := "Error al extraer firma: " +:+ e ]}
  /\ found (_extract_signature_info_from_xml L now xml_root) = false.
Proof.
  intros He. rewrite (signature_info_on_raise _ _ _ _ He).
  split; [done | apply error_not_found].
Qed.

(** The three ways through the interpreter. *)
Lemma signature_info_cases (L : Library) (now : naive)
    (xml_root : ET.Element) :
  let cert_base64 := ET.findtext xml_root certificate_path "" in
  let info := _extract_signature_info_from_xml L now xml_root in
  (cert_base64 = "" /\ info = {[ "estado" := "No se encontró certificado" ]})
  \/ (cert_base64 <> "" /\ exists e,
        signature_info_body L now xml_root = Raise e /\
        (b64decode L cert_base64 = Raise e \/
         exists cert_der, b64decode L cert_base64 = Return cert_der /\
                          load_der_x509_certificate L cert_der = Raise e))
  \/ (cert_base64 <> "" /\ exists cert_der cert,
        b64decode L cert_base64 = Return cert_der /\
        load_der_x509_certificate L cert_der = Return cert /\
        info !! "estado" = Some "Firma encontrada").
Proof.
  cbv zeta.
  destruct (ET.findtext xml_root certificate_path "") as [|c rest] eqn:Hcert.
  { left. split; [done|].
    unfold _extract_signature_info_from_xml, signature_info_body.
    by rewrite Hcert. }
  right. assert (String c rest <> "") as Hne by done.
  destruct (b64decode L (String c rest)) as [e1|cert_der] eqn:Hdec.
  { left. split; [done|]. exists e1. split; [|by left].
    unfold signature_info_body. by rewrite Hcert, Hdec. }
  destruct (load_der_x509_certificate L cert_der) as [e2|cert] eqn:Hload.
  { left. split; [done|]. exists e2. split; [|right; by exists cert_der].
    unfold signature_info_body. rewrite Hcert, Hdec.
    cbn [negb PyStr.truthy mbind Exc_bind]. by rewrite Hload. }
  right. split; [done|]. exists cert_der, cert. split; [done|]. split; [done|].
  pose proof (signature_info_of_certificate L now xml_root cert_der cert)
    as Hfound.
  cbv zeta in Hfound. rewrite Hcert in Hfound.
  by destruct (Hfound Hne Hdec Hload) as (Hestado & _).
Qed.

(** C5. The interpreter returns a dict on every document and never lets an
    exception out: without a certificate value, or when decoding it or
    parsing the certificate fails, or when anything else raised inside its
    body, the dict holds one entry, a text saying what went wrong, and the
    signature does not count as found. It counts as found exactly when the
    value is there, decodes and parses. *)
Theorem signature_info_never_raises (L : Library) (now : naive)
    (xml_root : ET.Element) :
  let cert_base64 := ET.findtext xml_root certificate_path "" in
  let info := _extract_signature_info_from_xml L now xml_root in
  is_Some (info !! "estado")
  /\ (cert_base64 = "" ->
      info = {[ "estado" := "No se encontró certificado" ]}
      /\ found info = false)
  /\ (forall e,
      cert_base64 <> "" -> b64decode L cert_base64 = Raise e ->
      info = {[ "estado" := "Error al extraer firma: " +:+ e ]}
      /\ found info = false)
  /\ (forall cert_der e,
      cert_base64 <> "" -> b64decode L cert_base64 = Return cert_der ->
      load_der_x509_certificate L cert_der = Raise e ->
      info = {[ "estado" := "Error al extraer firma: " +:+ e ]}
      /\ found info = false)
  /\ (forall e,
      signature_info_body L now xml_root = Raise e ->
      info = {[ "estado" := "Error al extraer firma: " +:+ e ]}
      /\ found info = false)
  /\ (found info = true <->
      cert_base64 <> "" /\
      exists cert_der cert,
        b64decode L cert_base64 = Return cert_der /\
        load_der_x509_certificate L cert_der = Return cert).
Proof.
  cbv zeta.
  destruct (signature_info_cases L now xml_root)
    as [[Hcert Hinfo] | [(Hne & e0 & Hbody & Hcause)
                        | (Hne & der & cert & Hdec & Hload & Hestado)]].
  - (* no certificate value *)
    split; [by rewrite Hinfo|].
    split; [intros _; split; [done | by rewrite Hinfo]|].
    split; [intros e Hne; by destruct Hne|].
    split; [intros d e Hne; by destruct Hne|].
    split; [apply signature_info_raise|].
    rewrite Hinfo, not_found_singleton by done.
    split; [done | intros [Hne _]; by destruct Hne].
  - (* decoding or parsing raises *)
    destruct (signature_info_raise L now xml_root e0 Hbody) as [Hinfo Hnot].
    split; [rewrite Hinfo; by rewrite lookup_singleton_eq|].
    split; [intros Hcert; by destruct Hne|].
    split.
    { intros e _ He. destruct Hcause as [Hc | (d & Hc & _)];
        rewrite Hc in He; [by injection He as <- | done]. }
    split.
    { intros d e _ Hd He. destruct Hcause as [Hc | (d' & Hc & Hl)];
        rewrite Hc in Hd; [done|].
      injection Hd as <-. rewrite Hl in He. by injection He as <-. }
    split; [apply signature_info_raise|].
    rewrite Hnot. split; [done|].
    intros (_ & d & c & Hd & Hl).
    destruct Hcause as [Hc | (d' & Hc & Hl')]; rewrite Hc in Hd; [done|].
    injection Hd as <-. by rewrite Hl' in Hl.
  - (* the signature is found *)
    split; [by rewrite Hestado|].
    split; [intros Hcert; by destruct Hne|].
    split; [intros e _ He; by rewrite Hdec in He|].
    split.
    { intros d e _ Hd He. rewrite Hdec in Hd. injection Hd as <-.
      by rewrite Hload in He. }
    split; [apply signature_info_raise|].
    split; [intros _; split; [done | by exists der, cert]|].
    intros _. unfold found, dict_get. by rewrite Hestado.
Qed.

(** On the empty document there is no certificate value; on the sample
    document the signature is found. *)
Lemma signature_info_never_raises_witness :
  found (_extract_signature_info_from_xml Examples.sample_library
           Examples.sample_now Examples.empty_root) = false
  /\ found (_extract_signature_info_from_xml Examples.sample_library
              Examples.sample_now Examples.sample_root) = true.
Proof.
  split.
  - pose proof (signature_info_never_raises Examples.sample_library
                  Examples.sample_now Examples.empty_root) as H.
    cbv zeta in H. destruct H as (_ & H & _).
    apply H. reflexivity.
  - pose proof (signature_info_never_raises Examples.sample_library
                  Examples.sample_now Examples.sample_root) as H.
    cbv zeta in H. destruct H as (_ & _ & _ & _ & _ & H).
    apply H. split; [discriminate|].
    exists [x30; x82], Examples.sample_certificate. split; reflexivity.
Defined.

End InterpreterFacts.

(** ** Invoice mapper *)

Section StripFacts.
Import PyStr.

Lemma append_cons (c : ascii) (s t : string) :
  String c s +:+ t = String c (s +:+ t).
Proof. reflexivity. Qed.

Lemma append_empty (t : string) : "" +:+ t = t.
Proof. reflexivity. Qed.

Lemma join_cons (t : string) (l : list string) : join (t :: l) = t +:+ join l.
Proof. reflexivity. Qed.

Lemma chars_cons (b : ascii) (s : string) :
  chars (String b s)
  = match chars s with
    | t :: l => if continues t then String b t :: l else String b "" :: t :: l
    | [] => [String b ""]
    end.
Proof. reflexivity. Qed.

(** The characters of a text, put together again, are the text. *)
Lemma join_chars (s : string) : join (chars s) = s.
Proof.
  induction s as [|b s IH]; [done|]. rewrite chars_cons.
  destruct (chars s) as [|t l].
  - cbn in IH. by subst s.
  - rewrite join_cons in IH. destruct (continues t); rewrite !join_cons.
    + by rewrite append_cons, IH.
    + by rewrite append_cons, append_empty, IH.
Qed.

Lemma are_chars_tail (t : string) (l : list string) :
  are_chars (t :: l) = true ->
  forallb is_char l = true
  /\ forallb (fun t => negb (continues t)) l = true.
Proof.
  unfold are_chars. cbn [forallb tail].
  rewrite !andb_true_iff. tauto.
Qed.

Lemma are_chars_fresh (l : list string) :
  forallb is_char l = true ->
  forallb (fun t => negb (continues t)) l = true ->
  are_chars l = true.
Proof.
  intros H1 H2. unfold are_chars. rewrite H1. cbn [andb].
  destruct l as [|t l]; [done|]. cbn [forallb tail] in *.
  by apply andb_true_iff in H2 as [_ H2].
Qed.

Lemma chars_are_chars (s : string) : are_chars (chars s) = true.
Proof.
  induction s as [|b s IH]; [done|]. rewrite chars_cons.
  destruct (chars s) as [|t l]; [done|].
  unfold are_chars in *. cbn [forallb tail] in *.
  apply andb_true_iff in IH as [IH Hl].
  apply andb_true_iff in IH as [Ht Hc].
  destruct (continues t) eqn:E; cbn [forallb tail is_char].
  - rewrite Hc, Hl. destruct t as [|c r]; [done|].
    cbn [continues] in E. cbn [is_char] in Ht.
    cbn [all_continuation]. by rewrite E, Ht.
  - cbn [all_continuation]. by rewrite Ht, Hc, Hl, E.
Qed.

(** Continuation bytes put before a text go to its first character. *)
Lemma chars_continuation (r s : string) :
  all_continuation r = true ->
  match chars s with t :: _ => continues t = false | [] => True end ->
  chars (r +:+ s) = match r with EmptyString => chars s | _ => r :: chars s end.
Proof.
  intros Hr Hs. induction r as [|c r IH]; [done|].
  cbn [all_continuation] in Hr. apply andb_true_iff in Hr as [Hc Hr].
  rewrite append_cons, chars_cons, (IH Hr).
  destruct r as [|c' r'].
  - destruct (chars s) as [|t l]; [done|]. by rewrite Hs.
  - cbn [all_continuation] in Hr. apply andb_true_iff in Hr as [Hc' _].
    cbn [continues]. by rewrite Hc'.
Qed.

(** A list of characters is the list of characters of its text. *)
Lemma chars_join (l : list string) : are_chars l = true -> chars (join l) = l.
Proof.
  induction l as [|t l IH]; [done|]. intros H.
  pose proof (are_chars_tail t l H) as [Hl Hf].
  specialize (IH (are_chars_fresh l Hl Hf)).
  unfold are_chars in H. cbn [forallb] in H.
  apply andb_true_iff in H as [H _]. apply andb_true_iff in H as [Ht _].
  destruct t as [|b r]; [done|]. cbn [is_char] in Ht.
  rewrite join_cons, append_cons, chars_cons.
  rewrite (chars_continuation r (join l) Ht).
  - rewrite IH. destruct r as [|c r'].
    + destruct l as [|t' l']; [done|]. cbn [forallb] in Hf.
      apply andb_true_iff in Hf as [Hf _]. apply negb_true_iff in Hf.
      by rewrite Hf.
    + cbn [all_continuation] in Ht. apply andb_true_iff in Ht as [Hc _].
      cbn [continues]. by rewrite Hc.
  - rewrite IH. destruct l as [|t' l']; [done|]. cbn [forallb] in Hf.
    apply andb_true_iff in Hf as [Hf _]. by apply negb_true_iff in Hf.
Qed.

Lemma rstrip_chars_forallb (p : string -> bool) (l : list string) :
  forallb p l = true -> forallb p (rstrip_chars l) = true.
Proof.
  induction l as [|ch l IH]; [done|]. cbn [forallb rstrip_chars].
  rewrite andb_true_iff. intros [Hch Hl]. specialize (IH Hl).
  destruct (rstrip_chars l) as [|c r].
  - destruct (isspace ch); [done|]. cbn [forallb]. by rewrite Hch.
  - cbn [forallb] in *. by rewrite Hch, IH.
Qed.

Lemma lstrip_chars_are (l : list string) :
  are_chars l = true -> are_chars (lstrip_chars l) = true.
Proof.
  induction l as [|ch l IH]; [done|]. intros H. cbn [lstrip_chars].
  destruct (isspace ch); [|done].
  apply are_chars_tail in H as [H1 H2]. apply IH.
  by apply are_chars_fresh.
Qed.

Lemma rstrip_chars_are (l : list string) :
  are_chars l = true -> are_chars (rstrip_chars l) = true.
Proof.
  destruct l as [|ch l]; [done|]. intros H.
  pose proof (are_chars_tail ch l H) as [H1 H2].
  unfold are_chars in H. apply andb_true_iff in H as [H _].
  unfold are_chars. rewrite (rstrip_chars_forallb _ _ H). cbn [andb].
  cbn [rstrip_chars].
  pose proof (rstrip_chars_forallb _ _ H2) as Hr.
  destruct (rstrip_chars l) as [|c r]; [by destruct (isspace ch)|].
  exact Hr.
Qed.

(** The characters of a stripped text. *)
Lemma chars_strip (s : string) :
  chars (strip s) = rstrip_chars (lstrip_chars (chars s)).
Proof.
  unfold strip. apply chars_join.
  apply rstrip_chars_are, lstrip_chars_are, chars_are_chars.
Qed.

Lemma rstrip_chars_empty (l : list string) :
  rstrip_chars l = [] <-> forallb isspace l = true.
Proof.
  induction l as [|ch l IH]; cbn [rstrip_chars forallb]; [done|].
  destruct (rstrip_chars l) eqn:E.
  - destruct (isspace ch); cbn [andb]; [tauto|]. split; [done|intros [=]].
  - rewrite andb_true_iff. split; [done|].
    intros [_ H]. apply IH in H. discriminate.
Qed.

Lemma isspace_lstrip_chars (l : list string) :
  forallb isspace (lstrip_chars l) = forallb isspace l.
Proof.
  induction l as [|ch l IH]; [done|]. cbn [lstrip_chars forallb].
  destruct (isspace ch) eqn:E; [done|]. cbn [forallb]. by rewrite E.
Qed.

(** Stripping leaves nothing exactly of the blank texts. *)
Lemma strip_empty (s : string) : strip s = "" <-> Spec.blank s = true.
Proof.
  unfold Spec.blank. rewrite <- isspace_lstrip_chars, <- rstrip_chars_empty.
  split.
  - intros H. rewrite <- chars_strip. by rewrite H.
  - intros H. unfold strip. by rewrite H.
Qed.

Lemma strip_eqb_empty (s : string) : String.eqb (strip s) "" = Spec.blank s.
Proof.
  destruct (String.eqb_spec (strip s) "") as [H|H].
  - symmetry. by apply strip_empty.
  - destruct (Spec.blank s) eqn:E; [|done].
    destruct H. by apply strip_empty.
Qed.

Lemma lstrip_chars_clean (l : list string) :
  match l with [] => True | ch :: _ => isspace ch = false end ->
  lstrip_chars l = l.
Proof. destruct l as [|ch l]; [done|]. cbn [lstrip_chars]. by intros ->. Qed.

Lemma lstrip_chars_head (l : list string) :
  match lstrip_chars l with
  | [] => True
  | ch :: _ => isspace ch = false
  end.
Proof.
  induction l as [|ch l IH]; [done|]. cbn [lstrip_chars].
  by destruct (isspace ch) eqn:E.
Qed.

Lemma rstrip_chars_head (l : list string) :
  match l with [] => True | ch :: _ => isspace ch = false end ->
  match rstrip_chars l with
  | [] => True
  | ch :: _ => isspace ch = false
  end.
Proof.
  destruct l as [|ch l]; [done|]. cbn [rstrip_chars]. intros Hc.
  destruct (rstrip_chars l); [by rewrite Hc | done].
Qed.

Lemma rstrip_chars_idempotent (l : list string) :
  rstrip_chars (rstrip_chars l) = rstrip_chars l.
Proof.
  induction l as [|ch l IH]; [done|]. cbn [rstrip_chars].
  destruct (rstrip_chars l) as [|c r] eqn:E.
  - destruct (isspace ch) eqn:Ec; [done|]. cbn [rstrip_chars]. by rewrite Ec.
  - cbn [rstrip_chars] in *. by rewrite IH.
Qed.

(** Stripping twice is stripping once. *)
Lemma strip_idempotent (s : string) : strip (strip s) = strip s.
Proof.
  unfold strip at 1. rewrite chars_strip.
  rewrite (lstrip_chars_clean (rstrip_chars (lstrip_chars (chars s)))).
  - by rewrite rstrip_chars_idempotent.
  - apply rstrip_chars_head, lstrip_chars_head.
Qed.

(** The last character of a stripped text is not whitespace. *)
Lemma rstrip_chars_last (l pre : list string) (ch : string) :
  rstrip_chars l = pre ++ [ch] -> isspace ch = false.
Proof.
  revert pre. induction l as [|a l IH]; intros pre.
  - cbn [rstrip_chars]. by destruct pre.
  - cbn [rstrip_chars]. destruct (rstrip_chars l) as [|c r] eqn:E.
    + destruct (isspace a) eqn:Ea; [by destruct pre|].
      destruct pre as [|p pre]; [by intros [= <-]|].
      intros [= _ H]. by destruct pre.
    + destruct pre as [|p pre]; [by intros [=]|].
      intros [= _ H]. by apply (IH pre).
Qed.

Lemma rstrip_chars_nonspace (l : list string) :
  forallb (fun ch => negb (isspace ch)) l = true -> rstrip_chars l = l.
Proof.
  induction l as [|ch l IH]; [done|].
  cbn [forallb]. rewrite andb_true_iff, negb_true_iff. intros [Hc Hl].
  cbn [rstrip_chars]. rewrite (IH Hl), Hc. by destruct l.
Qed.

End StripFacts.

Section LegalReferences.
Import ET Mapper.

Lemma keeps_reference_non_blank (ref : Element) :
  keeps_reference ref = negb (Spec.blank (Spec.entry_text ref)).
Proof.
  unfold keeps_reference, Spec.entry_text.
  destruct (text ref) as [t|]; [|done].
  rewrite strip_eqb_empty. by destruct t.
Qed.

Lemma legal_references_of_filter (refs : list Element) :
  legal_references_of refs
  = map PyStr.strip
      (List.filter (fun t => negb (Spec.blank t)) (map Spec.entry_text refs)).
Proof.
  unfold legal_references_of.
  induction refs as [|ref refs IH]; [done|].
  cbn [omap list_omap map List.filter].
  rewrite keeps_reference_non_blank.
  destruct (negb (Spec.blank (Spec.entry_text ref))) eqn:E.
  - unfold Spec.entry_text in *. destruct (text ref) as [t|]; simpl.
    + f_equal. apply IH.
    + done.
  - apply IH.
Qed.

(** C8. The legal references of the invoice are the entries of the
    document whose text is neither empty nor whitespace only, each
    stripped, in document order; there are as many as non-blank entries,
    and none of them is empty. *)
Theorem legal_references_filtering (xml_root : Element) :
  let entries :=
    map Spec.entry_text (findall xml_root legal_reference_path) in
  let non_blank := List.filter (fun t => negb (Spec.blank t)) entries in
  legal_references xml_root = map PyStr.strip non_blank
  /\ length (legal_references xml_root) = length non_blank
  /\ Forall (fun ref => ref <> "") (legal_references xml_root).
Proof.
  cbv zeta. unfold legal_references. rewrite legal_references_of_filter.
  split; [done|]. split; [by rewrite length_map|].
  apply List.Forall_forall. intros r Hr.
  apply in_map_iff in Hr as (t & <- & Ht).
  apply filter_In in Ht as [_ Ht].
  intros H. apply strip_empty in H. by rewrite H in Ht.
Qed.

(** Two entries of the sample document, one of them blank; and the two
    of [spaces_root], of which the no-break space alone is dropped and the
    other loses the characters around its text. *)
Lemma legal_references_filtering_witness :
  legal_references Examples.sample_root = ["Ley 37/1992"]
  /\ legal_references MoreExamples.spaces_root = ["Ley"].
Proof.
  destruct (legal_references_filtering Examples.sample_root) as (Hs & _).
  destruct (legal_references_filtering MoreExamples.spaces_root)
    as (Hu & _).
  split; [by rewrite Hs | by rewrite Hu].
Defined.

End LegalReferences.

Section StrptimeFacts.
Import PyStr Datetime.

Variable dec : string -> option (fin 10).

(** The first character of a text starts with its first byte. *)
Lemma chars_head (s : string) :
  match chars s with
  | t :: _ => continues t = continues s
  | [] => s = ""
  end.
Proof.
  destruct s as [|b s]; [done|]. rewrite chars_cons.
  destruct (chars s) as [|t l]; [done|]. by destruct (continues t).
Qed.

(** A byte followed by the start of a character is a character. *)
Lemma chars_fresh (b : ascii) (s : string) :
  continues s = false -> chars (String b s) = String b "" :: chars s.
Proof.
  intros H. rewrite chars_cons. pose proof (chars_head s) as Hh.
  destruct (chars s) as [|t l]; [done|]. by rewrite Hh, H.
Qed.

Lemma digit_spec (k : Z) :
  0 <= k <= 9 -> is_digit (digit k) = true /\ digit_val (digit k) = k.
Proof.
  intros Hk.
  assert (exists n, (n < 10)%nat /\ k = Z.of_nat n) as (n & Hn & ->)
    by (exists (Z.to_nat k); lia).
  do 10 (destruct n as [|n]; [by vm_compute|]). lia.
Qed.

Lemma digit_fresh (k : Z) (s : string) :
  0 <= k <= 9 -> continues (String (digit k) s) = false.
Proof.
  intros Hk.
  assert (exists n, (n < 10)%nat /\ k = Z.of_nat n) as (n & Hn & ->)
    by (exists (Z.to_nat k); lia).
  do 10 (destruct n as [|n]; [by vm_compute|]). lia.
Qed.

Lemma decimal_digit (k : Z) :
  0 <= k <= 9 -> decimal dec (String (digit k) "") = Some k.
Proof.
  intros Hk. unfold decimal. by destruct (digit_spec k Hk) as [-> ->].
Qed.

(** A digit character is the digit of its value. *)
Lemma is_digit_inv (c : ascii) :
  is_digit c = true -> exists k, 0 <= k <= 9 /\ c = digit k.
Proof.
  intros H. exists (digit_val c).
  destruct c as [[] [] [] [] [] [] [] []]; try discriminate H;
    by vm_compute.
Qed.

Lemma match_Y_digits (a b c e : Z) (rest : list string) :
  0 <= a <= 9 -> 0 <= b <= 9 -> 0 <= c <= 9 -> 0 <= e <= 9 ->
  match_Y dec (String (digit a) "" :: String (digit b) ""
               :: String (digit c) "" :: String (digit e) "" :: rest)
  = Some (1000 * a + 100 * b + 10 * c + e, rest).
Proof.
  intros Ha Hb Hc He. unfold match_Y.
  by rewrite !decimal_digit by done.
Qed.

Lemma match_lit_here (lit : string) (l : list string) :
  match_lit lit (lit :: l) = Some l.
Proof. unfold match_lit. by rewrite String.eqb_refl. Qed.

Lemma pad2_digits (a b : Z) :
  0 <= a <= 9 -> 0 <= b <= 9 ->
  pad2 (10 * a + b) = String (digit a) (String (digit b) "").
Proof.
  intros Ha Hb. unfold pad2. do 2 f_equal; f_equal;
    Z.div_mod_to_equations; lia.
Qed.

Lemma pad4_digits (a b c e : Z) :
  0 <= a <= 9 -> 0 <= b <= 9 -> 0 <= c <= 9 -> 0 <= e <= 9 ->
  pad4 (1000 * a + 100 * b + 10 * c + e)
  = String (digit a) (String (digit b) (String (digit c)
      (String (digit e) ""))).
Proof.
  intros Ha Hb Hc He. unfold pad4. do 4 f_equal; f_equal;
    Z.div_mod_to_equations; lia.
Qed.

(** The characters of a year on four digits are its four digits. *)
Lemma chars_pad4 (y : Z) (s : string) :
  0 <= y <= 9999 -> continues s = false ->
  chars (pad4 y +:+ s)
  = String (digit (y / 1000)) "" :: String (digit (y / 100 mod 10)) ""
    :: String (digit (y / 10 mod 10)) "" :: String (digit (y mod 10)) ""
    :: chars s.
Proof.
  intros Hy Hs. unfold pad4. rewrite !append_cons, append_empty.
  rewrite !chars_fresh; try done;
    apply digit_fresh; Z.div_mod_to_equations; lia.
Qed.

(** Month and day written on two digits are read back as they are. *)
Lemma match_md_pad2_table :
  forallb (fun i =>
    forallb (fun j =>
      match match_md dec
              (chars (pad2 (Z.of_nat i) +:+ "-" +:+ pad2 (Z.of_nat j))) with
      | Some (m, d, []) => (m =? Z.of_nat i) && (d =? Z.of_nat j)
      | _ => false
      end) (seq 1 31)) (seq 1 12) = true.
Proof. by vm_compute. Qed.

Lemma match_md_pad2 (m d : Z) :
  1 <= m <= 12 -> 1 <= d <= 31 ->
  match_md dec (chars (pad2 m +:+ "-" +:+ pad2 d)) = Some (m, d, []).
Proof.
  intros Hm Hd.
  pose proof match_md_pad2_table as H.
  rewrite forallb_forall in H.
  assert (In (Z.to_nat m) (seq 1 12)) as Hi by (apply in_seq; lia).
  specialize (H _ Hi). rewrite forallb_forall in H.
  assert (In (Z.to_nat d) (seq 1 31)) as Hj by (apply in_seq; lia).
  specialize (H _ Hj). rewrite !Z2Nat.id in H by lia.
  destruct (match_md dec (chars (pad2 m +:+ "-" +:+ pad2 d)))
    as [[[m' d'] [|c r]]|]; try discriminate H.
  apply andb_true_iff in H as [Hm' Hd'].
  apply Z.eqb_eq in Hm', Hd'. by subst.
Qed.

Lemma days_in_month_le_31 (y m : Z) : days_in_month y m <= 31.
Proof.
  unfold days_in_month.
  repeat match goal with |- context [if ?b then _ else _] => destruct b end;
    lia.
Qed.

(** A zero-padded calendar date is parsed to its year, month and day. *)
Lemma strptime_Ymd_padded (y m d : Z) :
  1 <= y <= 9999 -> 1 <= m <= 12 -> 1 <= d <= days_in_month y m ->
  strptime_Ymd dec (pad4 y +:+ "-" +:+ pad2 m +:+ "-" +:+ pad2 d)
  = Some (y, m, d).
Proof.
  intros Hy Hm Hd. pose proof (days_in_month_le_31 y m).
  unfold strptime_Ymd, regex_match.
  rewrite chars_pad4 by (done || lia).
  rewrite match_Y_digits by (Z.div_mod_to_equations; lia).
  change ("-" +:+ pad2 m +:+ "-" +:+ pad2 d)
    with (String "-" (pad2 m +:+ "-" +:+ pad2 d)).
  rewrite chars_fresh
    by (unfold pad2; rewrite append_cons; apply digit_fresh;
        Z.div_mod_to_equations; lia).
  rewrite match_lit_here, match_md_pad2 by lia. cbn [option_map].
  replace (1000 * (y / 1000) + 100 * (y / 100 mod 10)
           + 10 * (y / 10 mod 10) + y mod 10) with y
    by (Z.div_mod_to_equations; lia).
  destruct (Z.leb_spec 1 y); [|lia].
  destruct (Z.leb_spec d (days_in_month y m)); [|lia]. done.
Qed.

(** On two digits, a dash and two digits, the month and the day are read
    as the two-digit numbers, or text is left over, or nothing matches. *)
Lemma match_md_digits_table :
  forallb (fun a => forallb (fun b => forallb (fun c => forallb (fun e =>
    match match_md dec
            [ String (digit (Z.of_nat a)) ""; String (digit (Z.of_nat b)) "";
              "-"; String (digit (Z.of_nat c)) "";
              String (digit (Z.of_nat e)) "" ] with
    | Some (m, d, []) =>
        (m =? 10 * Z.of_nat a + Z.of_nat b)
        && (d =? 10 * Z.of_nat c + Z.of_nat e)
    | _ => true
    end) (seq 0 10)) (seq 0 10)) (seq 0 10)) (seq 0 10) = true.
Proof. by vm_compute. Qed.

Lemma match_md_digits (a b c e : Z) (m d : Z) :
  0 <= a <= 9 -> 0 <= b <= 9 -> 0 <= c <= 9 -> 0 <= e <= 9 ->
  match_md dec [ String (digit a) ""; String (digit b) ""; "-";
                 String (digit c) ""; String (digit e) "" ]
  = Some (m, d, []) ->
  m = 10 * a + b /\ d = 10 * c + e.
Proof.
  intros Ha Hb Hc He Hmd.
  pose proof match_md_digits_table as H.
  rewrite forallb_forall in H.
  specialize (H (Z.to_nat a) ltac:(apply in_seq; lia)).
  rewrite forallb_forall in H.
  specialize (H (Z.to_nat b) ltac:(apply in_seq; lia)).
  rewrite forallb_forall in H.
  specialize (H (Z.to_nat c) ltac:(apply in_seq; lia)).
  rewrite forallb_forall in H.
  specialize (H (Z.to_nat e) ltac:(apply in_seq; lia)).
  rewrite !Z2Nat.id in H by lia. rewrite Hmd in H.
  apply andb_true_iff in H as [Hm' Hd'].
  apply Z.eqb_eq in Hm', Hd'. done.
Qed.

(** A text of four digits, a dash, two digits, a dash and two digits is
    either rejected or read as the numbers its digits write. *)
Lemma strptime_Ymd_digits (y3 y2 y1 y0 m1 m0 d1 d0 : Z) :
  0 <= y3 <= 9 -> 0 <= y2 <= 9 -> 0 <= y1 <= 9 -> 0 <= y0 <= 9 ->
  0 <= m1 <= 9 -> 0 <= m0 <= 9 -> 0 <= d1 <= 9 -> 0 <= d0 <= 9 ->
  let raw :=
    String (digit y3) (String (digit y2) (String (digit y1)
      (String (digit y0) (String "-" (String (digit m1) (String (digit m0)
        (String "-" (String (digit d1) (String (digit d0) ""))))))))) in
  strptime_Ymd dec raw = None
  \/ strptime_Ymd dec raw
     = Some (1000 * y3 + 100 * y2 + 10 * y1 + y0, 10 * m1 + m0, 10 * d1 + d0).
Proof.
  intros H3 H2 H1 H0 Hm1 Hm0 Hd1 Hd0. cbv zeta.
  unfold strptime_Ymd, regex_match.
  rewrite !chars_fresh by (done || by apply digit_fresh).
  change (chars (String (digit d0) "")) with [String (digit d0) ""].
  rewrite match_Y_digits by done.
  change (String "-" "") with "-"%string. rewrite match_lit_here.
  match goal with
  | |- context [match_md dec ?t] =>
      destruct (match_md dec t) as [[[m d] rest]|] eqn:E
  end; cbn [option_map]; [|by left].
  destruct rest; [|by left].
  apply match_md_digits in E as [-> ->]; try done.
  match goal with
  | |- context [if ?b then _ else _] => destruct b; [by right | by left]
  end.
Qed.

(** What the classes of the expression let through. *)
Lemma in_range_bounds (lo hi c : ascii) :
  in_range lo hi c = true ->
  (nat_of_ascii lo <= nat_of_ascii c <= nat_of_ascii hi)%nat.
Proof.
  unfold in_range. rewrite andb_true_iff, !Nat.leb_le. tauto.
Qed.

Lemma range_bounds (lo hi : ascii) (ch : string) (x : Z) :
  range lo hi ch = Some x ->
  Z.of_nat (nat_of_ascii lo) - 48 <= x <= Z.of_nat (nat_of_ascii hi) - 48.
Proof.
  unfold range. destruct ch as [|c [|? ?]]; try done.
  destruct (in_range lo hi c) eqn:E; [|done]. intros [= <-].
  apply in_range_bounds in E. unfold digit_val. lia.
Qed.

Lemma decimal_bounds (ch : string) (x : Z) :
  decimal dec ch = Some x -> 0 <= x <= 9.
Proof.
  assert (forall o : option (fin 10),
            (fun i => Z.of_nat (fin_to_nat i)) <$> o = Some x ->
            0 <= x <= 9) as Hfin.
  { intros [i|]; [|done]. intros [= <-].
    pose proof (fin_to_nat_lt i). lia. }
  unfold decimal. destruct ch as [|c [|? ?]]; try apply Hfin.
  destruct (is_digit c) eqn:E; [|done]. intros [= <-].
  apply in_range_bounds in E. unfold digit_val.
  change (nat_of_ascii "0") with 48%nat in E.
  change (nat_of_ascii "9") with 57%nat in E. lia.
Qed.

Lemma space_value (ch : string) (x : Z) : space ch = Some x -> x = 0.
Proof. unfold space. destruct (String.eqb ch " "); [|done]. by intros [= <-]. Qed.

Lemma alt2_In (c1 c2 : string -> option Z) (l : list string) (v : Z)
    (r : list string) :
  In (v, r) (alt2 c1 c2 l) ->
  exists a b x1 x0, c1 a = Some x1 /\ c2 b = Some x0 /\ v = 10 * x1 + x0.
Proof.
  unfold alt2. destruct l as [|a [|b rest]]; try done.
  destruct (c1 a) as [x1|] eqn:Ea; [|done].
  destruct (c2 b) as [x0|] eqn:Eb; [|done].
  intros [[= <- <-] | []]. by exists a, b, x1, x0.
Qed.

Lemma alt1_In (c1 : string -> option Z) (l : list string) (v : Z)
    (r : list string) :
  In (v, r) (alt1 c1 l) -> exists a, c1 a = Some v.
Proof.
  unfold alt1. destruct l as [|a rest]; try done.
  destruct (c1 a) as [x0|] eqn:Ea; [|done].
  intros [[= <- <-] | []]. by exists a.
Qed.

(** From the classes of the characters to the range of the number read. *)
Ltac read_ranges :=
  repeat match goal with
         | H : range ?lo ?hi _ = Some _ |- _ =>
             apply range_bounds in H;
             let nlo := eval vm_compute in (Z.of_nat (nat_of_ascii lo) - 48) in
             let nhi := eval vm_compute in (Z.of_nat (nat_of_ascii hi) - 48) in
             change (Z.of_nat (nat_of_ascii lo) - 48) with nlo in H;
             change (Z.of_nat (nat_of_ascii hi) - 48) with nhi in H
         | H : decimal dec _ = Some _ |- _ => apply decimal_bounds in H
         | H : space _ = Some _ |- _ => apply space_value in H
         end;
  lia.

Lemma alts_m_bounds (l : list string) (m : Z) (r : list string) :
  In (m, r) (alts_m l) -> 1 <= m <= 12.
Proof.
  unfold alts_m. rewrite !in_app_iff.
  intros [H | [H | H]].
  - apply alt2_In in H as (a & b & x1 & x0 & Ha & Hb & ->). read_ranges.
  - apply alt2_In in H as (a & b & x1 & x0 & Ha & Hb & ->). read_ranges.
  - apply alt1_In in H as (a & Ha). read_ranges.
Qed.

Lemma alts_d_bounds (l : list string) (d : Z) (r : list string) :
  In (d, r) (alts_d dec l) -> 1 <= d <= 31.
Proof.
  unfold alts_d. rewrite !in_app_iff.
  intros [H | [H | [H | [H | H]]]].
  - apply alt2_In in H as (a & b & x1 & x0 & Ha & Hb & ->). read_ranges.
  - apply alt2_In in H as (a & b & x1 & x0 & Ha & Hb & ->). read_ranges.
  - apply alt2_In in H as (a & b & x1 & x0 & Ha & Hb & ->). read_ranges.
  - apply alt1_In in H as (a & Ha). read_ranges.
  - apply alt2_In in H as (a & b & x1 & x0 & Ha & Hb & ->). read_ranges.
Qed.

Lemma first_success_In {A B : Type} (k : A -> option B) (l : list A)
    (r : B) :
  first_success k l = Some r -> exists x, In x l /\ k x = Some r.
Proof.
  induction l as [|x l IH]; [done|]. cbn [first_success].
  destruct (k x) as [r'|] eqn:E.
  - intros [= <-]. exists x. split; [by left | done].
  - intros H. destruct (IH H) as (x' & Hin & Hk).
    exists x'. split; [by right | done].
Qed.

Lemma match_md_bounds (l : list string) (m d : Z) (r : list string) :
  match_md dec l = Some (m, d, r) -> 1 <= m <= 12 /\ 1 <= d <= 31.
Proof.
  unfold match_md. intros H.
  apply first_success_In in H as ([m' l3] & Hm & H).
  destruct (match_lit "-" l3) as [l4|]; [|done].
  destruct (alts_d dec l4) as [|[d' l5] rest] eqn:Ed; [done|].
  cbn [head option_map] in H. injection H as <- <- <-.
  split; [by apply alts_m_bounds in Hm|].
  apply (alts_d_bounds l4 d' l5). rewrite Ed. by left.
Qed.

Lemma match_Y_bounds (l : list string) (y : Z) (r : list string) :
  match_Y dec l = Some (y, r) -> 0 <= y <= 9999.
Proof.
  unfold match_Y. destruct l as [|a [|b [|c [|d rest]]]]; try done.
  destruct (decimal dec a) as [x3|] eqn:Ea; [|done].
  destruct (decimal dec b) as [x2|] eqn:Eb; [|done].
  destruct (decimal dec c) as [x1|] eqn:Ec; [|done].
  destruct (decimal dec d) as [x0|] eqn:Ed; [|done].
  intros [= <- <-]. read_ranges.
Qed.

(** What [strptime] accepts is a calendar date. *)
Lemma strptime_Ymd_sound (raw : string) (y m d : Z) :
  strptime_Ymd dec raw = Some (y, m, d) ->
  1 <= y <= 9999 /\ 1 <= m <= 12 /\ 1 <= d <= days_in_month y m.
Proof.
  unfold strptime_Ymd, regex_match. intros H.
  destruct (match_Y dec (chars raw)) as [[y' l1]|] eqn:Ey; [|done].
  destruct (match_lit "-" l1) as [l2|]; [|done].
  destruct (match_md dec l2) as [[[m' d'] l5]|] eqn:Emd; [|done].
  cbn [option_map] in H.
  destruct l5; [|done].
  destruct (Z.leb_spec 1 y'); [|done].
  destruct (Z.leb_spec d' (days_in_month y' m')); [|done].
  cbn [andb] in H. injection H as <- <- <-.
  apply match_Y_bounds in Ey. apply match_md_bounds in Emd. lia.
Qed.

(** A date in day/month/year form is not taken by [strptime]: its third
    character is the slash. *)
Lemma strptime_rejects_formatted (yb : Z -> string) (y m d : Z) :
  1 <= m <= 12 -> 1 <= d <= 31 ->
  strptime_Ymd dec (strftime_dmY yb y m d) = None.
Proof.
  intros Hm Hd. unfold strptime_Ymd, regex_match, strftime_dmY, pad2.
  rewrite !append_cons, !append_empty.
  change ("/" +:+ String (digit (m / 10))
                    (String (digit (m mod 10)) ("/" +:+ strftime_Y yb y)))
    with (String "/" (String (digit (m / 10))
                    (String (digit (m mod 10)) ("/" +:+ strftime_Y yb y)))).
  rewrite !chars_fresh
    by (done || (apply digit_fresh; Z.div_mod_to_equations; lia)).
  unfold match_Y.
  destruct (decimal dec (String (digit (d / 10)) "")); [|done].
  by destruct (decimal dec (String (digit (d mod 10)) "")).
Qed.

End StrptimeFacts.

Section IssueDate.
Import ET Datetime Mapper.

(** A text of the pattern whose year does not start with a zero comes out
    reformatted, the digits rearranged, or unchanged. *)
Lemma issue_date_of_pattern (L : Library) (raw : string) :
  Spec.date_pattern raw = true -> PyStr.startswith raw "0" = false ->
  issue_date_of L raw = Spec.reformat raw \/ issue_date_of L raw = raw.
Proof.
  intros H Hzero.
  destruct raw as [|y1 [|y2 [|y3 [|y4 [|s1 [|m1 [|m2 [|s2 [|d1 [|d2 [|? ?]]]]]]]]]]];
    try discriminate H.
  cbn [Spec.date_pattern] in H.
  do 9 (apply andb_true_iff in H; destruct H as [H ?]).
  repeat match goal with
         | E : Ascii.eqb _ _ = true |- _ => apply Ascii.eqb_eq in E; subst
         | E : is_digit _ = true |- _ =>
             apply is_digit_inv in E; destruct E as (? & ? & ->)
         end.
  match goal with
  | |- context [String (digit ?a) (String (digit ?b) (String (digit ?c)
        (String (digit ?e) (String "-" (String (digit ?m1)
          (String (digit ?m0) (String "-" (String (digit ?d1)
            (String (digit ?d0) ""))))))))) ] =>
      pose proof (strptime_Ymd_digits (unicode_decimal L)
                    a b c e m1 m0 d1 d0) as Hread;
      assert (a <> 0) as Ha
  end.
  { intros ->. discriminate Hzero. }
  cbv zeta in Hread. unfold issue_date_of.
  destruct Hread as [-> | ->]; try done; [by right|].
  left. unfold strftime_dmY, strftime_Y, Spec.reformat.
  match goal with
  | |- context [if ?b then _ else _] => destruct b eqn:Ey
  end; [|apply Z.leb_gt in Ey; lia].
  rewrite !pad2_digits, pad4_digits by done. reflexivity.
Qed.

(** The issue date of the model is the raw text of the document, put
    through lines 191-194. *)
Lemma Fecha_of_document (L : Library) (now : naive) (xml_root : Element) :
  Fecha (_extract_invoice_data_from_xml L now xml_root)
  = match invoice_element xml_root with
    | Some invoice =>
        issue_date_of L (findtext invoice (issue_data_path "IssueDate") "N/A")
    | None => "N/A"
    end.
Proof.
  unfold _extract_invoice_data_from_xml, header.
  by destruct (invoice_element xml_root).
Qed.

(** C9, as amended. A zero-padded year-month-day text that names a
    calendar date (year 1000 to 9999) is reformatted to day/month/year.
    Every text [strptime] accepts names a calendar date and is shown as
    that date: day and month on two digits, then the year as [%Y] writes
    it, which is its four digits from year 1000 on. Every text [strptime]
    rejects passes through unchanged. A text of the four-two-two digit
    pattern whose year does not start with a zero comes out either
    reformatted, its digits rearranged, or unchanged. The issue date of
    the invoice model is the text of the document treated so, and the
    sentinel without an invoice element. *)
Theorem issue_date_reformatting (L : Library) :
  (forall y m d,
      1000 <= y <= 9999 -> 1 <= m <= 12 -> 1 <= d <= days_in_month y m ->
      issue_date_of L (pad4 y +:+ "-" +:+ pad2 m +:+ "-" +:+ pad2 d)
      = pad2 d +:+ "/" +:+ pad2 m +:+ "/" +:+ pad4 y)
  /\ (forall raw y m d,
      strptime_Ymd (unicode_decimal L) raw = Some (y, m, d) ->
      (1 <= y <= 9999 /\ 1 <= m <= 12 /\ 1 <= d <= days_in_month y m)
      /\ issue_date_of L raw
         = pad2 d +:+ "/" +:+ pad2 m +:+ "/"
           +:+ strftime_Y (year_below_1000 L) y
      /\ (1000 <= y ->
          issue_date_of L raw = pad2 d +:+ "/" +:+ pad2 m +:+ "/" +:+ pad4 y))
  /\ (forall raw,
      strptime_Ymd (unicode_decimal L) raw = None ->
      issue_date_of L raw = raw)
  /\ (forall raw,
      Spec.date_pattern raw = true -> PyStr.startswith raw "0" = false ->
      issue_date_of L raw = Spec.reformat raw \/ issue_date_of L raw = raw)
  /\ (forall now xml_root,
      Fecha (_extract_invoice_data_from_xml L now xml_root)
      = match invoice_element xml_root with
        | Some invoice =>
            issue_date_of L
              (findtext invoice (issue_data_path "IssueDate") "N/A")
        | None => "N/A"
        end).
Proof.
  split; [|split; [|split; [|split]]].
  - intros y m d Hy Hm Hd. unfold issue_date_of.
    rewrite strptime_Ymd_padded by lia.
    unfold strftime_dmY, strftime_Y.
    destruct (Z.leb_spec 1000 y); [done | lia].
  - intros raw y m d H. split; [by apply strptime_Ymd_sound in H|].
    unfold issue_date_of. rewrite H. split; [done|].
    intros Hy. unfold strftime_dmY, strftime_Y.
    destruct (Z.leb_spec 1000 y); [done | lia].
  - intros raw H. unfold issue_date_of. by rewrite H.
  - apply issue_date_of_pattern.
  - apply Fecha_of_document.
Qed.

(** The two scenarios of the specification: [2025-03-15] is reformatted,
    [not-a-date] passes through; the sample document, whose issue date is
    [2025-03-15]; a text of the pattern; and a year below 1000, written
    as the sample library writes it, without padding. *)
Lemma issue_date_reformatting_witness :
  issue_date_of Examples.sample_library "2025-03-15" = "15/03/2025"
  /\ issue_date_of Examples.sample_library "not-a-date" = "not-a-date"
  /\ Fecha Examples.sample_invoice = "15/03/2025"
  /\ (issue_date_of Examples.sample_library "2025-02-30" = "30/02/2025"
      \/ issue_date_of Examples.sample_library "2025-02-30" = "2025-02-30")
  /\ issue_date_of Examples.sample_library "0999-03-15"
     = "15/03/" +:+ Examples.unpadded_year 999.
Proof.
  destruct (issue_date_reformatting Examples.sample_library)
    as (Hdate & Hread & Hraw & Hpattern & Hfecha).
  split; [|split; [|split; [|split]]].
  - apply (Hdate 2025 3 15); vm_compute; split; discriminate.
  - apply Hraw. reflexivity.
  - unfold Examples.sample_invoice. rewrite Hfecha.
    apply (Hread "2025-03-15" 2025 3 15); [reflexivity | lia].
  - apply (Hpattern "2025-02-30"); reflexivity.
  - apply (Hread "0999-03-15" 999 3 15). reflexivity.
Defined.

(** The rule as the specification words it fails on the code: [2025-3-5]
    is not of the pattern and yet is reformatted, and [2025-02-30] is of
    the pattern and yet passes through. *)
Lemma issue_date_rule_counterexample :
  ~ Spec.issue_date_rule (issue_date_of Examples.sample_library) "2025-3-5"
  /\ ~ Spec.issue_date_rule (issue_date_of Examples.sample_library)
         "2025-02-30".
Proof.
  split; intros [Hpattern Hother].
  - specialize (Hother eq_refl). vm_compute in Hother. discriminate.
  - specialize (Hpattern eq_refl). vm_compute in Hpattern. discriminate.
Qed.

End IssueDate.

Section InvoiceFields.
Import ET Mapper.

(** Case analysis on membership in a list given by its elements. *)
Ltac each_key H :=
  repeat (apply elem_of_cons in H; destruct H as [-> | H]);
  try (by apply elem_of_nil in H).

Lemma emitter_defined (xml_root : Element) (key : string) :
  key ∈ Spec.emitter_keys -> is_Some (emitter xml_root !! key).
Proof.
  intros H. unfold emitter.
  destruct (find xml_root [Self; Descendant "SellerParty"]);
    each_key H; by eexists.
Qed.

Lemma emitter_absent (xml_root : Element) (key : string) :
  find xml_root [Self; Descendant "SellerParty"] = None ->
  key ∈ Spec.emitter_keys -> emitter xml_root !! key = Some "N/A".
Proof. intros Hnone H. unfold emitter. rewrite Hnone. by each_key H. Qed.

Lemma receptor_defined (xml_root : Element) (key : string) :
  key ∈ Spec.receptor_keys -> is_Some (receptor xml_root !! key).
Proof.
  intros H. unfold receptor.
  destruct (find xml_root [Self; Descendant "BuyerParty"]);
    each_key H; by eexists.
Qed.

Lemma receptor_absent (xml_root : Element) (key : string) :
  find xml_root [Self; Descendant "BuyerParty"] = None ->
  key ∈ Spec.receptor_keys -> receptor xml_root !! key = Some "N/A".
Proof. intros Hnone H. unfold receptor. rewrite Hnone. by each_key H. Qed.

Lemma totals_present (xml_root invoice invoice_totals : Element)
    (key default : string) :
  invoice_element xml_root = Some invoice ->
  find invoice invoice_totals_path = Some invoice_totals ->
  (key, default) ∈ totals_fields ->
  totals xml_root !! key = Some (findtext invoice_totals [Child key] default).
Proof.
  intros Hinv Htot H. unfold totals. rewrite Hinv, Htot.
  repeat (apply elem_of_cons in H; destruct H as [[= -> ->] | H];
          [reflexivity|]).
  by apply elem_of_nil in H.
Qed.

Lemma totals_absent (xml_root : Element) :
  invoice_element xml_root = None
  \/ (exists invoice, invoice_element xml_root = Some invoice /\
                      find invoice invoice_totals_path = None) ->
  totals xml_root = ∅.
Proof.
  intros [H | (invoice & H1 & H2)]; unfold totals.
  - by rewrite H.
  - by rewrite H1, H2.
Qed.

(** The keys of the data model are those the mapper fills. *)
Lemma totals_keys_fields (key : string) :
  key ∈ Spec.totals_keys -> exists default, (key, default) ∈ totals_fields.
Proof.
  intros H. each_key H; eexists; unfold totals_fields;
    repeat first [apply list_elem_of_here | apply list_elem_of_further].
Qed.

Lemma Totales_mapper (L : Library) (now : Datetime.naive)
    (xml_root : Element) :
  Totales (_extract_invoice_data_from_xml L now xml_root) = totals xml_root
  /\ Emisor (_extract_invoice_data_from_xml L now xml_root)
     = emitter xml_root
  /\ Receptor (_extract_invoice_data_from_xml L now xml_root)
     = receptor xml_root.
Proof.
  unfold _extract_invoice_data_from_xml.
  by destruct (header L xml_root) as [[[[? ?] ?] ?] ?].
Qed.

(** C2, as amended. In the invoice model of every document, the six
    fields of the emitter and the six of the receiver are defined, and are
    the sentinel when the party is missing. The eight totals fields are
    defined, each as the text found or its default, when the document has
    an [Invoice] element with an [InvoiceTotals] subtree; when either is
    missing the totals are the empty dict, and no totals field is
    defined. *)
Theorem invoice_fields_defined (L : Library) (now : Datetime.naive)
    (xml_root : Element) :
  let invoice := _extract_invoice_data_from_xml L now xml_root in
  (forall key, key ∈ Spec.emitter_keys -> is_Some (Emisor invoice !! key))
  /\ (find xml_root [Self; Descendant "SellerParty"] = None ->
      forall key, key ∈ Spec.emitter_keys ->
                  Emisor invoice !! key = Some "N/A")
  /\ (forall key, key ∈ Spec.receptor_keys ->
                  is_Some (Receptor invoice !! key))
  /\ (find xml_root [Self; Descendant "BuyerParty"] = None ->
      forall key, key ∈ Spec.receptor_keys ->
                  Receptor invoice !! key = Some "N/A")
  /\ (forall invoice_elem invoice_totals,
      invoice_element xml_root = Some invoice_elem ->
      find invoice_elem invoice_totals_path = Some invoice_totals ->
      (forall key default,
          (key, default) ∈ totals_fields ->
          Totales invoice !! key
          = Some (findtext invoice_totals [Child key] default))
      /\ Spec.totals_defined (Totales invoice))
  /\ (invoice_element xml_root = None
      \/ (exists invoice_elem,
            invoice_element xml_root = Some invoice_elem /\
            find invoice_elem invoice_totals_path = None) ->
      Totales invoice = ∅
      /\ forall key, Totales invoice !! key = None).
Proof.
  cbv zeta. destruct (Totales_mapper L now xml_root) as (-> & -> & ->).
  split; [apply emitter_defined|].
  split; [intros Hnone key; by apply emitter_absent|].
  split; [apply receptor_defined|].
  split; [intros Hnone key; by apply receptor_absent|].
  split.
  - intros invoice_elem invoice_totals Hinv Htot. split.
    + intros key default. apply (totals_present _ _ _ _ _ Hinv Htot).
    + intros key H. destruct (totals_keys_fields key H) as [default Hd].
      eexists. apply (totals_present _ _ _ _ _ Hinv Htot Hd).
  - intros H. rewrite (totals_absent _ H). split; [done|].
    intros key. apply lookup_empty.
Qed.

(** On the sample document the totals are those of its [InvoiceTotals];
    on the empty document the parties are the sentinel and the totals
    empty. *)
Lemma invoice_fields_defined_witness :
  Totales (_extract_invoice_data_from_xml Examples.sample_library
             Examples.sample_now Examples.sample_root) !! "InvoiceTotal"
  = Some "6.00"
  /\ Emisor (_extract_invoice_data_from_xml Examples.sample_library
               Examples.sample_now Examples.empty_root) !! "NIF"
     = Some "N/A"
  /\ Receptor (_extract_invoice_data_from_xml Examples.sample_library
                 Examples.sample_now Examples.empty_root) !! "OfiCont"
     = Some "N/A"
  /\ Totales (_extract_invoice_data_from_xml Examples.sample_library
                Examples.sample_now Examples.empty_root) = ∅.
Proof.
  pose proof (invoice_fields_defined Examples.sample_library
                Examples.sample_now Examples.sample_root) as Hs.
  pose proof (invoice_fields_defined Examples.sample_library
                Examples.sample_now Examples.empty_root) as He.
  cbv zeta in Hs, He.
  destruct Hs as (_ & _ & _ & _ & Htotals & _).
  destruct He as (_ & Hemitter & _ & Hreceptor & _ & Hempty).
  split; [|split; [|split]].
  - edestruct Htotals as [H _]; [reflexivity | reflexivity |].
    apply (H "InvoiceTotal" "N/A"). unfold totals_fields.
    repeat first [apply list_elem_of_here | apply list_elem_of_further].
  - apply Hemitter; [reflexivity|]. unfold Spec.emitter_keys.
    repeat first [apply list_elem_of_here | apply list_elem_of_further].
  - apply Hreceptor; [reflexivity|]. unfold Spec.receptor_keys.
    repeat first [apply list_elem_of_here | apply list_elem_of_further].
  - apply Hempty. left. reflexivity.
Defined.

(** The claim as the specification words it fails on the document with
    nothing under its root: no totals field of its invoice model is
    defined. *)
Lemma totals_defined_counterexample :
  ~ Spec.totals_defined
      (Totales (_extract_invoice_data_from_xml Examples.sample_library
                  Examples.sample_now Examples.empty_root)).
Proof.
  intros H. destruct (H "InvoiceTotal") as [v Hv].
  - unfold Spec.totals_keys.
    repeat first [apply list_elem_of_here | apply list_elem_of_further].
  - vm_compute in Hv. discriminate.
Qed.

End InvoiceFields.

(** ** Document renderer *)

Section RendererFacts.
Import Reportlab Mapper Renderer.

Lemma totals_block_empty (invoice : Invoice) :
  Totales invoice = ∅ -> totals_block invoice = [].
Proof. intros H. unfold totals_block. rewrite H. by rewrite bool_decide_true. Qed.

Lemma totals_block_table (invoice : Invoice) :
  Totales invoice <> ∅ ->
  exists table,
    totals_block invoice = [table; Spacer 1 12]
    /\ paragraphs table = Spec.totals_paragraphs (Totales invoice).
Proof.
  intros H. unfold totals_block. rewrite bool_decide_false by done.
  eexists. split; reflexivity.
Qed.

(** C1, as amended. The totals block is the fourth section of the story.
    It is there exactly when the totals of the model are not the empty
    dict, and is then one table of six rows in a fixed order (gross
    amount, general discounts, taxable base, tax output, withholdings,
    invoice total), each a label and, right-aligned, the value of the
    field or the sentinel when the field is absent. *)
Theorem totals_block_rendering (L : Library) (invoice : Invoice)
    (parametros : Parametros) :
  let totals := Totales invoice in
  elements (story L invoice parametros)
  = header_band invoice parametros ++ parties_block invoice
    ++ items_block L invoice ++ totals_block invoice
    ++ info_block invoice ++ legal_block invoice ++ firma_block invoice
  /\ (totals = ∅ -> totals_block invoice = [])
  /\ (totals <> ∅ ->
      (exists table,
          totals_block invoice = [table; Spacer 1 12]
          /\ paragraphs table = Spec.totals_paragraphs totals)
      /\ right_aligned_texts (totals_block invoice)
         = map (fun '(_, key) => dict_get totals key "N/A") Spec.totals_rows).
Proof.
  cbv zeta. split; [done|]. split; [apply totals_block_empty|].
  intros H. split; [by apply totals_block_table|].
  unfold totals_block. rewrite bool_decide_false by done. reflexivity.
Qed.

(** The totals block of the two sample invoices: six rows for the sample
    document, nothing for the empty one. *)
Lemma totals_block_rendering_witness :
  right_aligned_texts (totals_block Examples.sample_invoice)
  = ["1.00"; "2.00"; "3.00"; "4.00"; "5.00"; "6.00"]
  /\ totals_block Examples.empty_invoice = [].
Proof.
  pose proof (totals_block_rendering Examples.sample_library
                Examples.sample_invoice Examples.sample_parametros) as Hs.
  pose proof (totals_block_rendering Examples.sample_library
                Examples.empty_invoice Examples.sample_parametros) as He.
  cbv zeta in Hs, He.
  destruct Hs as (_ & _ & Hs). destruct He as (_ & He & _). split.
  - destruct Hs as [_ Hs]; [|exact Hs].
    intros H. apply (f_equal (fun m => m !! "InvoiceTotal")) in H.
    vm_compute in H. discriminate.
  - apply He. reflexivity.
Defined.

(** The claim as the specification words it fails on both sample
    invoices: the empty one, whose story has no totals at all, and the
    sample one, whose story shows six of its eight totals. *)
Lemma renders_eight_totals_counterexample :
  ~ Spec.renders_eight_totals
      (story Examples.sample_library Examples.empty_invoice
             Examples.sample_parametros)
      (Totales Examples.empty_invoice)
  /\ ~ Spec.renders_eight_totals
         (story Examples.sample_library Examples.sample_invoice
                Examples.sample_parametros)
         (Totales Examples.sample_invoice).
Proof.
  split; intros (before & after & H).
  - assert (right_aligned_texts
              (elements (story Examples.sample_library Examples.empty_invoice
                               Examples.sample_parametros)) = []) as E
      by (by vm_compute).
    rewrite E in H. apply (f_equal (@length string)) in H.
    rewrite !length_app, length_map in H. simpl in H. lia.
  - assert (right_aligned_texts
              (elements (story Examples.sample_library Examples.sample_invoice
                               Examples.sample_parametros))
            = ["1.00"; "2.00"; "3.00"; "4.00"; "5.00"; "6.00"]) as E
      by (by vm_compute).
    rewrite E in H. apply (f_equal (@length string)) in H.
    rewrite !length_app, length_map in H. simpl in H. lia.
Qed.

End RendererFacts.

(** ** Pipeline entry point *)

Section PipelineFacts.
Import Reportlab Mapper Renderer Pipeline.

Lemma append_assoc (s t u : string) : (s +:+ t) +:+ u = s +:+ (t +:+ u).
Proof.
  induction s as [|c s IH]; [done|]. by rewrite !append_cons, IH.
Qed.

Lemma header_band_paragraphs (invoice : Invoice) (parametros : Parametros) :
  flat_map paragraphs (header_band invoice parametros)
  = Document.header_paragraphs invoice parametros.
Proof.
  unfold header_band, Document.header_paragraphs, Document.lines,
    Document.joined, Document.labelled.
  cbn [flat_map paragraphs app cell]. rewrite !append_assoc. reflexivity.
Qed.

Lemma parties_block_paragraphs (invoice : Invoice) :
  flat_map paragraphs (parties_block invoice)
  = Document.parties_paragraphs invoice.
Proof.
  unfold parties_block, Document.parties_paragraphs, Document.party_lines,
    Document.emitter_fields, Document.receptor_fields, Document.lines,
    Document.labelled.
  cbn [flat_map paragraphs app cell map Document.joined].
  rewrite !append_assoc. reflexivity.
Qed.

Lemma items_block_paragraphs (L : Library) (invoice : Invoice) :
  flat_map paragraphs (items_block L invoice)
  = Document.items_paragraphs L invoice.
Proof.
  unfold items_block, Document.items_paragraphs.
  destruct (Conceptos invoice) as [|item items]; [done|].
  generalize (item :: items). intros l.
  cbn [flat_map paragraphs app cell]. rewrite app_nil_r. do 4 f_equal.
  induction l as [|i l IH]; [done|].
  cbn [map flat_map paragraphs app cell Shape.item_numbers]. by rewrite IH.
Qed.

Lemma totals_block_paragraphs (invoice : Invoice) :
  flat_map paragraphs (totals_block invoice)
  = Document.totals_paragraphs invoice.
Proof.
  unfold totals_block, Document.totals_paragraphs.
  by destruct (bool_decide (Totales invoice = ∅)).
Qed.

Lemma info_block_paragraphs (invoice : Invoice) :
  flat_map paragraphs (info_block invoice) = Document.info_paragraphs invoice.
Proof.
  unfold info_block, Document.info_paragraphs.
  by destruct (InfoAdicional invoice).
Qed.

Lemma legal_block_paragraphs (invoice : Invoice) :
  flat_map paragraphs (legal_block invoice)
  = Document.legal_paragraphs invoice.
Proof.
  unfold legal_block, Document.legal_paragraphs.
  destruct (ReferenciasLegales invoice) as [|ref refs]; [done|].
  generalize (ref :: refs). intros l.
  cbn [flat_map paragraphs app]. f_equal.
  induction l as [|r l IH]; [done|].
  cbn [map flat_map paragraphs app]. by rewrite IH.
Qed.

Lemma firma_block_paragraphs (invoice : Invoice) :
  flat_map paragraphs (firma_block invoice)
  = Document.signature_paragraphs invoice.
Proof.
  unfold firma_block, Document.signature_paragraphs.
  by destruct (negb (bool_decide (Firma invoice = ∅))
               && Interpreter.found (Firma invoice)).
Qed.

(** The story holds every section of the document, in order. *)
Lemma story_paragraphs (L : Library) (invoice : Invoice)
    (parametros : Parametros) :
  flat_map paragraphs (elements (story L invoice parametros))
  = Document.paragraphs_of L invoice parametros.
Proof.
  unfold story, Document.paragraphs_of. cbn [elements].
  rewrite !flat_map_app.
  by rewrite header_band_paragraphs, parties_block_paragraphs,
    items_block_paragraphs, totals_block_paragraphs, info_block_paragraphs,
    legal_block_paragraphs, firma_block_paragraphs.
Qed.

Lemma footer_text (L : Library) (now : Datetime.naive) :
  _add_footer L now = Document.footer L now.
Proof. reflexivity. Qed.

(** The first paragraph refused, and none refused. *)
Lemma first_refused_some (L : Library) (st : Story) (e : string) :
  first_refused L st = Some e
  <-> exists before p after,
        flat_map paragraphs (elements st) = before ++ p :: after
        /\ Forall (fun q => refused L q = None) before
        /\ refused L p = Some e.
Proof.
  unfold first_refused. generalize (flat_map paragraphs (elements st)).
  intros l. induction l as [|q l IH].
  - split; [done|]. intros (before & p & after & H & _). by destruct before.
  - cbn [omap list_omap]. destruct (refused L q) as [e'|] eqn:E.
    + cbn [head]. split.
      * intros [= ->]. exists [], q, l. by repeat split.
      * intros (before & p & after & H & Hbefore & Hp).
        destruct before as [|q' before].
        -- injection H as -> ->. congruence.
        -- injection H as -> ->. apply Forall_cons in Hbefore as [Hq _].
           congruence.
    + rewrite IH. split.
      * intros (before & p & after & -> & Hbefore & Hp).
        exists (q :: before), p, after. repeat split; [|done].
        by constructor.
      * intros (before & p & after & H & Hbefore & Hp).
        destruct before as [|q' before].
        -- injection H as -> ->. congruence.
        -- injection H as -> ->. apply Forall_cons in Hbefore as [_ Hb].
           by exists before, p, after.
Qed.

Lemma first_refused_none (L : Library) (st : Story) :
  first_refused L st = None
  <-> Forall (fun q => refused L q = None)
             (flat_map paragraphs (elements st)).
Proof.
  unfold first_refused. generalize (flat_map paragraphs (elements st)).
  intros l. induction l as [|q l IH].
  - split; [by constructor | done].
  - cbn [omap list_omap]. destruct (refused L q) as [e|] eqn:E.
    + split; [done|]. intros H. apply Forall_cons in H as [H _].
      congruence.
    + rewrite IH. split; [by constructor|].
      intros H. by apply Forall_cons in H as [_ H].
Qed.

(** C6, as amended. The entry point raises its own error, with the cause
    in words, when the input is empty and when the extracted markup does
    not parse. In every other case it maps the document, constructs the
    paragraphs of the complete document (header band, parties, line items,
    totals, additional information, legal references, signature, in this
    order) and hands story and footer to reportlab: the result is the
    exception of the first paragraph reportlab refuses, if there is one,
    and otherwise what [build] gives, the finished document or the
    exception of the layout. Bytes are returned only for non-empty input
    that parses, and are then the document [build] made of the complete
    story: there is no partial output. *)
Theorem render_pdf_outcome (L : Library) (utcnow now : Datetime.naive)
    (xsig_bytes : bytes) (num_registro tipo_registro num_rcf : string)
    (fecha_hora_registro : Datetime.datetime) :
  let result :=
    render_pdf_from_xsig L utcnow now xsig_bytes num_registro tipo_registro
                         num_rcf fecha_hora_registro in
  let xml_bytes := Extractor._extract_xml_from_xsig_bytes xsig_bytes in
  (xsig_bytes = [] -> result = Raise "Archivo vacío o no legible.")
  /\ (forall e,
      xsig_bytes <> [] -> fromstring L xml_bytes = Raise e ->
      result = Raise ("El archivo no parece un XSIG/XML válido: " +:+ e))
  /\ (forall root,
      xsig_bytes <> [] -> fromstring L xml_bytes = Return root ->
      let invoice := _extract_invoice_data_from_xml L utcnow root in
      let parametros :=
        {| Renderer.num_registro := num_registro;
           Renderer.tipo_registro := tipo_registro;
           Renderer.num_rcf := num_rcf;
           Renderer.fecha_hora_registro :=
             strftime_dmY_HM L fecha_hora_registro |} in
      let st := story L invoice parametros in
      let document := Document.paragraphs_of L invoice parametros in
      flat_map paragraphs (elements st) = document
      /\ (forall before p after e,
          document = before ++ p :: after ->
          Forall (fun q => refused L q = None) before ->
          refused L p = Some e ->
          result = Raise e)
      /\ (Forall (fun q => refused L q = None) document ->
          result = build L st (Document.footer L now))
      /\ (forall pdf,
          result = Return pdf ->
          Forall (fun q => refused L q = None) document
          /\ build L st (Document.footer L now) = Return pdf))
  /\ (forall pdf,
      result = Return pdf ->
      xsig_bytes <> [] /\ exists root, fromstring L xml_bytes = Return root).
Proof.
  cbv zeta. unfold render_pdf_from_xsig.
  destruct xsig_bytes as [|b rest].
  - split; [done|]. split; [by intros ? Hne|]. split; [by intros ? Hne|].
    by intros pdf [=].
  - destruct (fromstring L
                (Extractor._extract_xml_from_xsig_bytes (b :: rest)))
      as [e0|root0] eqn:Hparse.
    + split; [done|]. split; [by intros e _ [= <-]|].
      split; [by intros root _ [=]|]. by intros pdf [=].
    + split; [done|]. split; [by intros e _ [=]|]. split.
      * intros root _ [= <-]. split; [apply story_paragraphs|].
        unfold _generate_pdf_from_invoice. cbv zeta.
        rewrite footer_text, <- story_paragraphs. split; [|split].
        -- intros before p after e Hsplit Hbefore Hp.
           match goal with
           | |- context [first_refused L ?st] =>
               assert (first_refused L st = Some e) as Hfirst
           end.
           { apply first_refused_some. by exists before, p, after. }
           by rewrite Hfirst.
        -- intros H. apply first_refused_none in H. by rewrite H.
        -- intros pdf.
           destruct (first_refused L _) as [e|] eqn:E; [done|].
           intros H. split; [by apply first_refused_none | done].
      * intros pdf _. split; [done | by exists root0].
Qed.

(** The outcomes on sample inputs: no bytes, bytes that do not parse, a
    container around the sample document, and a document with a line item
    reportlab refuses, the twelfth paragraph of the document. *)
Lemma render_pdf_outcome_witness :
  render_pdf_from_xsig Examples.sample_library Examples.sample_now
    Examples.sample_now [] "2025/000123" "FACe" "RCF-2025-000987"
    (Datetime.Datetime Examples.sample_now None)
  = Raise "Archivo vacío o no legible."
  /\ render_pdf_from_xsig Examples.sample_library Examples.sample_now
       Examples.sample_now [x61] "2025/000123" "FACe" "RCF-2025-000987"
       (Datetime.Datetime Examples.sample_now None)
     = Raise ("El archivo no parece un XSIG/XML válido: "
              +:+ "syntax error: line 1, column 0")
  /\ render_pdf_from_xsig Examples.sample_library Examples.sample_now
       Examples.sample_now Examples.sample_bytes "2025/000123" "FACe"
       "RCF-2025-000987" (Datetime.Datetime Examples.sample_now None)
     = Return [x25; x50; x44; x46]
  /\ render_pdf_from_xsig Examples.sample_library Examples.sample_now
       Examples.sample_now Examples.markup_bytes "2025/000123" "FACe"
       "RCF-2025-000987" (Datetime.Datetime Examples.sample_now None)
     = Raise "xml parser error (Parse error: saw </para> instead of expected </b>) in paragraph beginning '<b>sin cerrar'".
Proof.
  split; [|split; [|split]].
  - apply (render_pdf_outcome Examples.sample_library). reflexivity.
  - apply (render_pdf_outcome Examples.sample_library);
      [discriminate | reflexivity].
  - pose proof (render_pdf_outcome Examples.sample_library
                  Examples.sample_now Examples.sample_now
                  Examples.sample_bytes "2025/000123" "FACe"
                  "RCF-2025-000987"
                  (Datetime.Datetime Examples.sample_now None)) as H.
    cbv zeta in H. destruct H as (_ & _ & H & _).
    destruct (H Examples.sample_root) as (_ & _ & Hbuild & _);
      [discriminate | reflexivity |].
    rewrite Hbuild; [reflexivity|].
    vm_compute. repeat constructor.
  - pose proof (render_pdf_outcome Examples.sample_library
                  Examples.sample_now Examples.sample_now
                  Examples.markup_bytes "2025/000123" "FACe"
                  "RCF-2025-000987"
                  (Datetime.Datetime Examples.sample_now None)) as H.
    cbv zeta in H. destruct H as (_ & _ & H & _).
    destruct (H Examples.markup_root) as (_ & Hrefused & _);
      [discriminate | reflexivity |].
    set (document := Document.paragraphs_of _ _ _) in Hrefused.
    apply (Hrefused (take 11 document) ("<b>sin cerrar", table_cell_style)
             (drop 12 document)); [reflexivity | | reflexivity].
    vm_compute. repeat constructor.
Defined.

(** The rule as the specification words it fails on the code: the bytes of
    a document whose one line item reads [<b>sin cerrar] are not empty and
    parse, and the entry point raises what [Paragraph] raises on that
    text. *)
Lemma outcome_rule_counterexample :
  ~ Document.outcome_rule Examples.sample_library Examples.markup_bytes
      (render_pdf_from_xsig Examples.sample_library Examples.sample_now
         Examples.sample_now Examples.markup_bytes "2025/000123" "FACe"
         "RCF-2025-000987" (Datetime.Datetime Examples.sample_now None)).
Proof.
  intros [[Hraise _] _].
  destruct Hraise as [Hempty | [e He]].
  - eexists. reflexivity.
  - discriminate Hempty.
  - vm_compute in He. discriminate He.
Qed.

End PipelineFacts.

(** * Further properties of the code *)

(** ** Container extractor: what comes out of it *)

Section ExtractorOutput.
Import Extractor.

(** The slice branch, said of given offsets. *)
Lemma extract_between (s : bytes) (i j : nat) :
  first_occurrence xml_marker s i ->
  last_byte_occurrence gt_byte s j ->
  (i < j)%nat ->
  _extract_xml_from_xsig_bytes s = inclusive_slice s i j.
Proof.
  intros Hi Hj Hlt.
  destruct (extract_cases s)
    as [[Hno _] | [(i0 & Hi0 & Hafter & _) | (i0 & j0 & Hi0 & Hj0 & _ & H)]].
  - destruct (Hno i). apply Hi.
  - rewrite (first_occurrence_unique _ _ _ _ Hi Hi0) in Hlt.
    destruct (Hafter j Hlt). apply Hj.
  - by rewrite (first_occurrence_unique _ _ _ _ Hi Hi0),
               (last_byte_occurrence_unique _ _ _ _ Hj Hj0).
Qed.

(** The extractor returns a contiguous part of its input: bytes may be
    dropped before and after, none is added or changed. *)
Theorem extract_is_infix (s : bytes) :
  exists before after,
    s = before ++ _extract_xml_from_xsig_bytes s ++ after.
Proof.
  destruct (extract_cases s)
    as [[_ H] | [(i & _ & _ & H) | (i & j & _ & _ & _ & H)]].
  - exists [], []. rewrite H. by rewrite app_nil_r.
  - exists [], []. rewrite H. by rewrite app_nil_r.
  - exists (take i s), (drop (j - i + 1) (drop i s)).
    rewrite H. unfold inclusive_slice. by rewrite !take_drop.
Qed.

(** Bytes that are not empty never come out empty, so the markup handed to
    the parser after the emptiness test of the entry point is not empty
    either. *)
Theorem extract_nonempty (s : bytes) :
  s <> [] -> _extract_xml_from_xsig_bytes s <> [].
Proof.
  intros Hs.
  destruct (extract_cases s)
    as [[_ H] | [(i & _ & _ & H) | (i & j & Hi & Hj & Hij & H)]].
  - by rewrite H.
  - by rewrite H.
  - destruct (inclusive_slice_shape s i j) as [body Hbody];
      [apply Hi | apply Hj | done |].
    rewrite H, Hbody. discriminate.
Qed.

Lemma extract_nonempty_witness :
  _extract_xml_from_xsig_bytes [x61] <> [].
Proof. apply extract_nonempty. discriminate. Defined.

(** Markup that already starts with the prolog marker and ends with ['>']
    comes back as it is. *)
Theorem extract_keeps_pure_markup (s : bytes) :
  startswith xml_marker s = true ->
  last s = Some gt_byte ->
  _extract_xml_from_xsig_bytes s = s.
Proof.
  intros Hstart Hlast.
  apply startswith_occurs in Hstart as [rest ->].
  destruct (decide (rest = [])) as [-> | Hrest].
  { discriminate Hlast. }
  destruct (exists_last Hrest) as (body & b & ->).
  rewrite app_assoc, last_snoc in Hlast. injection Hlast as ->.
  apply extract_wrapped.
Qed.

Lemma extract_keeps_pure_markup_witness :
  _extract_xml_from_xsig_bytes [x3c; x3f; x78; x6d; x6c; x3f; x3e]
  = [x3c; x3f; x78; x6d; x6c; x3f; x3e].
Proof. apply extract_keeps_pure_markup; reflexivity. Defined.

(** Unwrapping a container: around a document that starts with the marker
    and ends with ['>'], leading bytes without ['<'] and trailing bytes
    without ['>'] are removed, and the document comes out exactly. *)
Theorem extract_recovers_document (before body after : bytes) :
  x3c ∉ before ->
  gt_byte ∉ after ->
  _extract_xml_from_xsig_bytes
    (before ++ (xml_marker ++ body ++ [gt_byte]) ++ after)
  = xml_marker ++ body ++ [gt_byte].
Proof.
  intros Hbefore Hafter.
  set (doc := xml_marker ++ body ++ [gt_byte]).
  set (s := before ++ doc ++ after).
  assert (first_occurrence xml_marker s (length before)) as Hi.
  { split.
    - split; [unfold s; rewrite length_app; lia|].
      exists (body ++ [gt_byte] ++ after).
      unfold s, doc. rewrite drop_app_length. by rewrite <- !app_assoc.
    - intros j Hj [_ [rest Hrest]].
      apply Hbefore. apply list_elem_of_lookup. exists j.
      rewrite <- (lookup_app_l before (doc ++ after)) by done.
      fold s. rewrite <- (Nat.add_0_r j), <- lookup_drop, Hrest. done. }
  assert (length doc = length body + 6)%nat as Hlen
    by (unfold doc; rewrite !length_app; simpl; lia).
  assert (last_byte_occurrence gt_byte s (length before + length body + 5))
    as Hj.
  { split.
    - unfold s. rewrite lookup_app_r by lia.
      rewrite lookup_app_l by lia. unfold doc.
      rewrite lookup_app_r by (simpl; lia).
      rewrite lookup_app_r by (simpl; lia).
      replace (length before + length body + 5 - length before
               - length xml_marker - length body)%nat with 0%nat
        by (simpl; lia).
      done.
    - intros k Hk Hgt. apply Hafter. apply list_elem_of_lookup.
      exists (k - length before - length doc)%nat.
      unfold s in Hgt. rewrite lookup_app_r in Hgt by lia.
      by rewrite lookup_app_r in Hgt by lia. }
  rewrite (extract_between s _ _ Hi Hj) by lia.
  unfold inclusive_slice, s. rewrite drop_app_length.
  replace (length before + length body + 5 - length before + 1)%nat
    with (length doc) by lia.
  by rewrite take_app_length.
Qed.

(** The container [ab<?xml?>z]. *)
Lemma extract_recovers_document_witness :
  _extract_xml_from_xsig_bytes
    [x61; x62; x3c; x3f; x78; x6d; x6c; x3f; x3e; x7a]
  = [x3c; x3f; x78; x6d; x6c; x3f; x3e].
Proof.
  apply (extract_recovers_document [x61; x62] [x3f] [x7a]).
  - intros H. repeat (apply elem_of_cons in H; destruct H as [H | H];
                      [discriminate H|]).
    by apply elem_of_nil in H.
  - intros H. repeat (apply elem_of_cons in H; destruct H as [H | H];
                      [discriminate H|]).
    by apply elem_of_nil in H.
Defined.

End ExtractorOutput.

(** ** Certificate interpreter: the states over time and the dict *)

Section InterpreterMore.
Import Datetime Interpreter.

(** [a <= b < c] gives [a < c]. *)
Lemma le_lt_trans (a b c : naive) :
  le a b = true -> lt b c = true -> lt a c = true.
Proof.
  rewrite le_not_lt, negb_true_iff. intros Hba Hbc.
  destruct (lt a c) eqn:Hac; [done|]. exfalso.
  unfold lt in Hac. destruct (compare a c) eqn:E; [|done|].
  - apply lex_compare_eq in E.
    unfold lt, compare in Hba, Hbc. rewrite E in Hba.
    destruct (lex_compare (fields b) (fields c)); done.
  - assert (lt c a = true) as Hca
      by (unfold lt; rewrite (compare_antisym a c), E; done).
    by rewrite (lt_trans b c a Hbc Hca) in Hba.
Qed.

(** As the clock advances the state of a certificate only moves forward:
    once expired it stays expired, and a certificate that is not yet valid
    at the later instant was not yet valid at the earlier one. *)
Theorem validity_state_moves_forward
    (earlier later valido_desde valido_hasta : naive) :
  le earlier later = true ->
  (estado_actual earlier valido_desde valido_hasta = Expired ->
   estado_actual later valido_desde valido_hasta = Expired)
  /\ (estado_actual later valido_desde valido_hasta = NotYetValid ->
      estado_actual earlier valido_desde valido_hasta = NotYetValid).
Proof.
  intros Hle. destruct states_distinct as (D1 & D2 & D3).
  unfold estado_actual. rewrite !gt_lt. split.
  - destruct (lt earlier valido_desde) eqn:E1; [congruence|].
    destruct (lt valido_hasta earlier) eqn:E2; [intros _ | congruence].
    rewrite (lt_le_trans _ _ _ E2 Hle).
    destruct (lt later valido_desde) eqn:E3; [|done].
    by rewrite (le_lt_trans _ _ _ Hle E3) in E1.
  - destruct (lt later valido_desde) eqn:E3.
    + intros _. by rewrite (le_lt_trans _ _ _ Hle E3).
    + destruct (lt valido_hasta later); congruence.
Qed.

(** A certificate expired on 2026-06-01 is still expired a year later. *)
Lemma validity_state_moves_forward_witness :
  estado_actual (Naive 2027 6 1 0 0 0 0) (Naive 2024 1 1 0 0 0 0)
                (Naive 2026 1 1 0 0 0 0) = Expired.
Proof.
  apply (validity_state_moves_forward (Naive 2026 6 1 0 0 0 0));
    reflexivity.
Defined.

(** The two classifications agree on one instant: a signing time read as
    the instant of evaluation is valid at signing exactly when the
    certificate is currently valid. *)
Theorem signing_state_agrees_with_current (L : Library)
    (signing_time_str : string) (now valido_desde valido_hasta : naive)
    (offset : option Z) :
  date_parser_parse L signing_time_str = Return (Datetime now offset) ->
  validez_en_firma L signing_time_str valido_desde valido_hasta
    = ValidAtSigning
  <-> estado_actual now valido_desde valido_hasta = Valid.
Proof.
  intros Hparse. destruct states_distinct as (D1 & D2 & D3).
  unfold validez_en_firma, estado_actual. rewrite Hparse.
  cbn [replace_tzinfo_None wall]. rewrite !le_not_lt, gt_lt.
  destruct (lt now valido_desde); destruct (lt valido_hasta now);
    cbn [negb andb]; split; intros H; try done; try congruence;
    discriminate H.
Qed.

Lemma signing_state_agrees_with_current_witness :
  estado_actual (Naive 2025 3 1 10 0 0 0) (Naive 2024 1 1 0 0 0 0)
                (Naive 2026 1 1 0 0 0 0) = Valid.
Proof.
  apply (signing_state_agrees_with_current Examples.sample_library
           "2025-03-01T10:00:00+01:00" _ _ _ (Some 3600%Z));
    reflexivity.
Defined.

End InterpreterMore.

Section SignatureDict.
Import Datetime Interpreter.

(** The keys of a dict built from a list of pairs are the first
    components. *)
Lemma list_to_map_is_Some (l : list (string * string)) (key : string) :
  is_Some ((list_to_map l : gmap string string) !! key) <-> key ∈ l.*1.
Proof.
  rewrite <- elem_of_dom, dom_list_to_map_L. apply elem_of_list_to_set.
Qed.

(** The dict of a found signature, entry by entry. *)
Lemma signature_info_found_dict (L : Library) (now : naive)
    (xml_root : ET.Element) (cert_der : bytes) (cert : X509.Certificate) :
  ET.findtext xml_root certificate_path "" <> "" ->
  b64decode L (ET.findtext xml_root certificate_path "") = Return cert_der ->
  load_der_x509_certificate L cert_der = Return cert ->
  exists firmante nif algoritmo fecha desde hasta estado validez autoridad,
    _extract_signature_info_from_xml L now xml_root
    = list_to_map
        [ ("estado", "Firma encontrada"); ("firmante", firmante);
          ("nif", nif); ("algoritmo", algoritmo); ("fecha_firma", fecha);
          ("valido_desde", desde); ("valido_hasta", hasta);
          ("estado_certificado", estado); ("validez_en_firma", validez);
          ("autoridad_certificadora", autoridad) ].
Proof.
  intros Hne Hdec Hload.
  unfold _extract_signature_info_from_xml, signature_info_body.
  apply truthy_nonempty in Hne. rewrite Hne. cbn [negb].
  rewrite Hdec. cbn [mbind Exc_bind]. rewrite Hload. cbn [mbind Exc_bind].
  by do 9 eexists.
Qed.

(** The dict the interpreter returns has one of two shapes: for a
    signature taken as found, exactly the ten keys the signature grid
    reads; otherwise the key [estado] alone. *)
Theorem signature_info_keys (L : Library) (now : naive)
    (xml_root : ET.Element) :
  let info := _extract_signature_info_from_xml L now xml_root in
  (found info = true ->
   forall key, is_Some (info !! key) <-> key ∈ Shape.signature_keys)
  /\ (found info = false ->
      forall key, is_Some (info !! key) <-> key = "estado").
Proof.
  cbv zeta.
  assert (forall v key,
    is_Some (({[ "estado" := v ]} : gmap string string) !! key)
    <-> key = "estado") as Hsingle.
  { intros v key. unfold is_Some. split.
    - intros [x Hx]. apply lookup_singleton_Some in Hx as [-> _]. done.
    - intros ->. exists v. apply lookup_singleton_eq. }
  destruct (signature_info_cases L now xml_root)
    as [[Hcert Hinfo] | [(Hne & e0 & Hbody & _)
                        | (Hne & der & cert & Hdec & Hload & Hestado)]].
  - rewrite Hinfo. split; [|intros _; apply Hsingle].
    by rewrite not_found_singleton.
  - destruct (signature_info_raise L now xml_root e0 Hbody) as [Hinfo Hnot].
    rewrite Hnot, Hinfo. split; [done|]. intros _. apply Hsingle.
  - destruct (signature_info_found_dict L now xml_root der cert Hne Hdec Hload)
      as (v2 & v3 & v4 & v5 & v6 & v7 & v8 & v9 & v10 & Hinfo).
    assert (found (_extract_signature_info_from_xml L now xml_root) = true)
      as Hfound by (unfold found, dict_get; by rewrite Hestado).
    rewrite Hfound. split; [|done].
    intros _ key. rewrite Hinfo. apply list_to_map_is_Some.
Qed.

(** On the sample document the ten keys are there; on the empty one the
    dict has no [firmante]. *)
Lemma signature_info_keys_witness :
  is_Some (_extract_signature_info_from_xml Examples.sample_library
             Examples.sample_now Examples.sample_root !! "firmante")
  /\ ~ is_Some (_extract_signature_info_from_xml Examples.sample_library
                  Examples.sample_now Examples.empty_root !! "firmante").
Proof.
  pose proof (signature_info_keys Examples.sample_library
                Examples.sample_now Examples.sample_root) as Hs.
  pose proof (signature_info_keys Examples.sample_library
                Examples.sample_now Examples.empty_root) as He.
  cbv zeta in Hs, He. destruct Hs as [Hs _]. destruct He as [_ He]. split.
  - apply Hs; [reflexivity|]. unfold Shape.signature_keys.
    repeat first [apply list_elem_of_here | apply list_elem_of_further].
  - intros H. apply He in H; [discriminate H | reflexivity].
Defined.

End SignatureDict.

(** ** Invoice mapper: header, routing codes and line items *)

Section MapperMore.
Import ET Mapper.

Lemma header_fields (L : Library) (now : Datetime.naive)
    (xml_root : Element) :
  let invoice := _extract_invoice_data_from_xml L now xml_root in
  header L xml_root
  = (Numero_de_Factura invoice, Fecha invoice, Tipo_Dcomento invoice,
     Moneda invoice, Clase_Factura invoice)
  /\ Conceptos invoice = items xml_root
  /\ Total_Factura invoice = dict_get (totals xml_root) "InvoiceTotal" "N/A".
Proof.
  cbv zeta. unfold _extract_invoice_data_from_xml.
  by destruct (header L xml_root) as [[[[? ?] ?] ?] ?].
Qed.

(** The description of the invoice class is one of the six of the table
    when the class code of the document is one of the six codes, and the
    sentinel for any other code, as it is without an [Invoice] element. *)
Theorem invoice_class_description (L : Library) (now : Datetime.naive)
    (xml_root : Element) :
  let description :=
    Clase_Factura (_extract_invoice_data_from_xml L now xml_root) in
  (invoice_element xml_root = None -> description = "N/A")
  /\ (forall invoice,
      invoice_element xml_root = Some invoice ->
      let code := findtext invoice (header_path "InvoiceClass") "N/A" in
      (code ∈ Shape.class_codes -> description ∈ Shape.class_descriptions)
      /\ (code ∉ Shape.class_codes -> description = "N/A")).
Proof.
  cbv zeta. destruct (header_fields L now xml_root) as (Hheader & _).
  unfold header in Hheader. split.
  - intros Hnone. rewrite Hnone in Hheader. by injection Hheader.
  - intros invoice Hinv. rewrite Hinv in Hheader.
    injection Hheader as _ _ _ _ <-. split.
    + intros H. unfold Shape.class_codes in H.
      repeat (apply elem_of_cons in H; destruct H as [-> | H];
              [unfold Shape.class_descriptions;
               repeat first [apply list_elem_of_here
                            | apply list_elem_of_further]|]).
      by apply elem_of_nil in H.
    + intros H. unfold dict_get, invoice_class_map.
      by rewrite (not_elem_of_list_to_map_1 (M := gmap string)).
Qed.

(** The sample document has class [OR]. *)
Lemma invoice_class_description_witness :
  Clase_Factura Examples.sample_invoice ∈ Shape.class_descriptions
  /\ Clase_Factura Examples.empty_invoice = "N/A".
Proof.
  pose proof (invoice_class_description Examples.sample_library
                Examples.sample_now Examples.sample_root) as Hs.
  pose proof (invoice_class_description Examples.sample_library
                Examples.sample_now Examples.empty_root) as He.
  cbv zeta in Hs, He. destruct Hs as [_ Hs]. destruct He as [He _]. split.
  - edestruct Hs as [H _]; [reflexivity|]. apply H.
    unfold Shape.class_codes.
    repeat first [apply list_elem_of_here | apply list_elem_of_further].
  - apply He. reflexivity.
Defined.

(** Without an [Invoice] element the header fields are all the sentinel,
    there are no line items and no totals, and the invoice total is the
    sentinel. *)
Theorem no_invoice_defaults (L : Library) (now : Datetime.naive)
    (xml_root : Element) :
  invoice_element xml_root = None ->
  let invoice := _extract_invoice_data_from_xml L now xml_root in
  Numero_de_Factura invoice = "N/A" /\ Fecha invoice = "N/A"
  /\ Tipo_Dcomento invoice = "N/A" /\ Moneda invoice = "N/A"
  /\ Clase_Factura invoice = "N/A" /\ Total_Factura invoice = "N/A"
  /\ Totales invoice = ∅ /\ Conceptos invoice = [].
Proof.
  intros Hnone. cbv zeta.
  destruct (header_fields L now xml_root) as (Hheader & -> & ->).
  destruct (Totales_mapper L now xml_root) as (-> & _).
  unfold header in Hheader. rewrite Hnone in Hheader.
  injection Hheader as <- <- <- <- <-.
  unfold totals, items. rewrite Hnone. done.
Qed.

Lemma no_invoice_defaults_witness :
  Numero_de_Factura Examples.empty_invoice = "N/A"
  /\ Conceptos Examples.empty_invoice = [].
Proof.
  pose proof (no_invoice_defaults Examples.sample_library
                Examples.sample_now Examples.empty_root eq_refl) as H.
  cbv zeta in H. destruct H as (H1 & _ & _ & _ & _ & _ & _ & H8).
  by split.
Defined.

Lemma string_length_append (s t : string) :
  String.length (s +:+ t) = (String.length s + String.length t)%nat.
Proof.
  induction s as [|c s IH]; [done|].
  rewrite append_cons. simpl. by rewrite IH.
Qed.

(** A routing code built from a centre is never the sentinel. *)
Lemma routing_text_not_sentinel (code desc : string) :
  code +:+ " - " +:+ desc <> "N/A".
Proof.
  intros H. pose proof (f_equal String.length H) as Hlen.
  rewrite !string_length_append in Hlen. simpl in Hlen.
  destruct code; [|simpl in Hlen; lia].
  discriminate H.
Qed.

Lemma destino_sentinel (buyer_party : option Element) (i : nat) :
  destino (destinos buyer_party) i = "N/A"
  <-> (length (destinos buyer_party) <= i)%nat.
Proof.
  unfold destino. rewrite <- lookup_ge_None.
  destruct (destinos buyer_party !! i) as [d|] eqn:E; [|done].
  split; [|done]. intros ->. exfalso.
  apply list_elem_of_lookup_2 in E. unfold destinos in E.
  destruct buyer_party as [bp|]; [|by apply elem_of_nil in E].
  apply list_elem_of_fmap in E as (admin & Hd & _).
  symmetry in Hd. by apply routing_text_not_sentinel in Hd.
Qed.

(** The three routing codes of the receiver are taken by position from the
    administrative centres of the buyer, and one of them is the sentinel
    exactly when the buyer has no centre at that position: a centre
    without code or name still gives a text of its own. *)
Theorem routing_codes_by_position (xml_root : Element) :
  let buyer_party := find xml_root [Self; Descendant "BuyerParty"] in
  let centres := destinos buyer_party in
  let receptor := receptor xml_root in
  receptor !! "OfiCont" = Some (destino centres 0)
  /\ receptor !! "OrgGest" = Some (destino centres 1)
  /\ receptor !! "UndTram" = Some (destino centres 2)
  /\ (receptor !! "OfiCont" = Some "N/A" <-> (length centres <= 0)%nat)
  /\ (receptor !! "OrgGest" = Some "N/A" <-> (length centres <= 1)%nat)
  /\ (receptor !! "UndTram" = Some "N/A" <-> (length centres <= 2)%nat)
  /\ (buyer_party = None -> centres = []).
Proof.
  cbv zeta.
  assert (receptor xml_root !! "OfiCont"
          = Some (destino (destinos (find xml_root
                                       [Self; Descendant "BuyerParty"])) 0)
          /\ receptor xml_root !! "OrgGest"
             = Some (destino (destinos (find xml_root
                                          [Self; Descendant "BuyerParty"])) 1)
          /\ receptor xml_root !! "UndTram"
             = Some (destino (destinos (find xml_root
                                          [Self; Descendant "BuyerParty"])) 2))
    as (H0 & H1 & H2).
  { unfold receptor.
    by destruct (find xml_root [Self; Descendant "BuyerParty"]). }
  rewrite H0, H1, H2.
  repeat split; try (intros [= H]; by apply destino_sentinel in H);
    try (intros H; f_equal; by apply destino_sentinel).
  by intros ->.
Qed.

(** Two centres: the first two codes come from them, the third is the
    sentinel. *)
Lemma routing_codes_by_position_witness :
  receptor MoreExamples.buyer_root !! "OfiCont" = Some "L01 - Oficina"
  /\ receptor MoreExamples.buyer_root !! "OrgGest" = Some "N/A - N/A"
  /\ receptor MoreExamples.buyer_root !! "UndTram" = Some "N/A"
  /\ destinos (find Examples.empty_root [Self; Descendant "BuyerParty"]) = [].
Proof.
  pose proof (routing_codes_by_position MoreExamples.buyer_root) as H.
  pose proof (routing_codes_by_position Examples.empty_root) as He.
  cbv zeta in H, He.
  destruct H as (H0 & H1 & _ & _ & _ & H2 & _).
  destruct He as (_ & _ & _ & _ & _ & _ & He).
  split; [exact H0|]. split; [exact H1|]. split.
  - apply H2. vm_compute. lia.
  - apply He. reflexivity.
Defined.

(** The items, line by line. *)
Lemma items_of_invoice (xml_root invoice : Element) :
  invoice_element xml_root = Some invoice ->
  length (items xml_root)
  = length (findall invoice [Self; Descendant "Items"; Child "InvoiceLine"])
  /\ forall i line,
       findall invoice [Self; Descendant "Items"; Child "InvoiceLine"] !! i
       = Some line ->
       exists item,
         items xml_root !! i = Some item
         /\ item !! "Descripción"
            = Some (findtext line [Child "ItemDescription"] "N/A")
         /\ item !! "Cantidad" = Some (findtext line [Child "Quantity"] "N/A")
         /\ item !! "Precio Unitario"
            = Some (findtext line [Child "UnitPriceWithoutTax"] "N/A")
         /\ item !! "Importe" = Some (findtext line [Child "TotalCost"] "N/A")
         /\ forall key, is_Some (item !! key) <-> key ∈ Shape.item_keys.
Proof.
  intros Hinv. unfold items. rewrite Hinv. split; [apply length_map|].
  intros i line Hline. eexists. split.
  - rewrite list_lookup_fmap, Hline. reflexivity.
  - repeat split; try reflexivity.
    + intros H. by apply list_to_map_is_Some in H.
    + intros H. by apply list_to_map_is_Some.
Qed.

(** The line items of the model are the [InvoiceLine] elements of the
    invoice, one item per line and in document order; every item has its
    four fields, each the text of the line or the sentinel. *)
Theorem items_in_document_order (L : Library) (now : Datetime.naive)
    (xml_root invoice : Element) :
  invoice_element xml_root = Some invoice ->
  let lines :=
    findall invoice [Self; Descendant "Items"; Child "InvoiceLine"] in
  let items := Conceptos (_extract_invoice_data_from_xml L now xml_root) in
  length items = length lines
  /\ forall i line,
       lines !! i = Some line ->
       exists item,
         items !! i = Some item
         /\ item !! "Descripción"
            = Some (findtext line [Child "ItemDescription"] "N/A")
         /\ item !! "Cantidad" = Some (findtext line [Child "Quantity"] "N/A")
         /\ item !! "Precio Unitario"
            = Some (findtext line [Child "UnitPriceWithoutTax"] "N/A")
         /\ item !! "Importe" = Some (findtext line [Child "TotalCost"] "N/A")
         /\ forall key, is_Some (item !! key) <-> key ∈ Shape.item_keys.
Proof.
  intros Hinv. cbv zeta.
  destruct (header_fields L now xml_root) as (_ & -> & _).
  by apply items_of_invoice.
Qed.

(** The second line of the second sample has no children: its item holds
    four sentinels. *)
Lemma items_in_document_order_witness :
  length (Conceptos MoreExamples.buyer_invoice) = 2%nat
  /\ exists item,
       Conceptos MoreExamples.buyer_invoice !! 1%nat = Some item
       /\ item !! "Cantidad" = Some "N/A".
Proof.
  edestruct (items_in_document_order Examples.sample_library
               Examples.sample_now MoreExamples.buyer_root) as [Hlen Hitem];
    [reflexivity|].
  split; [exact Hlen|].
  edestruct (Hitem 1%nat) as (item & Hi & _ & Hq & _); [reflexivity|].
  exists item. by split.
Defined.

End MapperMore.

(** ** Document renderer: which sections a document gets *)

Section RendererMore.
Import ET Reportlab Mapper Renderer.

Lemma mapper_texts (L : Library) (now : Datetime.naive) (xml_root : Element) :
  let invoice := _extract_invoice_data_from_xml L now xml_root in
  InfoAdicional invoice = invoice_additional_info xml_root
  /\ ReferenciasLegales invoice = legal_references xml_root
  /\ Firma invoice
     = Interpreter._extract_signature_info_from_xml L now xml_root.
Proof.
  cbv zeta. unfold _extract_invoice_data_from_xml.
  by destruct (header L xml_root) as [[[[? ?] ?] ?] ?].
Qed.

Lemma additional_info_strip (xml_root : Element) :
  invoice_additional_info xml_root
  = PyStr.strip
      (findtext xml_root
         [Self; Descendant "AdditionalData";
          Child "InvoiceAdditionalInformation"] "").
Proof.
  unfold invoice_additional_info.
  by destruct (findtext xml_root _ "").
Qed.

(** The additional-information paragraph is rendered exactly when the
    text found in the document is not blank, and shows that text
    stripped; a text of whitespace only gives no section. *)
Theorem additional_information_block (L : Library) (now : Datetime.naive)
    (xml_root : Element) :
  let text :=
    findtext xml_root
      [Self; Descendant "AdditionalData";
       Child "InvoiceAdditionalInformation"] "" in
  let invoice := _extract_invoice_data_from_xml L now xml_root in
  (Spec.blank text = true -> info_block invoice = [])
  /\ (Spec.blank text = false ->
      info_block invoice
      = [ Paragraph "<b>Información Adicional:</b>" styleN;
          Paragraph (PyStr.strip text) styleN;
          Spacer 1 12 ]).
Proof.
  cbv zeta. unfold info_block.
  destruct (mapper_texts L now xml_root) as (-> & _ & _).
  rewrite additional_info_strip. split; intros H.
  - apply strip_empty in H. by rewrite H.
  - destruct (PyStr.strip _) eqn:E; [|done].
    apply strip_empty in E. congruence.
Qed.

Lemma additional_information_block_witness :
  info_block MoreExamples.buyer_invoice
  = [ Paragraph "<b>Información Adicional:</b>" styleN;
      Paragraph "pago a 30 dias" styleN;
      Spacer 1 12 ]
  /\ info_block Examples.empty_invoice = []
  /\ info_block MoreExamples.spaces_invoice = [].
Proof.
  pose proof (additional_information_block Examples.sample_library
                Examples.sample_now MoreExamples.buyer_root) as H.
  pose proof (additional_information_block Examples.sample_library
                Examples.sample_now Examples.empty_root) as He.
  pose proof (additional_information_block Examples.sample_library
                Examples.sample_now MoreExamples.spaces_root) as Hs.
  cbv zeta in H, He, Hs. destruct H as [_ H]. destruct He as [He _].
  destruct Hs as [Hs _]. split; [|split].
  - apply H. reflexivity.
  - apply He. reflexivity.
  - apply Hs. reflexivity.
Defined.

(** The legal-references section is rendered exactly when some entry of
    the document is not blank; it is then the heading, one paragraph per
    non-blank entry, stripped and in document order, and a spacer. *)
Theorem legal_references_block (L : Library) (now : Datetime.naive)
    (xml_root : Element) :
  let entries :=
    map Spec.entry_text (findall xml_root legal_reference_path) in
  let non_blank := List.filter (fun t => negb (Spec.blank t)) entries in
  let invoice := _extract_invoice_data_from_xml L now xml_root in
  (non_blank = [] -> legal_block invoice = [])
  /\ (non_blank <> [] ->
      legal_block invoice
      = Paragraph "<b>Literales Legales:</b>" styleN
        :: map (fun t => Paragraph (PyStr.strip t) styleN) non_blank
        ++ [Spacer 1 12]).
Proof.
  cbv zeta. unfold legal_block.
  destruct (mapper_texts L now xml_root) as (_ & -> & _).
  unfold legal_references. rewrite legal_references_of_filter.
  destruct (List.filter _ _) as [|t rest]; [done|].
  split; [done|]. intros _. cbn [map]. by rewrite map_map.
Qed.

(** The sample document has two entries, one of them blank; the
    document of [spaces_root] has one that is a no-break space alone and
    one with such characters around its text. *)
Lemma legal_references_block_witness :
  legal_block Examples.sample_invoice
  = [ Paragraph "<b>Literales Legales:</b>" styleN;
      Paragraph "Ley 37/1992" styleN; Spacer 1 12 ]
  /\ legal_block Examples.empty_invoice = []
  /\ legal_block MoreExamples.spaces_invoice
     = [ Paragraph "<b>Literales Legales:</b>" styleN;
         Paragraph "Ley" styleN; Spacer 1 12 ].
Proof.
  pose proof (legal_references_block Examples.sample_library
                Examples.sample_now Examples.sample_root) as H.
  pose proof (legal_references_block Examples.sample_library
                Examples.sample_now Examples.empty_root) as He.
  pose proof (legal_references_block Examples.sample_library
                Examples.sample_now MoreExamples.spaces_root) as Hs.
  cbv zeta in H, He, Hs. destruct H as [_ H]. destruct He as [He _].
  destruct Hs as [_ Hs]. split; [|split].
  - apply H. discriminate.
  - apply He. reflexivity.
  - apply Hs. discriminate.
Defined.

(** For a document with an [InvoiceTotals] subtree the totals table shows
    the six texts found there, and where one is missing the default the
    mapper read it with: [0.00] for the gross amount and the general
    discounts, the sentinel for the other four. *)
Theorem rendered_totals_of_document (L : Library) (now : Datetime.naive)
    (xml_root invoice_elem invoice_totals : Element) :
  invoice_element xml_root = Some invoice_elem ->
  find invoice_elem invoice_totals_path = Some invoice_totals ->
  right_aligned_texts
    (totals_block (_extract_invoice_data_from_xml L now xml_root))
  = [ findtext invoice_totals [Child "TotalGrossAmount"] "0.00";
      findtext invoice_totals [Child "TotalGeneralDiscounts"] "0.00";
      findtext invoice_totals [Child "TotalGrossAmountBeforeTaxes"] "N/A";
      findtext invoice_totals [Child "TotalTaxOutputs"] "N/A";
      findtext invoice_totals [Child "TotalTaxesWithheld"] "N/A";
      findtext invoice_totals [Child "InvoiceTotal"] "N/A" ].
Proof.
  intros Hinv Htot.
  assert (forall key default,
            (key, default) ∈ totals_fields ->
            dict_get (totals xml_root) key "N/A"
            = findtext invoice_totals [Child key] default) as Hget.
  { intros key default H. unfold dict_get.
    by rewrite (totals_present _ _ _ _ _ Hinv Htot H). }
  assert (totals xml_root <> ∅) as Hne.
  { intros H. apply (f_equal (fun m => m !! "InvoiceTotal")) in H.
    rewrite (totals_present _ _ _ "InvoiceTotal" "N/A" Hinv Htot) in H;
      [discriminate H|].
    unfold totals_fields.
    repeat first [apply list_elem_of_here | apply list_elem_of_further]. }
  unfold totals_block.
  destruct (Totales_mapper L now xml_root) as (-> & _).
  rewrite bool_decide_false by done.
  change (right_aligned_texts _)
    with (map (fun '(_, key) => dict_get (totals xml_root) key "N/A")
              Spec.totals_rows).
  cbn [map Spec.totals_rows].
  repeat (f_equal; [apply Hget; unfold totals_fields;
                    repeat first [apply list_elem_of_here
                                 | apply list_elem_of_further]|]).
  f_equal. apply Hget. unfold totals_fields.
  repeat first [apply list_elem_of_here | apply list_elem_of_further].
Qed.

(** An [InvoiceTotals] without children: two zero amounts, four
    sentinels. *)
Lemma rendered_totals_of_document_witness :
  right_aligned_texts
    (totals_block
       (_extract_invoice_data_from_xml Examples.sample_library
          Examples.sample_now
          (Elem "Facturae" None
             [Elem "Invoices" None
                [Elem "Invoice" None [Elem "InvoiceTotals" None []]]])))
  = ["0.00"; "0.00"; "N/A"; "N/A"; "N/A"; "N/A"].
Proof.
  apply (rendered_totals_of_document Examples.sample_library
           Examples.sample_now _
           (Elem "Invoice" None [Elem "InvoiceTotals" None []])
           (Elem "InvoiceTotals" None [])); reflexivity.
Defined.

Lemma items_rows_right_aligned (L : Library)
    (row : gmap string string -> list (list Flowable))
    (items : list (gmap string string)) :
  (forall item,
      map fst (List.filter is_right_aligned
                 (flat_map (flat_map paragraphs) (row item)))
      = Shape.item_numbers L item) ->
  map fst (List.filter is_right_aligned
             (flat_map (flat_map (flat_map paragraphs)) (map row items)))
  = flat_map (Shape.item_numbers L) items.
Proof.
  intros Hrow. induction items as [|item items IH]; [done|].
  cbn [map flat_map]. rewrite List.filter_app, map_app, IH, Hrow. done.
Qed.

(** The items section: one line saying there are no items when the model
    has none; otherwise one table with a header row and one row per item,
    whose right-aligned cells are the three numbers of each item in the
    order of the items. A number that does not format is shown as its raw
    text. *)
Theorem items_block_rows (L : Library) (invoice : Invoice) :
  (Conceptos invoice = [] ->
   items_block L invoice
   = [ Paragraph "No hay conceptos en la factura." styleN; Spacer 1 12 ])
  /\ (Conceptos invoice <> [] ->
      (exists rows widths style,
          items_block L invoice = [Table rows widths style; Spacer 1 12]
          /\ length rows = S (length (Conceptos invoice)))
      /\ right_aligned_texts (items_block L invoice)
         = flat_map (Shape.item_numbers L) (Conceptos invoice))
  /\ (forall digits raw,
      format_float L digits raw = None -> _fmt L (Some raw) digits = raw).
Proof.
  split; [|split].
  - intros H. unfold items_block. by rewrite H.
  - intros H. unfold items_block.
    destruct (Conceptos invoice) as [|item items] eqn:E; [done|]. split.
    + do 3 eexists. split; [reflexivity|]. cbn [length]. by rewrite length_map.
    + unfold right_aligned_texts.
      cbn [flat_map paragraphs]. rewrite !app_nil_r.
      rewrite List.filter_app, map_app.
      rewrite (items_rows_right_aligned L);
        [reflexivity | intros it; reflexivity].
  - intros digits raw H. unfold _fmt. by rewrite H.
Qed.

(** The second sample has two items; the sample library formats no
    number, so the raw texts are shown. *)
Lemma items_block_rows_witness :
  right_aligned_texts
    (items_block Examples.sample_library MoreExamples.buyer_invoice)
  = ["2"; "10.5"; "21"; "N/A"; "N/A"; "N/A"]
  /\ items_block Examples.sample_library Examples.empty_invoice
     = [ Paragraph "No hay conceptos en la factura." styleN; Spacer 1 12 ].
Proof.
  destruct (items_block_rows Examples.sample_library
              MoreExamples.buyer_invoice) as (_ & H & _).
  destruct (items_block_rows Examples.sample_library
              Examples.empty_invoice) as (He & _ & _).
  split.
  - destruct H as [_ H]; [discriminate|]. exact H.
  - apply He. reflexivity.
Defined.

Lemma firma_block_not_found (L : Library) (invoice : Invoice)
    (parametros : Parametros) :
  Interpreter.found (Firma invoice) = false ->
  firma_block invoice = []
  /\ styleN_fontSize (story L invoice parametros) = 8%Z.
Proof.
  intros H. unfold firma_block, story. cbn [styleN_fontSize].
  by rewrite H, andb_false_r.
Qed.

(** The signature section across the three functions. With a certificate
    value that decodes and parses, the story ends with the signature
    heading and one grid whose nine cells show the entries of the
    signature dict, none of them replaced by the sentinel of the renderer,
    and the shared style [styleN] is set to 7 points for the whole
    document. Without a certificate value, or when decoding or parsing
    raises, there is no signature section and the style stays at 8. *)
Theorem signature_block_rendering (L : Library) (now : Datetime.naive)
    (xml_root : Element) (parametros : Parametros) :
  let cert_base64 := findtext xml_root Interpreter.certificate_path "" in
  let info := Interpreter._extract_signature_info_from_xml L now xml_root in
  let invoice := _extract_invoice_data_from_xml L now xml_root in
  (forall cert_der cert,
      cert_base64 <> "" ->
      b64decode L cert_base64 = Return cert_der ->
      load_der_x509_certificate L cert_der = Return cert ->
      (exists grid,
          firma_block invoice
          = [ Spacer 1 12; Paragraph "Firma electrónica" style_subtitle;
              Spacer 1 6; grid; Spacer 1 12 ]
          /\ paragraphs grid
             = flat_map (fun '(label, key) =>
                           [ (label, styleN);
                             (dict_get info key "N/A", styleN) ])
                        Shape.signature_grid)
      /\ (forall label key,
             (label, key) ∈ Shape.signature_grid -> is_Some (info !! key))
      /\ styleN_fontSize (story L invoice parametros) = 7%Z)
  /\ (cert_base64 = ""
      \/ (exists e, b64decode L cert_base64 = Raise e)
      \/ (exists cert_der e,
            b64decode L cert_base64 = Return cert_der
            /\ load_der_x509_certificate L cert_der = Raise e) ->
      firma_block invoice = []
      /\ styleN_fontSize (story L invoice parametros) = 8%Z).
Proof.
  cbv zeta. destruct (mapper_texts L now xml_root) as (_ & _ & Hfirma).
  split.
  - intros cert_der cert Hne Hdec Hload.
    destruct (signature_info_found_dict L now xml_root cert_der cert
                Hne Hdec Hload)
      as (v2 & v3 & v4 & v5 & v6 & v7 & v8 & v9 & v10 & Hinfo).
    assert (bool_decide
              (Interpreter._extract_signature_info_from_xml L now xml_root
               = ∅) = false) as Hnonempty.
    { apply bool_decide_eq_false. intros H.
      apply (f_equal (fun m => m !! "estado")) in H.
      rewrite Hinfo in H. discriminate H. }
    split; [|split].
    + unfold firma_block. rewrite Hfirma, Hnonempty.
      rewrite Hinfo. cbn [negb andb].
      change (Interpreter.found _) with true. cbv iota.
      eexists. split; reflexivity.
    + intros label key H. rewrite Hinfo. apply list_to_map_is_Some.
      unfold Shape.signature_grid in H.
      repeat (apply elem_of_cons in H; destruct H as [[= -> ->] | H];
              [cbn [fmap list_fmap fst];
               repeat first [apply list_elem_of_here
                            | apply list_elem_of_further]|]).
      by apply elem_of_nil in H.
    + unfold story. cbn [styleN_fontSize]. rewrite Hfirma, Hnonempty.
      rewrite Hinfo. reflexivity.
  - intros Hcause. apply firma_block_not_found. rewrite Hfirma.
    destruct (signature_info_cases L now xml_root)
      as [[Hcert Hinfo] | [(Hne & e0 & Hbody & _)
                          | (Hne & der & cert & Hdec & Hload & _)]].
    + rewrite Hinfo. by apply not_found_singleton.
    + by destruct (signature_info_raise L now xml_root e0 Hbody).
    + exfalso. destruct Hcause as [Hc | [[e Hc] | (d & e & Hd & Hl)]].
      * done.
      * by rewrite Hdec in Hc.
      * rewrite Hdec in Hd. injection Hd as <-. by rewrite Hload in Hl.
Qed.

(** The sample document carries a certificate the sample library reads;
    the empty document carries none. *)
Lemma signature_block_rendering_witness :
  styleN_fontSize (story Examples.sample_library Examples.sample_invoice
                         Examples.sample_parametros) = 7%Z
  /\ firma_block Examples.empty_invoice = [].
Proof.
  pose proof (signature_block_rendering Examples.sample_library
                Examples.sample_now Examples.sample_root
                Examples.sample_parametros) as Hs.
  pose proof (signature_block_rendering Examples.sample_library
                Examples.sample_now Examples.empty_root
                Examples.sample_parametros) as He.
  cbv zeta in Hs, He. destruct Hs as [Hs _]. destruct He as [_ He]. split.
  - edestruct (Hs [x30; x82] Examples.sample_certificate) as (_ & _ & H);
      [discriminate | reflexivity | reflexivity |]. exact H.
  - apply He. left. reflexivity.
Defined.

(** The story of a bare document: with no [Invoice] element, no
    additional information, no legal reference that is not blank and no
    certificate value, the document is still rendered and holds the header
    band, the parties, and the line saying there are no items, nothing
    more. *)
Theorem story_of_bare_document (L : Library) (now : Datetime.naive)
    (xml_root : Element) (parametros : Parametros) :
  invoice_element xml_root = None ->
  Spec.blank (findtext xml_root
                [Self; Descendant "AdditionalData";
                 Child "InvoiceAdditionalInformation"] "") = true ->
  List.filter (fun t => negb (Spec.blank t))
    (map Spec.entry_text (findall xml_root legal_reference_path)) = [] ->
  findtext xml_root Interpreter.certificate_path "" = "" ->
  let invoice := _extract_invoice_data_from_xml L now xml_root in
  elements (story L invoice parametros)
  = header_band invoice parametros ++ parties_block invoice
    ++ [ Paragraph "No hay conceptos en la factura." styleN; Spacer 1 12 ]
  /\ styleN_fontSize (story L invoice parametros) = 8%Z.
Proof.
  intros Hinv Hinfo Hlegal Hcert. cbv zeta.
  set (invoice := _extract_invoice_data_from_xml L now xml_root).
  destruct (mapper_texts L now xml_root) as (Htext & Hrefs & Hfirma).
  destruct (header_fields L now xml_root) as (_ & Hitems & _).
  destruct (Totales_mapper L now xml_root) as (Htotals & _).
  fold invoice in Htext, Hrefs, Hfirma, Hitems, Htotals.
  assert (items_block L invoice
          = [ Paragraph "No hay conceptos en la factura." styleN;
              Spacer 1 12 ]) as Hi.
  { unfold items_block, items in *. rewrite Hitems. by rewrite Hinv. }
  assert (totals_block invoice = []) as Ht.
  { apply totals_block_empty. rewrite Htotals. apply totals_absent.
    by left. }
  assert (info_block invoice = []) as Hn.
  { unfold info_block. rewrite Htext, additional_info_strip.
    apply strip_empty in Hinfo. by rewrite Hinfo. }
  assert (legal_block invoice = []) as Hl.
  { unfold legal_block. rewrite Hrefs. unfold legal_references.
    by rewrite legal_references_of_filter, Hlegal. }
  destruct (firma_block_not_found L invoice parametros) as [Hblock Hsize].
  { rewrite Hfirma.
    destruct (signature_info_cases L now xml_root)
      as [[_ H] | [(Hne & _) | (Hne & _)]]; try by destruct Hne.
    rewrite H. by apply not_found_singleton. }
  split; [|exact Hsize].
  unfold story. cbn [elements]. rewrite Hi, Ht, Hn, Hl, Hblock.
  by rewrite !app_nil_r.
Qed.

(** The empty document is such a document. *)
Lemma story_of_bare_document_witness :
  length (elements (story Examples.sample_library Examples.empty_invoice
                          Examples.sample_parametros)) = 6%nat.
Proof.
  destruct (story_of_bare_document Examples.sample_library
              Examples.sample_now Examples.empty_root
              Examples.sample_parametros) as [H _];
    [reflexivity | reflexivity | reflexivity | reflexivity |].
  unfold Examples.empty_invoice. rewrite H. reflexivity.
Defined.

End RendererMore.

(** ** Issue date: formatting twice *)

Section IssueDateMore.
Import Datetime Mapper.

(** Formatting the issue date is idempotent: a date already shown as
    day/month/year, like any text that is not a date, passes through
    unchanged when formatted again. *)
Theorem issue_date_idempotent (L : Library) (raw : string) :
  issue_date_of L (issue_date_of L raw) = issue_date_of L raw.
Proof.
  unfold issue_date_of at 2 3.
  destruct (strptime_Ymd (unicode_decimal L) raw) as [[[y m] d]|] eqn:E.
  - apply strptime_Ymd_sound in E as (Hy & Hm & Hd).
    pose proof (days_in_month_le_31 y m).
    unfold issue_date_of. by rewrite strptime_rejects_formatted by lia.
  - unfold issue_date_of. by rewrite E.
Qed.

End IssueDateMore.

(** ** Pipeline: the container and the markup inside it *)

Section PipelineMore.
Import Extractor Pipeline.

Lemma extract_not_nil (s : bytes) :
  s <> [] -> _extract_xml_from_xsig_bytes s <> [].
Proof.
  intros Hs.
  destruct (extract_cases s)
    as [[_ H] | [(i & _ & _ & H) | (i & j & Hi & Hj & Hij & H)]];
    rewrite H; try done.
  destruct (inclusive_slice_shape s i j) as [body ->];
    [apply Hi | apply Hj | done |]. discriminate.
Qed.

Lemma extract_twice (s : bytes) :
  _extract_xml_from_xsig_bytes (_extract_xml_from_xsig_bytes s)
  = _extract_xml_from_xsig_bytes s.
Proof.
  destruct (extract_cases s)
    as [[_ H] | [(i & _ & _ & H) | (i & j & Hi & Hj & Hij & H)]];
    try by rewrite !H.
  destruct (inclusive_slice_shape s i j) as [body Hbody];
    [apply Hi | apply Hj | done |].
  rewrite H, Hbody. apply extract_wrapped.
Qed.

(** Converting a container and converting the markup extracted from it
    give the same outcome, error or document, whatever the library, the
    clocks and the registry data. *)
Theorem render_of_extracted_markup (L : Library)
    (utcnow now : Datetime.naive) (xsig_bytes : bytes)
    (num_registro tipo_registro num_rcf : string)
    (fecha_hora_registro : Datetime.datetime) :
  xsig_bytes <> [] ->
  render_pdf_from_xsig L utcnow now
    (_extract_xml_from_xsig_bytes xsig_bytes)
    num_registro tipo_registro num_rcf fecha_hora_registro
  = render_pdf_from_xsig L utcnow now xsig_bytes
      num_registro tipo_registro num_rcf fecha_hora_registro.
Proof.
  intros Hs. pose proof (extract_not_nil xsig_bytes Hs) as Hx.
  unfold render_pdf_from_xsig. rewrite extract_twice.
  destruct xsig_bytes as [|b rest]; [done|].
  by destruct (_extract_xml_from_xsig_bytes (b :: rest)).
Qed.

(** The sample container and the markup inside it. *)
Lemma render_of_extracted_markup_witness :
  render_pdf_from_xsig Examples.sample_library Examples.sample_now
    Examples.sample_now [x3c; x3f; x78; x6d; x6c; x3f; x3e]
    "2025/000123" "FACe" "RCF-2025-000987"
    (Datetime.Datetime Examples.sample_now None)
  = render_pdf_from_xsig Examples.sample_library Examples.sample_now
      Examples.sample_now Examples.sample_bytes
      "2025/000123" "FACe" "RCF-2025-000987"
      (Datetime.Datetime Examples.sample_now None).
Proof.
  apply (render_of_extracted_markup Examples.sample_library
           Examples.sample_now Examples.sample_now Examples.sample_bytes).
  discriminate.
Defined.

End PipelineMore.

(** ** Issue date: what [strptime] lets through *)

Section StrptimeSound.
Import ET Datetime Mapper.

(** The issue date of the invoice model is the sentinel without an
    invoice element; with one it is the raw text of the document or a
    calendar date (year 1 to 9999, month 1 to 12 and a day that month
    has) shown as day/month/year, the year as [%Y] writes it, on its four
    digits from year 1000 on. No text comes out with a thirteenth month
    or a thirtieth of February. *)
Theorem issue_date_is_raw_or_calendar_date (L : Library) (now : naive)
    (xml_root : Element) :
  let invoice := _extract_invoice_data_from_xml L now xml_root in
  (invoice_element xml_root = None -> Fecha invoice = "N/A")
  /\ (forall element,
      invoice_element xml_root = Some element ->
      let raw := findtext element (issue_data_path "IssueDate") "N/A" in
      Fecha invoice = raw
      \/ exists y m d,
           1 <= y <= 9999 /\ 1 <= m <= 12 /\ 1 <= d <= days_in_month y m
           /\ Fecha invoice
              = pad2 d +:+ "/" +:+ pad2 m +:+ "/"
                +:+ strftime_Y (year_below_1000 L) y
           /\ (1000 <= y ->
               Fecha invoice
               = pad2 d +:+ "/" +:+ pad2 m +:+ "/" +:+ pad4 y)).
Proof.
  cbv zeta. rewrite Fecha_of_document. split; [by intros ->|].
  intros element ->. unfold issue_date_of.
  destruct (strptime_Ymd (unicode_decimal L) _) as [[[y m] d]|] eqn:E;
    [|by left].
  right. exists y, m, d. apply strptime_Ymd_sound in E.
  destruct E as (Hy & Hm & Hd). repeat split; try lia.
  intros Hy'. unfold strftime_dmY, strftime_Y.
  destruct (Z.leb_spec 1000 y); [done | lia].
Qed.

(** The sample document, dated [2025-03-15], and the empty one. *)
Lemma issue_date_is_raw_or_calendar_date_witness :
  (Fecha Examples.sample_invoice = "2025-03-15"
   \/ exists y m d,
        1 <= y <= 9999 /\ 1 <= m <= 12 /\ 1 <= d <= days_in_month y m
        /\ Fecha Examples.sample_invoice
           = pad2 d +:+ "/" +:+ pad2 m +:+ "/"
             +:+ strftime_Y Examples.unpadded_year y
        /\ (1000 <= y ->
            Fecha Examples.sample_invoice
            = pad2 d +:+ "/" +:+ pad2 m +:+ "/" +:+ pad4 y))
  /\ Fecha Examples.empty_invoice = "N/A".
Proof.
  pose proof (issue_date_is_raw_or_calendar_date Examples.sample_library
                Examples.sample_now Examples.sample_root) as Hs.
  pose proof (issue_date_is_raw_or_calendar_date Examples.sample_library
                Examples.sample_now Examples.empty_root) as He.
  cbv zeta in Hs, He. destruct Hs as [_ Hs]. destruct He as [He _]. split.
  - exact (Hs _ eq_refl).
  - apply He. reflexivity.
Defined.

End StrptimeSound.

(** ** [utils.py]: accepted values and safe file names *)

Section UtilsFacts.
Import PyStr Utils.

Variable is_word : string -> bool.

Lemma remainders_spec (n : nat) (l rest : list string) :
  In rest (remainders is_word n l) <->
  exists pre,
    l = pre ++ rest /\ (1 <= length pre <= n)%nat
    /\ forallb (allowed is_word) pre = true.
Proof.
  revert l. induction n as [|n IH]; intros l.
  - simpl. split; [done|]. intros (pre & _ & H & _). lia.
  - destruct l as [|c l].
    + simpl. split; [done|]. intros (pre & H & Hlen & _).
      destruct pre; [simpl in Hlen; lia | discriminate H].
    + cbn [remainders]. destruct (allowed is_word c) eqn:Ec.
      * cbn [In]. rewrite IH. split.
        -- intros [<- | (pre & -> & Hlen & Hall)].
           ++ exists [c]. cbn [forallb length app]. rewrite Ec.
              repeat split; lia.
           ++ exists (c :: pre). cbn [forallb length app]. rewrite Ec.
              repeat split; try done; lia.
        -- intros (pre & H & Hlen & Hall).
           destruct pre as [|p pre]; [simpl in Hlen; lia|].
           cbn [app] in H. injection H as <- ->.
           cbn [forallb] in Hall. apply andb_true_iff in Hall as [_ Hall].
           destruct pre as [|p' pre'].
           ++ by left.
           ++ right. exists (p' :: pre'). repeat split; try done.
              ** simpl. lia.
              ** simpl in Hlen |- *. lia.
      * split; [done|]. intros (pre & H & Hlen & Hall).
        destruct pre as [|p pre]; [simpl in Hlen; lia|].
        cbn [app] in H. injection H as <- ->.
        cbn [forallb] in Hall. by rewrite Ec in Hall.
Qed.

(** On a stripped text, whose last character is not whitespace, the
    pattern matches exactly the texts of one to fifty characters of the
    class. *)
Lemma allowed_re_match_stripped (v : string) :
  strip v = v ->
  allowed_re_match is_word v = true <->
  (1 <= len v <= 50)%nat /\ forallb (allowed is_word) (chars v) = true.
Proof.
  intros Hv. unfold allowed_re_match, len. rewrite existsb_exists. split.
  - intros (rest & Hin & Hend).
    apply remainders_spec in Hin as (pre & Heq & Hlen & Hall).
    destruct rest as [|c [|? ?]]; [| |done].
    + rewrite app_nil_r in Heq. by rewrite Heq.
    + exfalso. cbn [at_end] in Hend. apply String.eqb_eq in Hend. subst c.
      pose proof (chars_strip v) as Hs. rewrite Hv in Hs.
      rewrite Heq in Hs at 1. symmetry in Hs.
      apply rstrip_chars_last in Hs. discriminate Hs.
  - intros [Hlen Hall]. exists []. split; [|done].
    apply remainders_spec. exists (chars v). by rewrite app_nil_r.
Qed.

Lemma sanitize_text_returns (value v : string) :
  sanitize_text is_word value = Return v <->
  v = strip value /\ (1 <= len v <= 50)%nat
  /\ forallb (allowed is_word) (chars v) = true.
Proof.
  unfold sanitize_text.
  assert ((if truthy value then value else "") = value) as ->
    by (by destruct value).
  pose proof (allowed_re_match_stripped (strip value) (strip_idempotent value))
    as Hmatch.
  destruct (truthy (strip value)) eqn:Et; cbn [negb orb].
  - destruct (Nat.ltb_spec 50 (len (strip value))) as [Hlt|Hle];
      cbn [orb].
    + split; [done|]. intros (-> & Hlen & _). lia.
    + destruct (allowed_re_match is_word (strip value)) eqn:Em; cbn [negb].
      * destruct Hmatch as [Hm _]. destruct (Hm eq_refl) as [Hlen Hall].
        split; [by intros [= <-] | by intros (-> & _)].
      * split; [done|]. intros (-> & Hlen & Hall).
        destruct Hmatch as [_ Hm]. by discriminate Hm.
  - split; [done|]. intros (-> & Hlen & _).
    destruct (strip value); [cbn in Hlen; lia | done].
Qed.

(** [sanitize_text] returns a value exactly when the stripped input has one
    to fifty characters, all of the class [[\w/\-\.]]; the value returned
    is the stripped input, and it is accepted again as it is. An input
    that is empty or blank is refused. *)
Theorem sanitize_text_accepts (value v : string) :
  (sanitize_text is_word value = Return v <->
   v = strip value /\ (1 <= len v <= 50)%nat
   /\ forallb (allowed is_word) (chars v) = true)
  /\ (sanitize_text is_word value = Return v ->
      sanitize_text is_word v = Return v)
  /\ (Spec.blank value = true ->
      exists msg, sanitize_text is_word value = Raise msg).
Proof.
  split; [apply sanitize_text_returns|]. split.
  - intros H. apply sanitize_text_returns in H as (-> & Hlen & Hall).
    apply sanitize_text_returns. by rewrite strip_idempotent.
  - intros H. apply strip_empty in H. unfold sanitize_text.
    assert ((if truthy value then value else "") = value) as ->
      by (by destruct value).
    rewrite H. by eexists.
Qed.

Lemma forallb_take {A : Type} (p : A -> bool) (n : nat) (l : list A) :
  forallb p l = true -> forallb p (take n l) = true.
Proof.
  revert l. induction n as [|n IH]; intros [|x l]; cbn [take forallb];
    try done.
  rewrite !andb_true_iff. intros [Hx Hl]. split; [done | by apply IH].
Qed.

Lemma take_are_chars (n : nat) (l : list string) :
  are_chars l = true -> are_chars (take n l) = true.
Proof.
  destruct l as [|t l]; [by destruct n|]. intros H.
  pose proof (are_chars_tail t l H) as [H1 H2].
  unfold are_chars in H. cbn [forallb] in H.
  apply andb_true_iff in H as [H _]. apply andb_true_iff in H as [Ht _].
  destruct n as [|n]; [done|]. unfold are_chars. cbn [take forallb tail].
  by rewrite Ht, !forallb_take.
Qed.

Lemma sub_runs_chars (in_run : bool) (l : list string) :
  forallb (kept_or_underscore is_word) (sub_runs is_word in_run l) = true.
Proof.
  revert in_run. induction l as [|c l IH]; intros in_run; [done|].
  cbn [sub_runs]. destruct (kept is_word c) eqn:Ec.
  - cbn [forallb]. unfold kept_or_underscore at 1. by rewrite Ec, IH.
  - destruct in_run; [apply IH|].
    cbn [forallb]. rewrite IH. unfold kept_or_underscore.
    by rewrite orb_true_r.
Qed.

Lemma sub_runs_kept (in_run : bool) (l : list string) :
  forallb (kept is_word) l = true -> sub_runs is_word in_run l = l.
Proof.
  revert in_run. induction l as [|c l IH]; intros in_run; [done|].
  cbn [forallb sub_runs]. rewrite andb_true_iff. intros [-> Hl].
  by rewrite IH.
Qed.

(** The substitution keeps characters whole. *)
Lemma sub_runs_fresh (in_run : bool) (l : list string) :
  forallb is_char l = true ->
  forallb (fun t => negb (continues t)) l = true ->
  forallb is_char (sub_runs is_word in_run l) = true
  /\ forallb (fun t => negb (continues t)) (sub_runs is_word in_run l) = true.
Proof.
  revert in_run. induction l as [|c l IH]; intros in_run; [done|].
  cbn [forallb sub_runs]. rewrite !andb_true_iff.
  intros [Hc Hl] [Hf Hfl].
  destruct (kept is_word c).
  - destruct (IH false Hl Hfl) as [H1 H2]. cbn [forallb].
    by rewrite Hc, Hf, H1, H2.
  - destruct in_run; [by apply IH|].
    destruct (IH true Hl Hfl) as [H1 H2]. cbn [forallb].
    by rewrite H1, H2.
Qed.

Lemma sub_runs_are_chars (l : list string) :
  are_chars l = true -> are_chars (sub_runs is_word false l) = true.
Proof.
  destruct l as [|t l]; [done|]. intros H.
  pose proof (are_chars_tail t l H) as [H1 H2].
  unfold are_chars in H. cbn [forallb] in H.
  apply andb_true_iff in H as [H _]. apply andb_true_iff in H as [Ht _].
  cbn [sub_runs]. unfold are_chars. destruct (kept is_word t).
  - destruct (sub_runs_fresh false l H1 H2) as [H3 H4].
    cbn [forallb tail]. by rewrite Ht, H3, H4.
  - destruct (sub_runs_fresh true l H1 H2) as [H3 H4].
    cbn [forallb tail]. by rewrite H3, H4.
Qed.

Lemma forallb_impl {A : Type} (p q : A -> bool) (l : list A) :
  (forall x, p x = true -> q x = true) ->
  forallb p l = true -> forallb q l = true.
Proof.
  intros Hpq. induction l as [|x l IH]; [done|].
  cbn [forallb]. rewrite !andb_true_iff. intros [Hx Hl].
  split; [by apply Hpq | by apply IH].
Qed.

(** The characters of a name made safe. *)
Lemma make_safe_filename_chars (base : string) :
  exists name,
    make_safe_filename is_word base = join name
    /\ chars (join name) = name
    /\ (length name <= 128)%nat
    /\ forallb (kept_or_underscore is_word) name = true.
Proof.
  unfold make_safe_filename.
  set (r := sub_runs is_word false (chars (strip base))).
  assert (are_chars r = true) as Hr
    by apply sub_runs_are_chars, chars_are_chars.
  pose proof (sub_runs_chars false (chars (strip base))) as Hall.
  fold r in Hall.
  destruct (Nat.ltb_spec 128 (length r)).
  - exists (take 128 r). split; [done|].
    split; [by apply chars_join, take_are_chars|].
    split; [rewrite length_take; lia | by apply forallb_take].
  - exists r. split; [done|]. split; [by apply chars_join|]. by split.
Qed.

(** A file name made safe has at most 128 characters, each a word
    character, a dot, a hyphen or an underscore. When the underscore is a
    word character and no word character is whitespace, as is the case of
    the class [\w], making it safe again changes nothing. *)
Theorem make_safe_filename_safe (base : string) :
  (len (make_safe_filename is_word base) <= 128)%nat
  /\ forallb (kept_or_underscore is_word)
             (chars (make_safe_filename is_word base)) = true
  /\ (is_word "_" = true ->
      (forall ch, is_word ch = true -> isspace ch = false) ->
      make_safe_filename is_word (make_safe_filename is_word base)
      = make_safe_filename is_word base).
Proof.
  destruct (make_safe_filename_chars base)
    as (name & -> & Hchars & Hlen & Hall).
  unfold len. rewrite Hchars.
  split; [done|]. split; [done|]. intros Hu Hs.
  assert (forallb (kept is_word) name = true) as Hkept.
  { revert Hall. apply forallb_impl. intros ch.
    unfold kept_or_underscore. rewrite orb_true_iff.
    intros [H | H]; [done|].
    apply String.eqb_eq in H. subst ch. unfold kept. by rewrite Hu. }
  assert (forallb (fun ch => negb (isspace ch)) name = true) as Hclean.
  { revert Hkept. apply forallb_impl. intros ch.
    unfold kept. rewrite !orb_true_iff, negb_true_iff.
    intros [[H | H] | H].
    - by apply Hs.
    - apply String.eqb_eq in H. by subst ch.
    - apply String.eqb_eq in H. by subst ch. }
  assert (strip (join name) = join name) as Hstrip.
  { unfold strip. rewrite Hchars. rewrite lstrip_chars_clean.
    - by rewrite rstrip_chars_nonspace.
    - destruct name as [|ch name]; [done|]. cbn [forallb] in Hclean.
      apply andb_true_iff in Hclean as [H _]. by apply negb_true_iff in H. }
  unfold make_safe_filename at 1.
  rewrite Hstrip, Hchars, sub_runs_kept by done.
  destruct (Nat.ltb_spec 128 (length name)); [lia | done].
Qed.

End UtilsFacts.

Section UtilsExamples.
Import Utils.

(** With the word characters of the ASCII range: a registry number is
    accepted, with the spaces around it and with a no-break space before
    it; the empty text is refused. *)
Lemma sanitize_text_accepts_witness :
  sanitize_text ascii_word " 2025/000123 " = Return "2025/000123"
  /\ sanitize_text ascii_word "2025/000123" = Return "2025/000123"
  /\ sanitize_text ascii_word (MoreExamples.nbsp +:+ "abc") = Return "abc"
  /\ exists msg, sanitize_text ascii_word "" = Raise msg.
Proof.
  destruct (sanitize_text_accepts ascii_word " 2025/000123 " "2025/000123")
    as (Hiff & Hidem & _).
  destruct (sanitize_text_accepts ascii_word (MoreExamples.nbsp +:+ "abc")
              "abc") as (Hnbsp & _ & _).
  destruct (sanitize_text_accepts ascii_word "" "") as (_ & _ & Hblank).
  assert (sanitize_text ascii_word " 2025/000123 " = Return "2025/000123")
    as H.
  { apply Hiff. split; [reflexivity|].
    split; [vm_compute; lia | reflexivity]. }
  split; [exact H|]. split; [by apply Hidem|]. split.
  - apply Hnbsp. split; [reflexivity|]. split; [vm_compute; lia | reflexivity].
  - apply Hblank. reflexivity.
Defined.

Lemma ascii_word_not_space (ch : string) :
  ascii_word ch = true -> PyStr.isspace ch = false.
Proof.
  destruct ch as [|c [|? ?]]; try done.
  destruct c as [[] [] [] [] [] [] [] []]; by vm_compute.
Qed.

(** A file name with a space and a slash in it. *)
Lemma make_safe_filename_safe_witness :
  make_safe_filename ascii_word " Factura 2025/01.pdf "
  = "Factura_2025_01.pdf"
  /\ make_safe_filename ascii_word "Factura_2025_01.pdf"
     = "Factura_2025_01.pdf".
Proof.
  split; [reflexivity|].
  destruct (make_safe_filename_safe ascii_word " Factura 2025/01.pdf ")
    as (_ & _ & H).
  apply H; [reflexivity | apply ascii_word_not_space].
Defined.

End UtilsExamples.
